(** * ArchiveNET API: the bootstrap layer

    A shallow embedding of the start-up code of the ArchiveNET backend:

    - [src/config/redis.ts]: [initializeRedis], the long-lived cache
      connection and its [ready]/[error] listeners;
    - [src/utils/helper.ts]: [checkArLocalRunning], [validateWalletAddress],
      [checkRedisConnectivity] (and, in the earlier text of the file, a
      second [initializeRedis]);
    - [src/config/arweave.ts]: [initializeArweave].

    [helper.ts] is present in two successive texts.  Both are embedded: the
    earlier one in [Module HelperOld], the later one in [Module Helper].

    Asynchronous functions are run to completion one at a time, so an
    [async] function is a computation in a monad [M] that threads the state
    of the process (console, file system, clock, open connections, the
    module variable [healthCheckCache]) and ends either normally or by a
    thrown [Error].  What the outside world answers (does the constructor of
    the client throw, does the ping come back, how long does it take) is an
    explicit argument. *)

From Stdlib Require Import ZArith String Ascii List Bool Lia.
From stdpp Require Import base option gmap strings list pretty.
Import ListNotations.

Open Scope string_scope.
Open Scope list_scope.

(** ** Values of the language *)

Module JS.

(** An [Error] object; only its message is observed by the code. *)
Record Error : Type := mkError { message : string }.

(** Truthiness of a value of type [string | undefined]: [undefined] and the
    empty string are falsy. *)
Definition truthy (v : option string) : bool :=
  match v with
  | Some s => negb (String.eqb s "")
  | None => false
  end.

(** A string is the sequence of the bytes of its UTF-8 encoding. *)
Definition bytes (l : list nat) : string :=
  fold_right (fun n s => String (ascii_of_nat n) s) EmptyString l.

(** The encodings of the white space and line terminators that
    [String.prototype.trim] strips: U+0009 to U+000D, U+0020, U+00A0,
    U+1680, U+2000 to U+200A, U+2028, U+2029, U+202F, U+205F, U+3000 and
    U+FEFF. *)
Definition white_space : list (list nat) :=
  [[9]; [10]; [11]; [12]; [13]; [32]; [194; 160]; [225; 154; 128];
   [226; 128; 128]; [226; 128; 129]; [226; 128; 130]; [226; 128; 131];
   [226; 128; 132]; [226; 128; 133]; [226; 128; 134]; [226; 128; 135];
   [226; 128; 136]; [226; 128; 137]; [226; 128; 138]; [226; 128; 168];
   [226; 128; 169]; [226; 128; 175]; [226; 129; 159]; [227; 128; 128];
   [239; 187; 191]].

(** [s] without its prefix [p], when it has that prefix. *)
Fixpoint without_prefix (p s : string) : option string :=
  match p with
  | EmptyString => Some s
  | String c p' =>
      match s with
      | String d s' => if Ascii.eqb c d then without_prefix p' s' else None
      | EmptyString => None
      end
  end.

(** [s] without the first of the prefixes [ps] that it starts with. *)
Fixpoint without_any_prefix (ps : list string) (s : string) : option string :=
  match ps with
  | [] => None
  | p :: ps' =>
      match without_prefix p s with
      | Some s' => Some s'
      | None => without_any_prefix ps' s
      end
  end.

(** Strip prefixes among [ps] as long as there is one; every step removes a
    byte at least, so the length of the string bounds the number of steps. *)
Fixpoint strip_leading (ps : list string) (steps : nat) (s : string)
    : string :=
  match steps with
  | O => s
  | S steps' =>
      match without_any_prefix ps s with
      | Some s' => strip_leading ps steps' s'
      | None => s
      end
  end.

Fixpoint reverse_onto (s acc : string) : string :=
  match s with
  | String c s' => reverse_onto s' (String c acc)
  | EmptyString => acc
  end.

Definition reverse (s : string) : string := reverse_onto s EmptyString.

Definition trimStart (s : string) : string :=
  strip_leading (map bytes white_space) (String.length s) s.

Definition trimEnd (s : string) : string :=
  reverse
    (strip_leading (map (fun l => bytes (rev l)) white_space)
       (String.length s) (reverse s)).

Definition trim (s : string) : string := trimEnd (trimStart s).

(** [hay.includes(needle)] *)
Fixpoint includes (hay needle : string) : bool :=
  (String.prefix needle hay
   || match hay with
      | String _ hay' => includes hay' needle
      | EmptyString => false
      end)%bool.

End JS.

(** ** The console *)

Inductive Level : Type := LOG | WARN | ERROR.

(** One call of [console.log], [console.warn] or [console.error].  Several
    arguments are joined by a space, an [Error] argument is shown by its
    message. *)
Record LogLine : Type := mkLine { level : Level; text : string }.

Definition is_warning (l : LogLine) : bool :=
  match level l with WARN => true | _ => false end.

(** ** The cache client (ioredis) *)

Record RedisOptions : Type := mkRedisOptions {
  connectTimeout : Z;
  commandTimeout : Z;
  lazyConnect : bool;
  maxRetriesPerRequest : Z;
  enableAutoPipelining : bool
}.

(** A listener closes over the variable [hasLoggedDisconnection] of the call
    of [initializeRedis] that registered it; it is a function from the value
    of that variable to its new value and the lines written. *)
Definition Listener : Type := bool -> bool * list LogLine.

(** A client object.  [conn_id] names the underlying connection, so that a
    later [disconnect] can be matched with the construction. *)
Record Redis : Type := mkRedis {
  conn_id : nat;
  conn_url : string;
  conn_options : option RedisOptions;
  listeners : list (string * Listener)
}.

(** [redis.on(event, listener)] *)
Definition on (event : string) (l : Listener) (r : Redis) : Redis :=
  {| conn_id := conn_id r; conn_url := conn_url r;
     conn_options := conn_options r;
     listeners := listeners r ++ [(event, l)] |}.

(** The client emits [event]: every listener registered for it runs, in the
    order of registration. *)
Fixpoint emit_to (ls : list (string * Listener)) (event : string)
    (flag : bool) : bool * list LogLine :=
  match ls with
  | [] => (flag, [])
  | (name, l) :: ls' =>
      if String.eqb name event then
        let '(flag1, out1) := l flag in
        let '(flag2, out2) := emit_to ls' event flag1 in
        (flag2, out1 ++ out2)
      else emit_to ls' event flag
  end.

(** A sequence of events, first to last. *)
Fixpoint emit_all (ls : list (string * Listener)) (events : list string)
    (flag : bool) : bool * list LogLine :=
  match events with
  | [] => (flag, [])
  | ev :: events' =>
      let '(flag1, out1) := emit_to ls ev flag in
      let '(flag2, out2) := emit_all ls events' flag1 in
      (flag2, out1 ++ out2)
  end.

(** ** The execution environment (Warp, Arweave) *)

Inductive Network : Type :=
| Mainnet (useArweaveGw : bool)
| Local (port : Z)
| Testnet (useArweaveGw : bool).

Inductive Plugin : Type := DeployPlugin.

(** A [Warp] instance: the network it talks to, the client of the key-value
    storage factory installed by [useKVStorageFactory] (if any), and the
    plugins attached by [use]. *)
Record Warp : Type := mkWarp {
  network : Network;
  kvStorageClient : option Redis;
  plugins : list Plugin
}.

Module WarpFactory.
Definition forMainnet (useArweaveGw : bool) : Warp :=
  {| network := Mainnet useArweaveGw; kvStorageClient := None; plugins := [] |}.
Definition forLocal (port : Z) : Warp :=
  {| network := Local port; kvStorageClient := None; plugins := [] |}.
Definition forTestnet (useArweaveGw : bool) : Warp :=
  {| network := Testnet useArweaveGw; kvStorageClient := None; plugins := [] |}.
End WarpFactory.

(** [warp.useKVStorageFactory(id => new RedisCache(.., { client }))] *)
Definition useKVStorageFactory (client : Redis) (w : Warp) : Warp :=
  {| network := network w; kvStorageClient := Some client; plugins := plugins w |}.

(** [warp.use(plugin)] *)
Definition use (p : Plugin) (w : Warp) : Warp :=
  {| network := network w; kvStorageClient := kvStorageClient w;
     plugins := p :: plugins w |}.

(** What the code takes from the platform and from the Arweave library: the
    type of keypairs, the two [JSON] functions on them, and the derivation
    of the address of a keypair.  [None] stands for a thrown exception. *)
Class Platform : Type := {
  JWKInterface : Type;
  JSON_parse : string -> option JWKInterface;
  JSON_stringify : JWKInterface -> string;
  jwkToAddress : JWKInterface -> option string
}.

(** ** The state of the process and the outside world *)

(** The snapshot returned by [checkRedisConnectivity]. *)
Record HealthResult : Type := mkHealth {
  configured : bool;
  connected : bool;
  status : string;
  details : option string
}.

Inductive NetEvent : Type :=
| RedisConnect (id : nat) (url : string)
| RedisPing (id : nat)
| RedisDisconnect (id : nat)
| HttpGet (url : string).

Record World : Type := mkWorld {
  env : gmap string string;            (* process.env *)
  fs : gmap string string;             (* files, by path *)
  clock : Z;                           (* Date.now(), in ms *)
  console : list LogLine;              (* lines written, oldest first *)
  net : list NetEvent;                 (* network activity, oldest first *)
  next_conn : nat;                     (* next connection identifier *)
  healthCheckCache : option (HealthResult * Z)  (* helper.ts, module level *)
}.

Inductive PingOutcome : Type :=
| Pong
| PingRejected (e : JS.Error).

Inductive FetchOutcome : Type :=
| Response (ok : bool)
| FetchRejected (e : JS.Error).

(** The answers of the cache server to one run. *)
Record RedisOutside : Type := mkRedisOutside {
  redis_ctor : option JS.Error;   (* [new Redis(..)] throws this *)
  redis_ping : PingOutcome;       (* how [ping()] settles ... *)
  ping_elapsed : Z                (* ... and after how many ms *)
}.

(** ** Computations *)

Inductive Completion (A : Type) : Type :=
| Normal (a : A)
| Throw (e : JS.Error).
Arguments Normal {A} a.
Arguments Throw {A} e.

Definition M (A : Type) : Type := World -> Completion A * World.

Definition ret {A} (a : A) : M A := fun w => (Normal a, w).

Definition throw {A} (e : JS.Error) : M A := fun w => (Throw e, w).

Definition bind {A B} (m : M A) (k : A -> M B) : M B :=
  fun w =>
    match m w with
    | (Normal a, w') => k a w'
    | (Throw e, w') => (Throw e, w')
    end.

Notation "'let*' x ':=' m 'in' k" := (bind m (fun x => k))
  (at level 10, x name, m at level 100, k at level 200).

(** [try { body } catch (error) { handler }] *)
Definition try_catch {A} (body : M A) (handler : JS.Error -> M A) : M A :=
  fun w =>
    match body w with
    | (Normal a, w') => (Normal a, w')
    | (Throw e, w') => handler e w'
    end.

(** [try { body } finally { cleanup }]: the cleanup runs on both ways out
    and the completion of the body is kept, unless the cleanup throws. *)
Definition try_finally {A} (body : M A) (cleanup : M unit) : M A :=
  fun w =>
    match body w with
    | (c, w') =>
        match cleanup w' with
        | (Normal _, w'') => (c, w'')
        | (Throw e, w'') => (Throw e, w'')
        end
    end.

Definition set_console (c : list LogLine) (w : World) : World :=
  {| env := env w; fs := fs w; clock := clock w; console := c; net := net w;
     next_conn := next_conn w; healthCheckCache := healthCheckCache w |}.

Definition set_fs (f : gmap string string) (w : World) : World :=
  {| env := env w; fs := f; clock := clock w; console := console w;
     net := net w; next_conn := next_conn w;
     healthCheckCache := healthCheckCache w |}.

Definition set_clock (t : Z) (w : World) : World :=
  {| env := env w; fs := fs w; clock := t; console := console w; net := net w;
     next_conn := next_conn w; healthCheckCache := healthCheckCache w |}.

Definition set_net (n : list NetEvent) (k : nat) (w : World) : World :=
  {| env := env w; fs := fs w; clock := clock w; console := console w;
     net := n; next_conn := k; healthCheckCache := healthCheckCache w |}.

Definition set_healthCheckCache (c : option (HealthResult * Z)) (w : World)
    : World :=
  {| env := env w; fs := fs w; clock := clock w; console := console w;
     net := net w; next_conn := next_conn w; healthCheckCache := c |}.

Definition console_write (lv : Level) (s : string) : M unit :=
  fun w => (Normal tt, set_console (console w ++ [mkLine lv s]) w).

Definition console_log : string -> M unit := console_write LOG.
Definition console_warn : string -> M unit := console_write WARN.
Definition console_error : string -> M unit := console_write ERROR.

(** [process.env.NAME] *)
Definition process_env (name : string) : M (option string) :=
  fun w => (Normal (env w !! name), w).

Definition Date_now : M Z := fun w => (Normal (clock w), w).

(** Time passing while the computation is suspended on an [await]. *)
Definition elapse (ms : Z) : M unit :=
  fun w => (Normal tt, set_clock (clock w + ms)%Z w).

Definition read_healthCheckCache : M (option (HealthResult * Z)) :=
  fun w => (Normal (healthCheckCache w), w).

Definition write_healthCheckCache (r : HealthResult) (t : Z) : M unit :=
  fun w => (Normal tt, set_healthCheckCache (Some (r, t)) w).

(** [new Redis(url, options)]: either the constructor throws, or a
    connection is opened and a client without listeners is returned. *)
Definition new_Redis (out : RedisOutside) (url : string)
    (opts : option RedisOptions) : M Redis :=
  fun w =>
    match redis_ctor out with
    | Some e => (Throw e, w)
    | None =>
        let id := next_conn w in
        (Normal {| conn_id := id; conn_url := url; conn_options := opts;
                   listeners := [] |},
         set_net (net w ++ [RedisConnect id url]) (S id) w)
    end.

(** [await redis.ping()] *)
Definition ping (out : RedisOutside) (r : Redis) : M unit :=
  fun w =>
    let w1 := set_net (net w ++ [RedisPing (conn_id r)]) (next_conn w) w in
    let w2 := set_clock (clock w1 + ping_elapsed out)%Z w1 in
    match redis_ping out with
    | Pong => (Normal tt, w2)
    | PingRejected e => (Throw e, w2)
    end.

(** [await Promise.race([redis.ping(), new Promise((_, reject) =>
    setTimeout(() => reject(new Error(msg)), ms))])]: the ping is sent; if it
    has not settled when the timer fires the race rejects with the timer's
    error, otherwise it settles as the ping does. *)
Definition race_ping_timeout (out : RedisOutside) (r : Redis) (ms : Z)
    (msg : string) : M unit :=
  fun w =>
    let w1 := set_net (net w ++ [RedisPing (conn_id r)]) (next_conn w) w in
    if (ms <=? ping_elapsed out)%Z then
      (Throw (JS.mkError msg), set_clock (clock w1 + ms)%Z w1)
    else
      let w2 := set_clock (clock w1 + ping_elapsed out)%Z w1 in
      match redis_ping out with
      | Pong => (Normal tt, w2)
      | PingRejected e => (Throw e, w2)
      end.

(** [redis.disconnect()] *)
Definition disconnect (r : Redis) : M unit :=
  fun w =>
    (Normal tt,
     set_net (net w ++ [RedisDisconnect (conn_id r)]) (next_conn w) w).

(** The answers of the local gateway to one [fetch]. *)
Record FetchOutside : Type := mkFetchOutside {
  fetch_info : FetchOutcome;      (* how the request settles ... *)
  fetch_elapsed : Z               (* ... and after how many ms *)
}.

(** [await fetch(url, { signal })], reduced to [response.ok], for a URL that
    the platform accepts (the code passes [http://localhost:8080/info]; a
    URL with a port that no URL can have is rejected before any request is
    sent, which this definition does not describe).  [abort_after]
    is the delay of the timer that aborts the signal, when there is one: a
    request that has not settled by then rejects. *)
Definition fetch (out : FetchOutside) (url : string) (abort_after : option Z)
    : M bool :=
  fun w =>
    let w1 := set_net (net w ++ [HttpGet url]) (next_conn w) w in
    let settle :=
      let w2 := set_clock (clock w1 + fetch_elapsed out)%Z w1 in
      match fetch_info out with
      | Response ok => (Normal ok, w2)
      | FetchRejected e => (Throw e, w2)
      end in
    match abort_after with
    | Some ms =>
        if (ms <=? fetch_elapsed out)%Z then
          (Throw (JS.mkError "This operation was aborted"),
           set_clock (clock w1 + ms)%Z w1)
        else settle
    | None => settle
    end.

(** [await readFile(path, "utf-8")] *)
Definition readFile (path : string) : M string :=
  fun w =>
    match fs w !! path with
    | Some content => (Normal content, w)
    | None =>
        (Throw (JS.mkError ("ENOENT: no such file or directory, open '"
                            +:+ path +:+ "'")), w)
    end.

(** [await writeFile(path, content)]; [failure] is the error of the
    operating system, if it refuses the write. *)
Definition writeFile (failure : option JS.Error) (path content : string)
    : M unit :=
  fun w =>
    match failure with
    | Some e => (Throw e, w)
    | None => (Normal tt, set_fs (<[path := content]> (fs w)) w)
    end.

(** ** src/config/redis.ts *)

Module RedisConfig.

Definition options : RedisOptions :=
  {| connectTimeout := 10000; commandTimeout := 5000; lazyConnect := false;
     maxRetriesPerRequest := 2; enableAutoPipelining := true |}.

(** [redis.on("ready", () => { .. })] *)
Definition ready_listener : Listener :=
  fun _ =>
    (false, [mkLine LOG "✅ Redis connected successfully for caching"]).

(** [redis.on("error", (err) => { .. })] *)
Definition error_listener : Listener :=
  fun hasLoggedDisconnection =>
    if negb hasLoggedDisconnection then
      (true, [mkLine WARN "⚠️ Redis connection lost"])
    else (hasLoggedDisconnection, []).

(** The [catch] block; [redis] is the value of the variable declared
    before the [try]. *)
Definition on_failure (redis : option Redis) (error : JS.Error)
    : M (option Redis) :=
  let* _ := console_warn
    ("❌ Redis initial connection failed, proceeding without caching"
     +:+ " " +:+ JS.message error) in
  ret redis.

(** The variable [redis] is assigned once, by the first statement of the
    [try] block: the [catch] block sees [undefined] when the constructor
    threw and the client when a later statement threw.  [on] adds the
    listeners to that same object and does not throw, so the client that
    the [catch] block sees carries them. *)
Definition initializeRedis (out : RedisOutside) : M (option Redis) :=
  let* REDIS_URL := process_env "REDIS_URL" in
  if negb (JS.truthy REDIS_URL) then
    let* _ := console_log
      "No REDIS_URL provided, proceeding without Redis cache" in
    ret None
  else
    let* _ := console_log "Attempting to connect to Redis....." in
    try_catch
      (let* redis := new_Redis out (default "" REDIS_URL) (Some options) in
       (* hasLoggedDisconnection = false *)
       let redis := on "ready" ready_listener redis in
       let redis := on "error" error_listener redis in
       try_catch
         (let* _ := ping out redis in
          let* _ := console_log
            "Redis ping successful - connection established" in
          ret (Some redis))
         (on_failure (Some redis)))
      (on_failure None).

End RedisConfig.

(** ** src/utils/helper.ts, earlier text *)

Module HelperOld.

Definition checkArLocalRunning (out : FetchOutside) (port : Z) : M bool :=
  try_catch
    (let* ok := fetch out ("http://localhost:" +:+ pretty port +:+ "/info")
                  None in
     ret ok)
    (fun _ => ret false).

Section Wallet.
Context `{Platform}.

Definition validateWalletAddress (wallet : JWKInterface)
    (expectedAddress walletSource : string) (warp : Warp) : M string :=
  let* walletAddress :=
    match jwkToAddress wallet with
    | Some a => ret a
    | None => throw (JS.mkError "jwkToAddress failed")
    end in
  if negb (String.eqb walletAddress expectedAddress) then
    let* _ := console_error "❌ Wallet address mismatch detected!" in
    let* _ := console_error ("Expected: " +:+ expectedAddress) in
    let* _ := console_error ("Loaded:   " +:+ walletAddress) in
    let* _ := console_error ("Source:   " +:+ walletSource) in
    throw (JS.mkError
      ("Wallet address mismatch. Expected '" +:+ expectedAddress
       +:+ "' but loaded wallet has address '" +:+ walletAddress
       +:+ "'. Please verify the wallet file and expected address are correct."))
  else ret walletAddress.
End Wallet.

Definition options : RedisOptions :=
  {| connectTimeout := 10000; commandTimeout := 5000; lazyConnect := false;
     maxRetriesPerRequest := 2; enableAutoPipelining := true |}.

Definition ready_listener : Listener :=
  fun _ =>
    (false, [mkLine LOG "✅ Redis connected successfully for caching"]).

Definition error_listener : Listener :=
  fun hasLoggedDisconnection =>
    if negb hasLoggedDisconnection then
      (true, [mkLine WARN "⚠️ Redis connection lost"])
    else (hasLoggedDisconnection, []).

Definition initializeRedis (out : RedisOutside) : M (option Redis) :=
  let* REDIS_URL := process_env "REDIS_URL" in
  if negb (JS.truthy REDIS_URL) then
    let* _ := console_log
      "No REDIS_URL provided, proceeding without Redis cache" in
    ret None
  else
    let* _ := console_log "Attempting to connect to Redis....." in
    try_catch
      (let* redis := new_Redis out (default "" REDIS_URL) (Some options) in
       let redis := on "ready" ready_listener redis in
       let redis := on "error" error_listener redis in
       let* _ := ping out redis in
       let* _ := console_log
         "Redis ping successful - connection established" in
       ret (Some redis))
      (fun error =>
         let* _ := console_warn
           ("❌ Redis initial connection failed, proceeding without cache:"
            +:+ " " +:+ JS.message error) in
         ret None).

Definition not_configured : HealthResult :=
  {| configured := false; connected := false; status := "not configured";
     details := Some "REDIS_URL environment variable not set" |}.

Definition ready : HealthResult :=
  {| configured := true; connected := true; status := "ready";
     details := Some "Redis connection is healthy" |}.

Definition disconnected : HealthResult :=
  {| configured := true; connected := false; status := "disconnected";
     details := Some "Redis connection failed" |}.

(** [healthCheckCache = { result, timestamp: Date.now() }; return result] *)
Definition cache_and_return (result : HealthResult) : M HealthResult :=
  let* now := Date_now in
  let* _ := write_healthCheckCache result now in
  ret result.

(** The function after its first [if]. *)
Definition probe (out : RedisOutside) : M HealthResult :=
  let* redisUrl := process_env "REDIS_URL" in
  if negb (JS.truthy redisUrl) then cache_and_return not_configured
  else
    try_catch
      (let* testRedis := new_Redis out (default "" redisUrl) None in
       let testRedis := on "error" (fun s => (s, [])) testRedis in
       let* _ := race_ping_timeout out testRedis 2000
                   "Connection timeout" in
       let* _ := disconnect testRedis in
       cache_and_return ready)
      (fun _ => cache_and_return disconnected).

Definition checkRedisConnectivity (out : RedisOutside) : M HealthResult :=
  let* cache := read_healthCheckCache in
  let* now := Date_now in
  match cache with
  | Some (result, timestamp) =>
      if (now - timestamp <? 30000)%Z then ret result else probe out
  | None => probe out
  end.

End HelperOld.

(** ** src/utils/helper.ts, later text *)

Module Helper.

(** The timer aborts the request after 1000 ms; the [finally] block clears
    the timer, which has no effect that the model observes. *)
Definition checkArLocalRunning (out : FetchOutside) (port : Z) : M bool :=
  try_catch
    (let* ok := fetch out ("http://localhost:" +:+ pretty port +:+ "/info")
                  (Some 1000%Z) in
     ret ok)
    (fun _ => ret false).

Section Wallet.
Context `{Platform}.

Definition validateWalletAddress (wallet : JWKInterface)
    (expectedAddress walletSource : string) (warp : Warp) : M string :=
  let* walletAddress :=
    match jwkToAddress wallet with
    | Some a => ret a
    | None => throw (JS.mkError "jwkToAddress failed")
    end in
  if negb (String.eqb walletAddress expectedAddress) then
    let* _ := console_error "❌ Wallet address mismatch detected!" in
    let* _ := console_error ("Expected: " +:+ expectedAddress) in
    let* _ := console_error ("Loaded:   " +:+ walletAddress) in
    let* _ := console_error ("Source:   " +:+ walletSource) in
    throw (JS.mkError
      ("Wallet address mismatch. Expected '" +:+ expectedAddress
       +:+ "' but loaded wallet has address '" +:+ walletAddress
       +:+ "'. Please verify the wallet file and expected address are correct."))
  else ret walletAddress.
End Wallet.

Definition not_configured : HealthResult :=
  {| configured := false; connected := false; status := "not configured";
     details := Some "REDIS_URL environment variable not set" |}.

Definition ready : HealthResult :=
  {| configured := true; connected := true; status := "ready";
     details := Some "Redis connection is healthy" |}.

Definition disconnected : HealthResult :=
  {| configured := true; connected := false; status := "disconnected";
     details := Some "Redis connection failed" |}.

Definition cache_and_return (result : HealthResult) : M HealthResult :=
  let* now := Date_now in
  let* _ := write_healthCheckCache result now in
  ret result.

(** The function after its first [if].  The client is constructed before
    the [try]: an exception of the constructor leaves the function. *)
Definition probe (out : RedisOutside) : M HealthResult :=
  let* redisUrl := process_env "REDIS_URL" in
  if negb (JS.truthy redisUrl) then cache_and_return not_configured
  else
    let* testRedis := new_Redis out (default "" redisUrl) None in
    try_finally
      (try_catch
         (let testRedis := on "error" (fun s => (s, [])) testRedis in
          let* _ := race_ping_timeout out testRedis 2000
                      "Connection timeout" in
          cache_and_return ready)
         (fun _ => cache_and_return disconnected))
      (disconnect testRedis).

Definition checkRedisConnectivity (out : RedisOutside) : M HealthResult :=
  let* cache := read_healthCheckCache in
  let* now := Date_now in
  match cache with
  | Some (result, timestamp) =>
      if (now - timestamp <? 30000)%Z then ret result else probe out
  | None => probe out
  end.

End Helper.

(** ** src/config/arweave.ts *)

Module Arweave.
Section Bootstrap.
Context `{Platform}.

Record ArweaveConfig : Type := mkConfig {
  warp : Warp;
  wallet : JWKInterface;
  redis : option Redis
}.

(** The answers of the outside world to one run of [initializeArweave]. *)
Record Outside : Type := mkOutside {
  of_redis : RedisOutside;
  of_fetch : FetchOutside;
  wallets_generate : JWKInterface + JS.Error;  (* a fresh keypair *)
  writeFile_failure : option JS.Error
}.

(** [helper.ts] exists in two texts; the function is read against either
    [checkArLocalRunning]. *)
Variable checkArLocalRunning : FetchOutside -> Z -> M bool.

Definition ARLOCAL_PORT : Z := 8080.
Definition devWalletPath : string := "./dev-wallet.json".

(** [process.env.NODE_ENV?.trim() === "production"] *)
Definition isProduction (NODE_ENV : option string) : bool :=
  match NODE_ENV with
  | Some s => String.eqb (JS.trim s) "production"
  | None => false
  end.

(** [redis ? factory.useKVStorageFactory(..) : factory] *)
Definition with_cache (redis : option Redis) (factory : Warp) : Warp :=
  match redis with
  | Some client => useKVStorageFactory client factory
  | None => factory
  end.

Definition JSON_parse_or_throw (content : string) : M JWKInterface :=
  match JSON_parse content with
  | Some v => ret v
  | None => throw (JS.mkError "Unexpected token in JSON")
  end.

(** [await warp.arweave.wallets.jwkToAddress(wallet)] *)
Definition wallets_jwkToAddress (warp : Warp) (wallet : JWKInterface)
    : M string :=
  match jwkToAddress wallet with
  | Some a => ret a
  | None => throw (JS.mkError "jwkToAddress failed")
  end.

Definition config_error : JS.Error :=
  JS.mkError "Production environment requires both SERVICE_WALLET_ADDRESS and ARWEAVE_WALLET_PATH environment variables to be set.".

Definition load_error : JS.Error :=
  JS.mkError "Production wallet is required but could not be loaded. Please check ARWEAVE_WALLET_PATH and ensure the wallet file exists and contains valid JSON.".

(** Lines 132-164: the wallet in production. *)
Definition production_wallet (warp : Warp) : M JWKInterface :=
  let* SERVICE_WALLET_ADDRESS := process_env "SERVICE_WALLET_ADDRESS" in
  let* ARWEAVE_WALLET_PATH := process_env "ARWEAVE_WALLET_PATH" in
  if (JS.truthy SERVICE_WALLET_ADDRESS && JS.truthy ARWEAVE_WALLET_PATH)%bool
  then
    try_catch
      (let walletPath := default "" ARWEAVE_WALLET_PATH in
       let expectedAddress := default "" SERVICE_WALLET_ADDRESS in
       let* content := readFile walletPath in
       let* wallet := JSON_parse_or_throw content in
       let* walletAddress :=
         Helper.validateWalletAddress wallet expectedAddress walletPath
           warp in
       let* _ := console_log "Production wallet loaded successfully" in
       let* _ := console_log ("Wallet Source: " +:+ walletPath) in
       let* _ := console_log ("Wallet Address: " +:+ walletAddress) in
       let* _ := console_log "Wallet validation passed." in
       ret wallet)
      (fun error =>
         let* _ := console_error
           ("❌ Failed to load production wallet:" +:+ " "
            +:+ JS.message error) in
         throw load_error)
  else throw config_error.

(** Lines 165-196: the wallet in development. *)
Definition development_wallet (out : Outside) (warp : Warp)
    : M JWKInterface :=
  try_catch
    (let* content := readFile devWalletPath in
     let* wallet := JSON_parse_or_throw content in
     let* walletAddress := wallets_jwkToAddress warp wallet in
     let* _ := console_log
       "Development wallet loaded from existing file" in
     let* _ := console_log ("Wallet Source: " +:+ devWalletPath) in
     let* _ := console_log ("Wallet Address: " +:+ walletAddress) in
     ret wallet)
    (fun _ =>
       let* _ := console_log
         "Development wallet not found, creating new one..." in
       let* wallet :=
         match wallets_generate out with
         | inl jwk => ret jwk
         | inr e => throw e
         end in
       let* walletAddress := wallets_jwkToAddress warp wallet in
       let* _ := writeFile (writeFile_failure out) devWalletPath
                   (JSON_stringify wallet) in
       let* _ := console_log "New development wallet created and saved" in
       let* _ := console_log ("Wallet Source: " +:+ devWalletPath) in
       let* _ := console_log ("Wallet Address: " +:+ walletAddress) in
       let* _ := console_log
         "For production deployment, configure SERVICE_WALLET_ADDRESS and ARWEAVE_WALLET_PATH environment variables" in
       ret wallet).

(** Lines 69-125: the network. *)
Definition select_warp (out : Outside) (isProduction : bool)
    (redis : option Redis) : M Warp :=
  if isProduction then
    let warp := with_cache redis (WarpFactory.forMainnet true) in
    let* _ := console_log
      "Configured for Arweave mainnet (production) using https://arweave.net gateway" in
    ret warp
  else
    let* isArLocalRunning :=
      checkArLocalRunning (of_fetch out) ARLOCAL_PORT in
    if isArLocalRunning then
      let warp := with_cache redis (WarpFactory.forLocal ARLOCAL_PORT) in
      let* _ := console_log
        ("Configured for ArLocal development server on localhost:"
         +:+ pretty ARLOCAL_PORT) in
      let* _ := console_warn
        "⚠️ search routes may not function properly without Redis in ArLocal" in
      ret warp
    else
      let* _ := console_warn
        ("ArLocal not running on localhost:" +:+ pretty ARLOCAL_PORT) in
      let* _ := console_warn
        "To start ArLocal for local testing, run: npx arlocal 8080" in
      let* _ := console_warn "Falling back to Warp Testnet..." in
      let* _ := console_warn
        "⚠️ Some endpoints may not work as expected in testnet mode" in
      ret (with_cache redis (WarpFactory.forTestnet true)).

Definition initializeArweave (out : Outside) : M ArweaveConfig :=
  let* NODE_ENV := process_env "NODE_ENV" in
  let isProduction := isProduction NODE_ENV in
  let* redis := RedisConfig.initializeRedis (of_redis out) in
  let* warp := select_warp out isProduction redis in
  let warp := use DeployPlugin warp in
  let* wallet :=
    if isProduction then production_wallet warp
    else development_wallet out warp in
  let* _ := console_log
    ("Arweave blockchain configured for "
     +:+ (if isProduction then "production" else "development")
     +:+ " environment") in
  ret {| warp := warp; wallet := wallet; redis := redis |}.

End Bootstrap.
End Arweave.

(** ** Strings and arrays of the language, continued *)

Module StringOps.

(** [s.split(sep)] for a separator of one character: the pieces between the
    separators, in order; the empty string gives one empty piece. *)
Fixpoint split (sep : ascii) (s : string) : list string :=
  match s with
  | EmptyString => [EmptyString]
  | String c s' =>
      if Ascii.eqb c sep then EmptyString :: split sep s'
      else
        match split sep s' with
        | piece :: pieces => String c piece :: pieces
        | [] => [String c EmptyString]
        end
  end.

(** [array.includes(x)] on strings *)
Definition includes (array : list string) (x : string) : bool :=
  existsb (String.eqb x) array.

(** Does [c] occur in [s]? *)
Fixpoint has_char (c : ascii) (s : string) : bool :=
  match s with
  | EmptyString => false
  | String d s' => (Ascii.eqb d c || has_char c s')%bool
  end.

End StringOps.

(** ** src/server.ts: the origins allowed by CORS *)

Module Server.

(** [process.env.ORIGIN?.split(",").map((origin) => origin.trim())
     || ["http://localhost:3000"]]: an array is truthy even when empty, so
    the default is taken for an undefined variable only. *)
Definition allowedOrigins (ORIGIN : option string) : list string :=
  match ORIGIN with
  | Some s => map JS.trim (StringOps.split "," s)
  | None => ["http://localhost:3000"]
  end.

(** What the [origin] function of [corsOptions] passes to its callback:
    [callback(null, true)] or [callback(new Error(..))]. *)
Inductive Decision : Type :=
| Allowed
| Refused (e : JS.Error).

Definition origin (allowedOrigins : list string) (origin : option string)
    : Decision :=
  if (negb (JS.truthy origin)
      || StringOps.includes allowedOrigins (default "" origin))%bool
  then Allowed
  else Refused (JS.mkError "Not allowed by CORS").

End Server.

(** ** src/database/models/instances.ts *)

Module Instances.

(** A row of [instancesTable] (the schema is the text that follows
    [routes/instanceRouter.ts], lines 102-113); [user_id] is unique and [id]
    is the primary key. *)
Record Instance : Type := mkInstance {
  id : string;
  instanceKeyHash : string;
  userId : string;
  name : string;
  description : option string;
  arweave_wallet_address : string;
  isActive : bool;
  lastUsedAt : option Z;
  createdAt : Z;
  updatedAt : Z
}.

(** The answers of the database server and of the clock to one query:
    [db_error] is the error with which the query is rejected, if the server
    cannot be reached; [random_uuid] is the identifier drawn for a new row;
    [now] is the current time, for the server ([defaultNow]) and for
    [new Date()]. *)
Record DbOutside : Type := mkDbOutside {
  db_error : option JS.Error;
  random_uuid : string;
  now : Z
}.

Definition Table : Type := list Instance.

(** [db.query.instancesTable.findFirst({ where: eq(column, value) })] *)
Definition findFirst (out : DbOutside) (where_ : Instance -> bool)
    (table : Table) : Completion (option Instance) :=
  match db_error out with
  | Some e => Throw e
  | None => Normal (List.find where_ table)
  end.

Definition getInstanceByUserId (out : DbOutside) (user : string)
    (table : Table) : Completion (option Instance) :=
  findFirst out (fun row => String.eqb (userId row) user) table.

Definition findHashedKeyInDb (out : DbOutside) (keyHash : string)
    (table : Table) : Completion (option Instance) :=
  findFirst out (fun row => String.eqb (instanceKeyHash row) keyHash) table.

Definition listInstances (out : DbOutside) (user : string) (table : Table)
    : Completion (list Instance) :=
  match db_error out with
  | Some e => Throw e
  | None =>
      Normal (List.filter (fun row => String.eqb (userId row) user) table)
  end.

(** The error of the server on a row that repeats a unique column. *)
Definition unique_violation : JS.Error :=
  JS.mkError "duplicate key value violates unique constraint".

(** [db.insert(instancesTable).values({..}).returning()]: the columns
    without a value take their defaults; the row is refused when its [id] or
    its [user_id] is taken. *)
Definition createInstance (out : DbOutside)
    (user keyHash name_ description_ : string) (table : Table)
    : Completion (list Instance) * Table :=
  match db_error out with
  | Some e => (Throw e, table)
  | None =>
      let row :=
        {| id := random_uuid out; instanceKeyHash := keyHash;
           userId := user; name := name_;
           description := Some description_;
           arweave_wallet_address := ""; isActive := false;
           lastUsedAt := None; createdAt := now out;
           updatedAt := now out |} in
      if existsb
           (fun r => (String.eqb (userId r) user
                      || String.eqb (id r) (random_uuid out))%bool) table
      then (Throw unique_violation, table)
      else (Normal [row], table ++ [row])
  end.

Definition set_instanceKeyHash (keyHash : string) (t : Z) (r : Instance)
    : Instance :=
  {| id := id r; instanceKeyHash := keyHash; userId := userId r;
     name := name r; description := description r;
     arweave_wallet_address := arweave_wallet_address r;
     isActive := isActive r; lastUsedAt := lastUsedAt r;
     createdAt := createdAt r; updatedAt := t |}.

(** [db.update(..).set({ instanceKeyHash, updatedAt: new Date() })
      .where(eq(userId, ..)).returning()], of which the first row is
    returned ([undefined] when no row was updated). *)
Definition updateInstanceKeyHash (out : DbOutside) (user keyHash : string)
    (table : Table) : Completion (option Instance) * Table :=
  match db_error out with
  | Some e => (Throw e, table)
  | None =>
      let matches r := String.eqb (userId r) user in
      let updated :=
        map (set_instanceKeyHash keyHash (now out))
          (List.filter matches table) in
      (Normal (head updated),
       map (fun r =>
              if matches r then set_instanceKeyHash keyHash (now out) r
              else r) table)
  end.

(** The error of the server on a text that is not a uuid. *)
Definition invalid_uuid : JS.Error :=
  JS.mkError "invalid input syntax for type uuid".

(** [db.delete(..).where(and(eq(userId, ..), eq(id, ..)))].  The column
    [id] is a [uuid]: the server reads the given text as a uuid and rejects
    the query when it is none.  [uuid_in] is that reading, taken from the
    server as it is: the canonical text of the uuid that a text denotes, if
    any.  The [id] of a row is the canonical text of its uuid, as the server
    returns it. *)
Definition deleteInstance (uuid_in : string -> option string)
    (out : DbOutside) (user id_ : string) (table : Table)
    : Completion unit * Table :=
  match db_error out with
  | Some e => (Throw e, table)
  | None =>
      match uuid_in id_ with
      | None => (Throw invalid_uuid, table)
      | Some u =>
          (Normal tt,
           List.filter
             (fun r => negb (String.eqb (userId r) user && String.eqb (id r) u))
             table)
      end
  end.

End Instances.

(** ** src/middlewares/contract.ts *)

Module ContractMiddleware.

(** [req.contract] *)
Record Contract : Type := mkContract {
  contractId : string;
  userId : string;
  createdAt : Z
}.

(** How the middleware ends: it has sent a response with a status and an
    error text, or it has set [req.contract] and called [next()]. *)
Inductive Outcome : Type :=
| Responded (status : Z) (error : string)
| Next (contract : Contract).

Section Middleware.

(** [verifyContractHash] of [utils/contractHash.js] and the SHA-256 digest
    in hexadecimal of [crypto] are taken as they are. *)
Variable verifyContractHash : string -> option Contract.
Variable sha256_hex : string -> string.

(** [authHeader.split(' ')[1]] *)
Definition token_of (authHeader : string) : string :=
  nth 1 (StringOps.split " " authHeader) "".

Definition verifyContractHashMiddleware (out : Instances.DbOutside)
    (table : Instances.Table) (authorization x_contract_id : option string)
    : Completion Outcome :=
  let authHeader := default "" authorization in
  if (negb (JS.truthy authorization)
      || negb (String.prefix "Bearer " authHeader))%bool
  then Normal (Responded 401 "Missing or invalid Authorization header")
  else
    let token := token_of authHeader in
    match verifyContractHash token with
    | None => Normal (Responded 401 "Invalid or expired contract token")
    | Some payload =>
        let hash := sha256_hex token in
        match Instances.findHashedKeyInDb out hash table with
        | Throw e => Throw e
        | Normal None =>
            Normal (Responded 403 "Unknown or expired contract token")
        | Normal (Some _) =>
            if (JS.truthy x_contract_id
                && negb (String.eqb (contractId payload)
                           (default "" x_contract_id)))%bool
            then Normal (Responded 403 "Contract ID mismatch")
            else Normal (Next payload)
        end
    end.

End Middleware.
End ContractMiddleware.

(** * Vocabulary of the properties *)

(** ** Events of the long-lived connection *)

Definition is_error_event (ev : string) : bool := String.eqb ev "error".

(** The number of maximal runs of consecutive [error] events: an [error]
    closes a run when it is the last event or when the next event is not an
    [error]. *)
Fixpoint error_runs (events : list string) : nat :=
  match events with
  | [] => 0
  | ev :: rest =>
      (if is_error_event ev then
         match rest with
         | next :: _ => if is_error_event next then 0 else 1
         | [] => 1
         end
       else 0) + error_runs rest
  end.

Definition warnings (out : list LogLine) : nat :=
  length (List.filter is_warning out).

Definition starts_with_error (events : list string) : bool :=
  match events with
  | ev :: _ => is_error_event ev
  | [] => false
  end.

(** The listeners that [initializeRedis] registers, in order. *)
Definition long_lived_listeners : list (string * Listener) :=
  [("ready", RedisConfig.ready_listener);
   ("error", RedisConfig.error_listener)].

Definition ready_line : LogLine :=
  mkLine LOG "✅ Redis connected successfully for caching".

Definition lost_line : LogLine := mkLine WARN "⚠️ Redis connection lost".

(** The client that [new Redis] returns in [w], with the two listeners. *)
Definition long_lived_client (w : World) : Redis :=
  {| conn_id := next_conn w;
     conn_url := default "" (env w !! "REDIS_URL");
     conn_options := Some RedisConfig.options;
     listeners := long_lived_listeners |}.

(** ** Connections left open *)

Definition is_disconnect_of (id : nat) (ev : NetEvent) : bool :=
  match ev with
  | RedisDisconnect j => Nat.eqb j id
  | _ => false
  end.

(** The connections that a stretch of network activity opens and does not
    close. *)
Fixpoint leaked (trace : list NetEvent) : list nat :=
  match trace with
  | [] => []
  | RedisConnect id _ :: rest =>
      if existsb (is_disconnect_of id) rest then leaked rest
      else id :: leaked rest
  | _ :: rest => leaked rest
  end.

(** ** Snapshots of the health check *)

(** The three shapes of a snapshot, on the fields [configured], [connected]
    and [status]. *)
Definition well_shaped (r : HealthResult) : Prop :=
  (configured r = false /\ connected r = false
   /\ status r = "not configured")
  \/ (configured r = true /\ connected r = true /\ status r = "ready")
  \/ (configured r = true /\ connected r = false
      /\ status r = "disconnected").

Definition cache_well_shaped (w : World) : Prop :=
  forall r t, healthCheckCache w = Some (r, t) -> well_shaped r.

(** No snapshot younger than 30 seconds is cached. *)
Definition cache_stale (w : World) : Prop :=
  healthCheckCache w = None
  \/ exists r t, healthCheckCache w = Some (r, t)
                 /\ (30000 <= clock w - t)%Z.

(** Does the probe connection answer the ping before the 2000 ms timer? *)
Definition answers_in_time (out : RedisOutside) : bool :=
  match redis_ping out with
  | Pong => negb (2000 <=? ping_elapsed out)%Z
  | PingRejected _ => false
  end.

(** How long the race of the ping against the timer lasts. *)
Definition race_duration (out : RedisOutside) : Z :=
  if (2000 <=? ping_elapsed out)%Z then 2000%Z else ping_elapsed out.

(** What a recomputation is expected to find, from the environment and the
    answers of the server alone. *)
Definition expected_snapshot (w : World) (out : RedisOutside) : HealthResult :=
  if JS.truthy (env w !! "REDIS_URL") then
    match redis_ctor out with
    | Some _ => HelperOld.disconnected
    | None =>
        if answers_in_time out then HelperOld.ready
        else HelperOld.disconnected
    end
  else HelperOld.not_configured.

(** A sequence of calls of the health check, each after some idle time. *)
Fixpoint poll (check : RedisOutside -> M HealthResult)
    (calls : list (Z * RedisOutside)) (w : World)
    : list (Completion HealthResult) * World :=
  match calls with
  | [] => ([], w)
  | (idle, out) :: rest =>
      let '(c, w1) := check out (set_clock (clock w + idle)%Z w) in
      let '(cs, w2) := poll check rest w1 in
      (c :: cs, w2)
  end.

Definition returns_well_shaped (c : Completion HealthResult) : Prop :=
  forall r, c = Normal r -> well_shaped r.

(** ** Worlds used in examples *)

Definition fresh_world (e f : gmap string string) : World :=
  {| env := e; fs := f; clock := 0; console := []; net := [];
     next_conn := 0; healthCheckCache := None |}.

Definition cache_env : gmap string string :=
  <["REDIS_URL" := "redis://cache.internal:6379"]> ∅.

Definition server_up : RedisOutside :=
  {| redis_ctor := None; redis_ping := Pong; ping_elapsed := 3 |}.

Definition server_down : RedisOutside :=
  {| redis_ctor := None;
     redis_ping := PingRejected (JS.mkError "connect ECONNREFUSED");
     ping_elapsed := 12 |}.

Definition server_silent : RedisOutside :=
  {| redis_ctor := None; redis_ping := Pong; ping_elapsed := 9000 |}.

(** ** The bootstrap *)

(** What [checkArLocalRunning] is expected to report: the earlier text has
    no timer, the later one gives up after 1000 ms. *)
Definition reachable_old (out : FetchOutside) : bool :=
  match fetch_info out with
  | Response ok => ok
  | FetchRejected _ => false
  end.

Definition reachable (out : FetchOutside) : bool :=
  if (1000 <=? fetch_elapsed out)%Z then false else reachable_old out.

(** [probe] completes normally, reports [says] and touches neither the
    environment nor the files. *)
Definition probe_reports (probe : FetchOutside -> Z -> M bool)
    (says : FetchOutside -> bool) : Prop :=
  forall out port w,
    exists w',
      probe out port w = (Normal (says out), w')
      /\ env w' = env w /\ fs w' = fs w.

(** Either text of [checkArLocalRunning], with what it is expected to
    report. *)
Definition is_probe_of_helper (probe : FetchOutside -> Z -> M bool)
    (says : FetchOutside -> bool) : Prop :=
  (probe = HelperOld.checkArLocalRunning /\ says = reachable_old)
  \/ (probe = Helper.checkArLocalRunning /\ says = reachable).


(** The rest of [initializeArweave] once the wallet is known (lines
    198-206). *)
Definition finish `{Platform} (isProduction : bool) (warp : Warp)
    (redis : option Redis) (wallet : JWKInterface)
    : M Arweave.ArweaveConfig :=
  let* _ := console_log
    ("Arweave blockchain configured for "
     +:+ (if isProduction then "production" else "development")
     +:+ " environment") in
  ret {| Arweave.warp := warp; Arweave.wallet := wallet;
         Arweave.redis := redis |}.

(** The lines that [validateWalletAddress] writes on a mismatch, followed by
    the line of the [catch] block of [initializeArweave]. *)
Definition mismatch_report (expected loaded source : string)
    : list LogLine :=
  [mkLine ERROR "❌ Wallet address mismatch detected!";
   mkLine ERROR ("Expected: " +:+ expected);
   mkLine ERROR ("Loaded:   " +:+ loaded);
   mkLine ERROR ("Source:   " +:+ source);
   mkLine ERROR
     ("❌ Failed to load production wallet:" +:+ " "
      +:+ "Wallet address mismatch. Expected '" +:+ expected
      +:+ "' but loaded wallet has address '" +:+ loaded
      +:+ "'. Please verify the wallet file and expected address are correct.")].

(** A platform for the examples: a keypair is the text of its modulus, it is
    written to a file behind the tag [jwk:], and its address is the modulus
    behind [addr:]. *)
Definition example_platform : Platform :=
  {| JWKInterface := string;
     JSON_parse := JS.without_prefix "jwk:";
     JSON_stringify := fun w => "jwk:" +:+ w;
     jwkToAddress := fun w => Some ("addr:" +:+ w) |}.

Definition gateway_up : FetchOutside :=
  {| fetch_info := Response true; fetch_elapsed := 20 |}.

Definition gateway_down : FetchOutside :=
  {| fetch_info := FetchRejected (JS.mkError "fetch failed");
     fetch_elapsed := 2 |}.

Definition gateway_silent : FetchOutside :=
  {| fetch_info := Response true; fetch_elapsed := 60000 |}.

Definition production_env : gmap string string :=
  <["NODE_ENV" := "production"]>
    (<["SERVICE_WALLET_ADDRESS" := "addr:service"]>
       (<["ARWEAVE_WALLET_PATH" := "/run/secrets/wallet.json"]> ∅)).

Definition production_files : gmap string string :=
  <["/run/secrets/wallet.json" := "jwk:intruder"]> ∅.

Definition example_outside (f : FetchOutside)
    : @Arweave.Outside example_platform :=
  {| Arweave.of_redis := server_up; Arweave.of_fetch := f;
     Arweave.wallets_generate :=
       inl ("generated" : @JWKInterface example_platform);
     Arweave.writeFile_failure := None |}.

(** ** Further vocabulary *)

Definition is_http_get (ev : NetEvent) : bool :=
  match ev with
  | HttpGet _ => true
  | _ => false
  end.

(** The HTTP requests of a trace. *)
Definition http_gets (trace : list NetEvent) : list NetEvent :=
  List.filter is_http_get trace.

(** What [initializeRedis] of [config/redis.ts] is expected to return. *)
Definition expected_client (w : World) (out : RedisOutside) : option Redis :=
  if JS.truthy (env w !! "REDIS_URL") then
    match redis_ctor out with
    | None => Some (long_lived_client w)
    | Some _ => None
    end
  else None.

Definition is_ready_or_error (ev : string) : bool :=
  (String.eqb ev "ready" || String.eqb ev "error")%bool.

(** The last [ready] or [error] event of a sequence is an [error]; [flag]
    when there is none. *)
Fixpoint ends_in_error (events : list string) (flag : bool) : bool :=
  match events with
  | [] => flag
  | ev :: rest =>
      ends_in_error rest
        (if String.eqb ev "ready" then false
         else if String.eqb ev "error" then true
         else flag)
  end.

(** The four lines that [validateWalletAddress] writes on a mismatch. *)
Definition mismatch_lines (expected loaded source : string) : list LogLine :=
  [mkLine ERROR "❌ Wallet address mismatch detected!";
   mkLine ERROR ("Expected: " +:+ expected);
   mkLine ERROR ("Loaded:   " +:+ loaded);
   mkLine ERROR ("Source:   " +:+ source)].

(** The network activity of a successful [new Redis] followed by a ping. *)
Definition connect_and_ping (client : option Redis) : list NetEvent :=
  match client with
  | Some r => [RedisConnect (conn_id r) (conn_url r); RedisPing (conn_id r)]
  | None => []
  end.

(** [probe] completes normally, reports [says], sends one GET request to
    the [/info] page of the local gateway and changes nothing else but the
    clock. *)
Definition probe_requests (probe : FetchOutside -> Z -> M bool)
    (says : FetchOutside -> bool) : Prop :=
  forall out port w,
    exists w',
      probe out port w = (Normal (says out), w')
      /\ env w' = env w /\ fs w' = fs w /\ console w' = console w
      /\ healthCheckCache w' = healthCheckCache w
      /\ net w'
         = net w ++ [HttpGet ("http://localhost:" +:+ pretty port +:+ "/info")].

(** The line that closes [initializeArweave]. *)
Definition configured_line (isProduction : bool) : LogLine :=
  mkLine LOG
    ("Arweave blockchain configured for "
     +:+ (if isProduction then "production" else "development")
     +:+ " environment").

(** A disk that holds the keypair of the service, and one that holds a
    development wallet that cannot be read. *)
Definition trusted_files : gmap string string :=
  <["/run/secrets/wallet.json" := "jwk:service"]> ∅.

Definition corrupted_files : gmap string string :=
  <["./dev-wallet.json" := "{ truncated"]> ∅.

(** How often [name] occurs in a sequence of events. *)
Definition count_event (name : string) (events : list string) : nat :=
  length (List.filter (String.eqb name) events).

Definition is_log (l : LogLine) : bool :=
  match level l with LOG => true | _ => false end.

(** The idle time of a sequence of calls, in total. *)
Definition total_idle (calls : list (Z * RedisOutside)) : Z :=
  fold_right (fun call acc => (fst call + acc)%Z) 0%Z calls.

(** An origin as it is written in [ORIGIN]: no comma, no white space at
    either end. *)
Definition clean_origin (o : string) : Prop :=
  StringOps.has_char "," o = false /\ JS.trim o = o.

(** Examples for the middleware: a verifier that accepts the tokens that
    start with [ok-], the digest [h(token)], and a table of one instance. *)
Definition example_verify (token : string) : option ContractMiddleware.Contract :=
  match JS.without_prefix "ok-" token with
  | Some rest =>
      Some {| ContractMiddleware.contractId := rest;
              ContractMiddleware.userId := "user_1";
              ContractMiddleware.createdAt := 0 |}
  | None => None
  end.

Definition example_digest (token : string) : string := "h(" +:+ token +:+ ")".

Definition example_instance : Instances.Instance :=
  {| Instances.id := "i-1"; Instances.instanceKeyHash := "h(ok-c1)";
     Instances.userId := "user_1"; Instances.name := "Default Instance";
     Instances.description := None;
     Instances.arweave_wallet_address := ""; Instances.isActive := true;
     Instances.lastUsedAt := None; Instances.createdAt := 0;
     Instances.updatedAt := 0 |}.

Definition db_up : Instances.DbOutside :=
  {| Instances.db_error := None; Instances.random_uuid := "i-2";
     Instances.now := 1000 |}.





(** For the examples on the table: the reading of a uuid restricted to the
    standard form, 8-4-4-4-12 hexadecimal digits in either case, with the
    lower-case text as the canonical one. *)
Definition is_hex (c : ascii) : bool :=
  let n := nat_of_ascii c in
  ((48 <=? n) && (n <=? 57) || (97 <=? n) && (n <=? 102)
   || (65 <=? n) && (n <=? 70))%bool%nat.

Definition lower_hex (c : ascii) : ascii :=
  let n := nat_of_ascii c in
  if ((65 <=? n) && (n <=? 70))%bool%nat then ascii_of_nat (n + 32) else c.

Fixpoint standard_uuid_from (pos : nat) (s : string) : option string :=
  match s with
  | EmptyString => if Nat.eqb pos 36 then Some EmptyString else None
  | String c s' =>
      if (Nat.eqb pos 8 || Nat.eqb pos 13 || Nat.eqb pos 18
          || Nat.eqb pos 23)%bool
      then
        if Ascii.eqb c "-" then
          option_map (String "-") (standard_uuid_from (S pos) s')
        else None
      else if is_hex c then
        option_map (String (lower_hex c)) (standard_uuid_from (S pos) s')
      else None
  end.

Definition standard_uuid_in (s : string) : option string :=
  standard_uuid_from 0 s.

Definition uuid_instance : Instances.Instance :=
  {| Instances.id := "3f2504e0-4f89-41d3-9a0c-0305e82c3301";
     Instances.instanceKeyHash := "h(ok-c1)";
     Instances.userId := "user_1"; Instances.name := "Default Instance";
     Instances.description := None;
     Instances.arweave_wallet_address := ""; Instances.isActive := true;
     Instances.lastUsedAt := None; Instances.createdAt := 0;
     Instances.updatedAt := 0 |}.

(** * Properties *)

(** ** Running computations *)

Ltac unfold_M :=
  unfold bind, ret, throw, try_catch, try_finally, console_log, console_warn,
    console_error, console_write, process_env, Date_now, elapse,
    read_healthCheckCache, write_healthCheckCache in *.

Lemma bind_normal {A B} (m : M A) (k : A -> M B) w a w' :
  m w = (Normal a, w') -> bind m k w = k a w'.
Proof. intros E. unfold bind. now rewrite E. Qed.

Lemma bind_throw {A B} (m : M A) (k : A -> M B) w e w' :
  m w = (Throw e, w') -> bind m k w = (Throw e, w').
Proof. intros E. unfold bind. now rewrite E. Qed.

Lemma truthy_Some (v : option string) :
  JS.truthy v = true -> exists s, v = Some s /\ s <> "".
Proof.
  destruct v as [s|]; simpl; [|discriminate].
  intros E. exists s. split; [reflexivity|].
  intros ->. discriminate.
Qed.

(** ** The listeners of the long-lived connection *)

Lemma warnings_app (a b : list LogLine) :
  warnings (a ++ b) = warnings a + warnings b.
Proof. unfold warnings. now rewrite List.filter_app, List.length_app. Qed.

Lemma emit_ready flag :
  emit_to long_lived_listeners "ready" flag = (false, [ready_line]).
Proof. reflexivity. Qed.

Lemma emit_error_quiet :
  emit_to long_lived_listeners "error" false = (true, [lost_line]).
Proof. reflexivity. Qed.

Lemma emit_error_warned :
  emit_to long_lived_listeners "error" true = (true, []).
Proof. reflexivity. Qed.

Lemma warnings_count (events : list string) :
  Forall (fun ev => ev = "ready" \/ ev = "error") events ->
  forall flag,
    warnings (snd (emit_all long_lived_listeners events flag))
    + (if (flag && starts_with_error events)%bool then 1 else 0)
    = error_runs events.
Proof.
  induction 1 as [|ev rest Hev Hrest IH]; intros flag.
  - destruct flag; reflexivity.
  - cbn [emit_all error_runs starts_with_error].
    destruct Hev as [-> | ->].
    + rewrite emit_ready.
      specialize (IH false).
      destruct (emit_all long_lived_listeners rest false) as [f2 o2] eqn:E.
      cbn [snd] in *. rewrite warnings_app.
      change (is_error_event "ready") with false.
      rewrite andb_false_r. cbn in *. lia.
    + change (is_error_event "error") with true.
      rewrite andb_true_r.
      specialize (IH true). cbn [andb] in IH.
      destruct flag.
      * rewrite emit_error_warned.
        destruct (emit_all long_lived_listeners rest true) as [f2 o2] eqn:E.
        cbn [snd] in *. rewrite warnings_app.
        destruct rest as [|next rest']; cbn in *; [lia|].
        destruct (is_error_event next); cbn in *; lia.
      * rewrite emit_error_quiet.
        destruct (emit_all long_lived_listeners rest true) as [f2 o2] eqn:E.
        cbn [snd] in *. rewrite warnings_app.
        destruct rest as [|next rest']; cbn in *; [lia|].
        destruct (is_error_event next); cbn in *; lia.
Qed.

(** ** [initializeRedis] of [config/redis.ts] *)

Lemma initializeRedis_total out w :
  exists r w', RedisConfig.initializeRedis out w = (Normal r, w').
Proof.
  unfold RedisConfig.initializeRedis, RedisConfig.on_failure, new_Redis, ping.
  unfold_M.
  destruct (JS.truthy (env w !! "REDIS_URL")); cbn; [|eauto].
  destruct (redis_ctor out); cbn; [eauto|].
  destruct (redis_ping out); cbn; eauto.
Qed.

Lemma initializeRedis_not_configured out w :
  JS.truthy (env w !! "REDIS_URL") = false ->
  RedisConfig.initializeRedis out w
  = (Normal None,
     set_console
       (console w
        ++ [mkLine LOG "No REDIS_URL provided, proceeding without Redis cache"])
       w).
Proof.
  intros E. unfold RedisConfig.initializeRedis. unfold_M.
  now rewrite E.
Qed.

Lemma initializeRedis_ctor_throws out w e :
  JS.truthy (env w !! "REDIS_URL") = true ->
  redis_ctor out = Some e ->
  exists w', RedisConfig.initializeRedis out w = (Normal None, w')
             /\ net w' = net w.
Proof.
  intros E C.
  unfold RedisConfig.initializeRedis, RedisConfig.on_failure, new_Redis.
  unfold_M. rewrite E, C. cbn. eauto.
Qed.

Lemma initializeRedis_connected out w :
  JS.truthy (env w !! "REDIS_URL") = true ->
  redis_ctor out = None ->
  exists w', RedisConfig.initializeRedis out w
             = (Normal (Some (long_lived_client w)), w').
Proof.
  intros E C.
  unfold RedisConfig.initializeRedis, RedisConfig.on_failure, new_Redis, ping.
  unfold_M. rewrite E, C. cbn.
  destruct (redis_ping out); cbn; eexists; reflexivity.
Qed.

Lemma initializeRedis_listeners out w r w' :
  RedisConfig.initializeRedis out w = (Normal (Some r), w') ->
  listeners r = long_lived_listeners.
Proof.
  destruct (JS.truthy (env w !! "REDIS_URL")) eqn:E.
  - destruct (redis_ctor out) as [e|] eqn:C.
    + destruct (initializeRedis_ctor_throws out w e E C) as (w1 & R & _).
      rewrite R. discriminate.
    + destruct (initializeRedis_connected out w E C) as (w1 & R).
      rewrite R. intros [= <- _]. reflexivity.
  - rewrite (initializeRedis_not_configured out w E). discriminate.
Qed.

(** C9.  On the client that [initializeRedis] returns, and for every
    sequence of [ready] and [error] events delivered to its listeners from
    the initial state of the flag, the number of warnings written is the
    number of maximal runs of consecutive [error] events.  An [error] met
    with the flag down writes the warning and raises the flag, an [error] met
    with the flag up writes nothing, and a [ready] lowers the flag (writing
    no warning). *)
Theorem warning_once_per_error_run out w r w' (events : list string) :
  RedisConfig.initializeRedis out w = (Normal (Some r), w') ->
  Forall (fun ev => ev = "ready" \/ ev = "error") events ->
  warnings (snd (emit_all (listeners r) events false)) = error_runs events
  /\ emit_to (listeners r) "error" false = (true, [lost_line])
  /\ emit_to (listeners r) "error" true = (true, [])
  /\ (forall flag, emit_to (listeners r) "ready" flag = (false, [ready_line])).
Proof.
  intros R Hev.
  rewrite (initializeRedis_listeners _ _ _ _ R).
  split; [|split; [|split]].
  - pose proof (warnings_count events Hev false) as W.
    cbn [andb] in W. lia.
  - apply emit_error_quiet.
  - apply emit_error_warned.
  - apply emit_ready.
Qed.

Lemma warning_once_per_error_run_witness :
  let r := long_lived_client (fresh_world cache_env ∅) in
  let events := ["ready"; "error"; "error"; "ready"; "error"; "error"] in
  warnings (snd (emit_all (listeners r) events false)) = error_runs events
  /\ emit_to (listeners r) "error" false = (true, [lost_line])
  /\ emit_to (listeners r) "error" true = (true, [])
  /\ (forall flag, emit_to (listeners r) "ready" flag = (false, [ready_line])).
Proof.
  intros r events.
  apply (warning_once_per_error_run server_up (fresh_world cache_env ∅) r
           (snd (RedisConfig.initializeRedis server_up
                   (fresh_world cache_env ∅)))).
  - vm_compute. reflexivity.
  - unfold events.
    repeat (constructor; [first [left; reflexivity | right; reflexivity]|]).
    constructor.
Defined.

Example flapping_link :
  warnings (snd (emit_all long_lived_listeners
                   ["ready"; "error"; "ready"; "error"; "error"] false)) = 2.
Proof. reflexivity. Qed.

(** ** [initializeRedis] of the earlier [helper.ts] *)

Lemma old_initializeRedis_total out w :
  exists r w', HelperOld.initializeRedis out w = (Normal r, w').
Proof.
  unfold HelperOld.initializeRedis, new_Redis, ping. unfold_M.
  destruct (JS.truthy (env w !! "REDIS_URL")); cbn; [|eauto].
  destruct (redis_ctor out); cbn; [eauto|].
  destruct (redis_ping out); cbn; eauto.
Qed.

Lemma old_initializeRedis_failure out w r w' :
  HelperOld.initializeRedis out w = (Normal r, w') ->
  redis_ctor out <> None \/ redis_ping out <> Pong ->
  r = None.
Proof.
  unfold HelperOld.initializeRedis, new_Redis, ping. unfold_M.
  destruct (JS.truthy (env w !! "REDIS_URL")); cbn; [|congruence].
  destruct (redis_ctor out); cbn; [congruence|].
  destruct (redis_ping out); cbn; [|congruence].
  intros _ [F|F]; congruence.
Qed.

(** C3, the part that holds of [config/redis.ts]: the function always
    completes normally, without a configured address it returns [undefined]
    and touches neither the network nor the clock, and after a constructor
    that throws it returns [undefined]. *)
Lemma initializeRedis_never_throws out w :
  (exists r w', RedisConfig.initializeRedis out w = (Normal r, w'))
  /\ (JS.truthy (env w !! "REDIS_URL") = false ->
      exists w', RedisConfig.initializeRedis out w = (Normal None, w')
                 /\ net w' = net w /\ next_conn w' = next_conn w)
  /\ (forall e, JS.truthy (env w !! "REDIS_URL") = true ->
      redis_ctor out = Some e ->
      exists w', RedisConfig.initializeRedis out w = (Normal None, w')).
Proof.
  split; [apply initializeRedis_total|split].
  - intros E. rewrite (initializeRedis_not_configured out w E).
    eexists. split; [reflexivity|]. split; reflexivity.
  - intros e E C.
    destruct (initializeRedis_ctor_throws out w e E C) as (w1 & R & _).
    eauto.
Qed.

(** C3, the part that fails of [config/redis.ts]: with an address
    configured and a server that refuses the first ping, the function
    returns the client it constructed. *)
Lemma initializeRedis_returns_client_after_failed_ping :
  redis_ping server_down <> Pong
  /\ fst (RedisConfig.initializeRedis server_down (fresh_world cache_env ∅))
     = Normal (Some (long_lived_client (fresh_world cache_env ∅)))
  /\ fst (HelperOld.initializeRedis server_down (fresh_world cache_env ∅))
     = Normal None.
Proof.
  split; [discriminate|]. split; vm_compute; reflexivity.
Qed.

(** ** [checkRedisConnectivity]: the memo *)

Lemma old_check_fresh out w r t :
  healthCheckCache w = Some (r, t) ->
  (clock w - t < 30000)%Z ->
  HelperOld.checkRedisConnectivity out w = (Normal r, w).
Proof.
  intros C A. unfold HelperOld.checkRedisConnectivity. unfold_M.
  rewrite C. apply Z.ltb_lt in A. now rewrite A.
Qed.

Lemma check_fresh out w r t :
  healthCheckCache w = Some (r, t) ->
  (clock w - t < 30000)%Z ->
  Helper.checkRedisConnectivity out w = (Normal r, w).
Proof.
  intros C A. unfold Helper.checkRedisConnectivity. unfold_M.
  rewrite C. apply Z.ltb_lt in A. now rewrite A.
Qed.

Lemma old_check_stale out w :
  cache_stale w ->
  HelperOld.checkRedisConnectivity out w = HelperOld.probe out w.
Proof.
  intros [C | (r & t & C & A)];
    unfold HelperOld.checkRedisConnectivity; unfold_M; rewrite C;
    [reflexivity|].
  apply Z.ltb_ge in A. now rewrite A.
Qed.

Lemma check_stale out w :
  cache_stale w ->
  Helper.checkRedisConnectivity out w = Helper.probe out w.
Proof.
  intros [C | (r & t & C & A)];
    unfold Helper.checkRedisConnectivity; unfold_M; rewrite C;
    [reflexivity|].
  apply Z.ltb_ge in A. now rewrite A.
Qed.

Lemma fresh_or_stale w :
  cache_stale w
  \/ exists r t, healthCheckCache w = Some (r, t) /\ (clock w - t < 30000)%Z.
Proof.
  unfold cache_stale.
  destruct (healthCheckCache w) as [[r t]|]; [|left; left; reflexivity].
  destruct (Z.lt_ge_cases (clock w - t) 30000); [right|left; right]; eauto.
Qed.

(** ** [checkRedisConnectivity]: the recomputation *)

Lemma old_probe_not_configured out w :
  JS.truthy (env w !! "REDIS_URL") = false ->
  HelperOld.probe out w
  = (Normal HelperOld.not_configured,
     set_healthCheckCache (Some (HelperOld.not_configured, clock w)) w).
Proof.
  intros E. unfold HelperOld.probe, HelperOld.cache_and_return. unfold_M.
  now rewrite E.
Qed.

Lemma probe_not_configured out w :
  JS.truthy (env w !! "REDIS_URL") = false ->
  Helper.probe out w
  = (Normal Helper.not_configured,
     set_healthCheckCache (Some (Helper.not_configured, clock w)) w).
Proof.
  intros E. unfold Helper.probe, Helper.cache_and_return. unfold_M.
  now rewrite E.
Qed.

(** The earlier text, with an address configured: the verdict, the stamp
    and the network activity of the recomputation. *)
Lemma old_probe_configured out w :
  JS.truthy (env w !! "REDIS_URL") = true ->
  exists w',
    HelperOld.probe out w = (Normal (expected_snapshot w out), w')
    /\ healthCheckCache w' = Some (expected_snapshot w out, clock w')
    /\ env w' = env w /\ console w' = console w
    /\ match redis_ctor out with
       | Some _ => net w' = net w /\ clock w' = clock w
       | None =>
           let id := next_conn w in
           net w'
           = net w
             ++ [RedisConnect id (default "" (env w !! "REDIS_URL"));
                 RedisPing id]
             ++ (if answers_in_time out then [RedisDisconnect id] else [])
           /\ clock w' = (clock w + race_duration out)%Z
       end.
Proof.
  intros E.
  unfold expected_snapshot, answers_in_time, race_duration.
  unfold HelperOld.probe, HelperOld.cache_and_return, new_Redis,
    race_ping_timeout, disconnect.
  unfold_M. rewrite E. cbn.
  destruct (redis_ctor out); cbn.
  - eexists. repeat split; reflexivity.
  - destruct (2000 <=? ping_elapsed out)%Z; cbn.
    + destruct (redis_ping out); cbn; eexists;
        (repeat split; try reflexivity); cbn; now rewrite <- ?List.app_assoc.
    + destruct (redis_ping out); cbn; eexists;
        (repeat split; try reflexivity); cbn;
        now rewrite <- ?List.app_assoc.
Qed.

(** The later text, with an address configured and a constructor that does
    not throw: the probe connection is closed on all three ways out. *)
Lemma probe_configured out w :
  JS.truthy (env w !! "REDIS_URL") = true ->
  redis_ctor out = None ->
  exists w',
    Helper.probe out w = (Normal (expected_snapshot w out), w')
    /\ env w' = env w /\ console w' = console w
    /\ healthCheckCache w'
       = Some (expected_snapshot w out, (clock w + race_duration out)%Z)
    /\ clock w' = (clock w + race_duration out)%Z
    /\ net w'
       = net w
         ++ [RedisConnect (next_conn w) (default "" (env w !! "REDIS_URL"));
             RedisPing (next_conn w); RedisDisconnect (next_conn w)].
Proof.
  intros E C.
  unfold expected_snapshot, answers_in_time, race_duration.
  unfold Helper.probe, Helper.cache_and_return, new_Redis,
    race_ping_timeout, disconnect.
  unfold_M. rewrite E, C. cbn.
  destruct (2000 <=? ping_elapsed out)%Z; cbn.
  - destruct (redis_ping out); cbn; eexists;
      (repeat split; try reflexivity); cbn; now rewrite <- ?List.app_assoc.
  - destruct (redis_ping out); cbn; eexists;
      (repeat split; try reflexivity); cbn; now rewrite <- ?List.app_assoc.
Qed.

Lemma probe_ctor_throws out w e :
  JS.truthy (env w !! "REDIS_URL") = true ->
  redis_ctor out = Some e ->
  Helper.probe out w = (Throw e, w).
Proof.
  intros E C. unfold Helper.probe, new_Redis. unfold_M.
  now rewrite E, C.
Qed.

Lemma old_probe_spec out w :
  exists w',
    HelperOld.probe out w = (Normal (expected_snapshot w out), w')
    /\ healthCheckCache w' = Some (expected_snapshot w out, clock w')
    /\ (JS.truthy (env w !! "REDIS_URL") = false -> net w' = net w)
    /\ (JS.truthy (env w !! "REDIS_URL") = true -> redis_ctor out = None ->
        exists tail,
          net w'
          = net w
            ++ RedisConnect (next_conn w) (default "" (env w !! "REDIS_URL"))
               :: RedisPing (next_conn w) :: tail).
Proof.
  destruct (JS.truthy (env w !! "REDIS_URL")) eqn:E.
  - destruct (old_probe_configured out w E) as (w' & R & C & _ & _ & N).
    exists w'. split; [exact R|]. split; [exact C|].
    split; [discriminate|]. intros _ Ctor. rewrite Ctor in N.
    destruct N as [N _]. eexists. exact N.
  - rewrite (old_probe_not_configured out w E).
    unfold expected_snapshot. rewrite E.
    eexists. split; [reflexivity|]. split; [reflexivity|].
    split; [reflexivity|discriminate].
Qed.

Lemma old_check_total out w :
  exists r t w',
    HelperOld.checkRedisConnectivity out w = (Normal r, w')
    /\ healthCheckCache w' = Some (r, t).
Proof.
  destruct (fresh_or_stale w) as [S | (r & t & C & A)].
  - rewrite (old_check_stale out w S).
    destruct (old_probe_spec out w) as (w' & R & C & _).
    eauto.
  - rewrite (old_check_fresh out w r t C A). eauto.
Qed.

(** C6, the part that holds, for the earlier text of [helper.ts] (the later
    text follows in [check_memoized]).  [checkRedisConnectivity] keeps its
    last snapshot for 30 seconds.  (1) A call made while a snapshot younger than 30000 ms is cached returns
    that snapshot and leaves the whole state as it was: no connection, no
    ping, the cache slot untouched.  (2) A call made when no snapshot is
    cached or the cached one is 30000 ms old or older recomputes: the
    snapshot it returns depends on the environment and on the answers of the
    server to this call only, it replaces the cache slot together with a new
    time stamp, and with an address configured (and a constructor that does
    not throw) a new connection is opened and pinged.  (3) For two calls in
    a row, with any idle time in between: the first one leaves a snapshot
    cached, and the second one returns it when it is younger than 30000 ms
    and recomputes otherwise. *)
Theorem memoized_for_30_seconds :
  (forall out w r t,
      healthCheckCache w = Some (r, t) ->
      (clock w - t < 30000)%Z ->
      HelperOld.checkRedisConnectivity out w = (Normal r, w))
  /\ (forall out w,
      cache_stale w ->
      exists w',
        HelperOld.checkRedisConnectivity out w
        = (Normal (expected_snapshot w out), w')
        /\ healthCheckCache w' = Some (expected_snapshot w out, clock w')
        /\ (JS.truthy (env w !! "REDIS_URL") = true ->
            redis_ctor out = None ->
            exists tail,
              net w'
              = net w
                ++ RedisConnect (next_conn w)
                     (default "" (env w !! "REDIS_URL"))
                   :: RedisPing (next_conn w) :: tail))
  /\ (forall out1 out2 w0 idle,
      exists r1 t1 w1,
        HelperOld.checkRedisConnectivity out1 w0 = (Normal r1, w1)
        /\ healthCheckCache w1 = Some (r1, t1)
        /\ let w := set_clock (clock w1 + idle)%Z w1 in
           ((clock w - t1 < 30000)%Z ->
            HelperOld.checkRedisConnectivity out2 w = (Normal r1, w))
           /\ ((30000 <= clock w - t1)%Z ->
               exists w2,
                 HelperOld.checkRedisConnectivity out2 w
                 = (Normal (expected_snapshot w out2), w2)
                 /\ healthCheckCache w2
                    = Some (expected_snapshot w out2, clock w2))).
Proof.
  split; [|split].
  - intros out w r t C A. exact (old_check_fresh out w r t C A).
  - intros out w S. rewrite (old_check_stale out w S).
    destruct (old_probe_spec out w) as (w' & R & C & _ & N).
    exists w'. auto.
  - intros out1 out2 w0 idle.
    destruct (old_check_total out1 w0) as (r1 & t1 & w1 & R1 & C1).
    exists r1, t1, w1. split; [exact R1|]. split; [exact C1|].
    cbv zeta. split.
    + intros A. apply (old_check_fresh out2 _ r1 t1); [exact C1|exact A].
    + intros A.
      assert (S : cache_stale (set_clock (clock w1 + idle)%Z w1)).
      { right. exists r1, t1. split; [exact C1|exact A]. }
      rewrite (old_check_stale out2 _ S).
      destruct (old_probe_spec out2 (set_clock (clock w1 + idle)%Z w1))
        as (w2 & R & C & _).
      exists w2. auto.
Qed.

(** Two calls in a row on a process that has just started, the first
    against a server that answers, the second against one that does not. *)
Lemma memoized_for_30_seconds_witness :
  exists r1 t1 w1,
    HelperOld.checkRedisConnectivity server_up (fresh_world cache_env ∅)
    = (Normal r1, w1)
    /\ healthCheckCache w1 = Some (r1, t1)
    /\ let w := set_clock (clock w1 + 10000)%Z w1 in
       ((clock w - t1 < 30000)%Z ->
        HelperOld.checkRedisConnectivity server_down w = (Normal r1, w))
       /\ ((30000 <= clock w - t1)%Z ->
           exists w2,
             HelperOld.checkRedisConnectivity server_down w
             = (Normal (expected_snapshot w server_down), w2)
             /\ healthCheckCache w2
                = Some (expected_snapshot w server_down, clock w2)).
Proof.
  exact (proj2 (proj2 memoized_for_30_seconds) server_up server_down
           (fresh_world cache_env ∅) 10000%Z).
Defined.

(** Two calls 10 s apart cost one probe; a third call 31 s after the first
    costs a second one. *)
Example polling_every_few_seconds :
  let '(results, w) :=
    poll HelperOld.checkRedisConnectivity
      [(0%Z, server_up); (10000%Z, server_down); (21000%Z, server_down)]
      (fresh_world cache_env ∅) in
  results = [Normal HelperOld.ready; Normal HelperOld.ready;
             Normal HelperOld.disconnected]
  /\ net w = [RedisConnect 0 "redis://cache.internal:6379"; RedisPing 0;
              RedisDisconnect 0;
              RedisConnect 1 "redis://cache.internal:6379"; RedisPing 1].
Proof. vm_compute. split; reflexivity. Qed.

(** The later text of [helper.ts] keeps the same memo; its recomputation
    completes normally unless the constructor of the client throws. *)
Lemma check_memoized :
  (forall out w r t,
      healthCheckCache w = Some (r, t) ->
      (clock w - t < 30000)%Z ->
      Helper.checkRedisConnectivity out w = (Normal r, w))
  /\ (forall out w,
      cache_stale w ->
      JS.truthy (env w !! "REDIS_URL") = false \/ redis_ctor out = None ->
      exists w',
        Helper.checkRedisConnectivity out w
        = (Normal (expected_snapshot w out), w')
        /\ healthCheckCache w' = Some (expected_snapshot w out, clock w')).
Proof.
  split.
  - intros out w r t C A. exact (check_fresh out w r t C A).
  - intros out w S Hc. rewrite (check_stale out w S).
    destruct (JS.truthy (env w !! "REDIS_URL")) eqn:E.
    + destruct Hc as [Hc|Hc]; [discriminate|].
      destruct (probe_configured out w E Hc) as (w' & R & _ & _ & C & T & _).
      exists w'. split; [exact R|]. now rewrite T.
    + rewrite (probe_not_configured out w E).
      unfold expected_snapshot. rewrite E.
      eexists. split; reflexivity.
Qed.


(** C7.  Without a configured address and without a snapshot younger than
    30 seconds, [checkRedisConnectivity], in the earlier and in the later
    text of [helper.ts], returns the snapshot [{configured: false,
    connected: false, status: "not configured"}], and the state it leaves
    differs from the one it found in the cache slot only, which now holds
    that snapshot stamped with the time of the call: the network trace and
    the connection counter are as before, so no connection was constructed
    and no ping was sent. *)
Theorem not_configured_without_network out w :
  JS.truthy (env w !! "REDIS_URL") = false ->
  cache_stale w ->
  let snapshot :=
    {| configured := false; connected := false; status := "not configured";
       details := Some "REDIS_URL environment variable not set" |} in
  let after := set_healthCheckCache (Some (snapshot, clock w)) w in
  HelperOld.checkRedisConnectivity out w = (Normal snapshot, after)
  /\ Helper.checkRedisConnectivity out w = (Normal snapshot, after)
  /\ healthCheckCache after = Some (snapshot, clock w)
  /\ net after = net w
  /\ next_conn after = next_conn w
  /\ console after = console w
  /\ clock after = clock w.
Proof.
  intros E S snapshot after. split; [|split; [|repeat split]].
  - rewrite (old_check_stale out w S). exact (old_probe_not_configured out w E).
  - rewrite (check_stale out w S). exact (probe_not_configured out w E).
Qed.

Lemma not_configured_without_network_witness :
  let w := fresh_world ∅ ∅ in
  let snapshot :=
    {| configured := false; connected := false; status := "not configured";
       details := Some "REDIS_URL environment variable not set" |} in
  let after := set_healthCheckCache (Some (snapshot, clock w)) w in
  HelperOld.checkRedisConnectivity server_up w = (Normal snapshot, after)
  /\ Helper.checkRedisConnectivity server_up w = (Normal snapshot, after)
  /\ healthCheckCache after = Some (snapshot, clock w)
  /\ net after = net w
  /\ next_conn after = next_conn w
  /\ console after = console w
  /\ clock after = clock w.
Proof.
  intros w. apply (not_configured_without_network server_up w).
  - reflexivity.
  - left. reflexivity.
Defined.

(** ** [checkRedisConnectivity]: the shape of the snapshots *)

Lemma expected_snapshot_well_shaped w out :
  well_shaped (expected_snapshot w out).
Proof.
  unfold expected_snapshot, well_shaped.
  destruct (JS.truthy (env w !! "REDIS_URL")); [|left; now repeat split].
  destruct (redis_ctor out); [right; right; now repeat split|].
  destruct (answers_in_time out);
    [right; left | right; right]; now repeat split.
Qed.

Lemma cache_well_shaped_stamp w t :
  cache_well_shaped w -> cache_well_shaped (set_clock t w).
Proof. intros I r t' C. exact (I r t' C). Qed.

Lemma old_check_preserves out w c w' :
  cache_well_shaped w ->
  HelperOld.checkRedisConnectivity out w = (c, w') ->
  returns_well_shaped c /\ cache_well_shaped w'.
Proof.
  intros I R.
  destruct (fresh_or_stale w) as [S | (r & t & C & A)].
  - rewrite (old_check_stale out w S) in R.
    destruct (old_probe_spec out w) as (w1 & R1 & C1 & _).
    rewrite R1 in R. injection R as <- <-. split.
    + intros r [= <-]. apply expected_snapshot_well_shaped.
    + intros r t C. rewrite C1 in C. injection C as <- _.
      apply expected_snapshot_well_shaped.
  - rewrite (old_check_fresh out w r t C A) in R.
    injection R as <- <-. split; [|exact I].
    intros r' [= <-]. exact (I r t C).
Qed.

Lemma check_preserves out w c w' :
  cache_well_shaped w ->
  Helper.checkRedisConnectivity out w = (c, w') ->
  returns_well_shaped c /\ cache_well_shaped w'.
Proof.
  intros I R.
  destruct (fresh_or_stale w) as [S | (r & t & C & A)].
  - rewrite (check_stale out w S) in R.
    destruct (JS.truthy (env w !! "REDIS_URL")) eqn:E.
    + destruct (redis_ctor out) as [e|] eqn:Ctor.
      * rewrite (probe_ctor_throws out w e E Ctor) in R.
        injection R as <- <-. split; [discriminate|exact I].
      * destruct (probe_configured out w E Ctor)
          as (w1 & R1 & _ & _ & C1 & _).
        rewrite R1 in R. injection R as <- <-. split.
        -- intros r [= <-]. apply expected_snapshot_well_shaped.
        -- intros r t C. rewrite C1 in C. injection C as <- _.
           apply expected_snapshot_well_shaped.
    + rewrite (probe_not_configured out w E) in R.
      injection R as <- <-. split.
      * intros r [= <-]. left. now repeat split.
      * intros r t [= <- _]. left. now repeat split.
  - rewrite (check_fresh out w r t C A) in R.
    injection R as <- <-. split; [|exact I].
    intros r' [= <-]. exact (I r t C).
Qed.

Lemma poll_well_shaped (check : RedisOutside -> M HealthResult) :
  (forall out w c w',
      cache_well_shaped w -> check out w = (c, w') ->
      returns_well_shaped c /\ cache_well_shaped w') ->
  forall calls w,
    cache_well_shaped w ->
    Forall returns_well_shaped (fst (poll check calls w)).
Proof.
  intros Step calls.
  induction calls as [|[idle out] rest IH]; intros w I; cbn [poll].
  - constructor.
  - destruct (check out (set_clock (clock w + idle)%Z w)) as [c w1] eqn:R.
    destruct (Step _ _ _ _ (cache_well_shaped_stamp w _ I) R) as [Hc I1].
    specialize (IH w1 I1).
    destruct (poll check rest w1) as [cs w2]. cbn [fst] in *.
    constructor; assumption.
Qed.

Lemma empty_cache_well_shaped w :
  healthCheckCache w = None -> cache_well_shaped w.
Proof. intros C r t E. rewrite C in E. discriminate. Qed.

(** C10.  Every snapshot that [checkRedisConnectivity] returns, in either
    text of [helper.ts], computed or taken from the cache, has one of the
    three shapes.  The shape of the cached snapshot is an invariant of the
    calls; it holds when the process starts (the slot is empty), so all the
    snapshots returned along any sequence of calls have one of the shapes.
    A snapshot of one of the shapes is connected only if configured, and its
    status is a function of the two booleans. *)
Theorem snapshots_have_three_shapes :
  (forall out w c w',
      cache_well_shaped w ->
      HelperOld.checkRedisConnectivity out w = (c, w') ->
      returns_well_shaped c /\ cache_well_shaped w')
  /\ (forall out w c w',
      cache_well_shaped w ->
      Helper.checkRedisConnectivity out w = (c, w') ->
      returns_well_shaped c /\ cache_well_shaped w')
  /\ (forall calls w,
      healthCheckCache w = None ->
      Forall returns_well_shaped
        (fst (poll HelperOld.checkRedisConnectivity calls w))
      /\ Forall returns_well_shaped
           (fst (poll Helper.checkRedisConnectivity calls w)))
  /\ (forall r,
      well_shaped r ->
      (connected r = true -> configured r = true)
      /\ status r
         = if configured r then
             if connected r then "ready" else "disconnected"
           else "not configured").
Proof.
  split; [exact old_check_preserves|].
  split; [exact check_preserves|].
  split.
  - intros calls w C. split.
    + apply (poll_well_shaped _ old_check_preserves).
      now apply empty_cache_well_shaped.
    + apply (poll_well_shaped _ check_preserves).
      now apply empty_cache_well_shaped.
  - intros r [(A & B & C) | [(A & B & C) | (A & B & C)]];
      rewrite A, B, C; split; congruence.
Qed.

(** ** [checkRedisConnectivity]: the probe connection *)

Lemma leaked_connect_ping_disconnect id url :
  leaked [RedisConnect id url; RedisPing id; RedisDisconnect id] = [].
Proof. cbn. now rewrite Nat.eqb_refl. Qed.

(** The later text closes the probe connection on every way out: whatever a
    call adds to the network activity leaves no connection open. *)
Lemma probe_connection_released out w c w' :
  Helper.checkRedisConnectivity out w = (c, w') ->
  exists activity, net w' = net w ++ activity /\ leaked activity = [].
Proof.
  intros R.
  destruct (fresh_or_stale w) as [S | (r & t & C & A)].
  - rewrite (check_stale out w S) in R.
    destruct (JS.truthy (env w !! "REDIS_URL")) eqn:E.
    + destruct (redis_ctor out) as [e|] eqn:Ctor.
      * rewrite (probe_ctor_throws out w e E Ctor) in R.
        injection R as <- <-. exists []. now rewrite List.app_nil_r.
      * destruct (probe_configured out w E Ctor)
          as (w1 & R1 & _ & _ & _ & _ & N).
        rewrite R1 in R. injection R as <- <-.
        eexists. split; [exact N|]. apply leaked_connect_ping_disconnect.
    + rewrite (probe_not_configured out w E) in R.
      injection R as <- <-. exists []. cbn. now rewrite List.app_nil_r.
  - rewrite (check_fresh out w r t C A) in R.
    injection R as <- <-. exists []. now rewrite List.app_nil_r.
Qed.

(** The earlier text closes it after a ping that was answered in time
    only. *)
Lemma old_probe_connection_left_open out w :
  cache_stale w ->
  JS.truthy (env w !! "REDIS_URL") = true ->
  redis_ctor out = None ->
  answers_in_time out = false ->
  exists w',
    HelperOld.checkRedisConnectivity out w
    = (Normal HelperOld.disconnected, w')
    /\ net w'
       = net w
         ++ [RedisConnect (next_conn w) (default "" (env w !! "REDIS_URL"));
             RedisPing (next_conn w)]
    /\ leaked [RedisConnect (next_conn w)
                 (default "" (env w !! "REDIS_URL"));
               RedisPing (next_conn w)]
       = [next_conn w].
Proof.
  intros S E Ctor T. rewrite (old_check_stale out w S).
  destruct (old_probe_configured out w E) as (w' & R & _ & _ & _ & N).
  rewrite Ctor, T in N. destruct N as [N _].
  unfold expected_snapshot in R. rewrite E, Ctor, T in R.
  exists w'. split; [exact R|]. split; [exact N|]. reflexivity.
Qed.

(** C8, at a server that refuses the ping and at one that does not answer
    within the 2000 ms: the earlier [checkRedisConnectivity] returns the
    [disconnected] snapshot and the connection it opened stays open; the
    later one closes it. *)
Lemma old_check_leaves_probe_connection_open :
  let w := fresh_world cache_env ∅ in
  fst (HelperOld.checkRedisConnectivity server_down w)
  = Normal HelperOld.disconnected
  /\ leaked (net (snd (HelperOld.checkRedisConnectivity server_down w)))
     = [0]
  /\ fst (HelperOld.checkRedisConnectivity server_silent w)
     = Normal HelperOld.disconnected
  /\ leaked (net (snd (HelperOld.checkRedisConnectivity server_silent w)))
     = [0]
  /\ leaked (net (snd (Helper.checkRedisConnectivity server_down w))) = []
  /\ leaked (net (snd (Helper.checkRedisConnectivity server_silent w))) = [].
Proof. vm_compute. repeat split; reflexivity. Qed.

(** ** [initializeArweave]: what the first steps leave untouched *)

Lemma initializeRedis_frame out w :
  exists r w',
    RedisConfig.initializeRedis out w = (Normal r, w')
    /\ env w' = env w /\ fs w' = fs w.
Proof.
  unfold RedisConfig.initializeRedis, RedisConfig.on_failure, new_Redis, ping.
  unfold_M.
  destruct (JS.truthy (env w !! "REDIS_URL")); cbn;
    [|eexists _, _; repeat split].
  destruct (redis_ctor out); cbn; [eexists _, _; repeat split|].
  destruct (redis_ping out); cbn; eexists _, _; repeat split.
Qed.

Lemma old_checkArLocalRunning_spec out port w :
  exists w',
    HelperOld.checkArLocalRunning out port w = (Normal (reachable_old out), w')
    /\ env w' = env w /\ fs w' = fs w.
Proof.
  unfold HelperOld.checkArLocalRunning, fetch, reachable_old. unfold_M.
  destruct (fetch_info out); cbn; eexists; repeat split.
Qed.

Lemma checkArLocalRunning_spec out port w :
  exists w',
    Helper.checkArLocalRunning out port w = (Normal (reachable out), w')
    /\ env w' = env w /\ fs w' = fs w.
Proof.
  unfold Helper.checkArLocalRunning, fetch, reachable, reachable_old.
  unfold_M.
  destruct (1000 <=? fetch_elapsed out)%Z; cbn; [eexists; repeat split|].
  destruct (fetch_info out); cbn; eexists; repeat split.
Qed.

Lemma probe_of_helper_reports probe says :
  is_probe_of_helper probe says -> probe_reports probe says.
Proof.
  intros [[-> ->] | [-> ->]] out port w.
  - apply old_checkArLocalRunning_spec.
  - apply checkArLocalRunning_spec.
Qed.

Section BootstrapSteps.
Context `{Platform}.
Variable probe : FetchOutside -> Z -> M bool.
Variable says : FetchOutside -> bool.

Lemma select_warp_production out redis w :
  exists w',
    Arweave.select_warp probe out true redis w
    = (Normal (Arweave.with_cache redis (WarpFactory.forMainnet true)), w')
    /\ env w' = env w /\ fs w' = fs w.
Proof. eexists. repeat split. Qed.

Lemma select_warp_development out redis w :
  probe_reports probe says ->
  exists w',
    Arweave.select_warp probe out false redis w
    = (Normal
         (Arweave.with_cache redis
            (if says (Arweave.of_fetch out)
             then WarpFactory.forLocal 8080
             else WarpFactory.forTestnet true)), w')
    /\ env w' = env w /\ fs w' = fs w.
Proof.
  intros P.
  destruct (P (Arweave.of_fetch out) Arweave.ARLOCAL_PORT w)
    as (w1 & R & E & F).
  unfold Arweave.select_warp.
  rewrite (bind_normal _ _ _ _ _ R).
  destruct (says (Arweave.of_fetch out));
    eexists; (split; [reflexivity|]); split; assumption.
Qed.

Lemma initializeArweave_production out w :
  Arweave.isProduction (env w !! "NODE_ENV") = true ->
  exists redis w',
    env w' = env w /\ fs w' = fs w
    /\ Arweave.initializeArweave probe out w
       = (let warp :=
            use DeployPlugin
              (Arweave.with_cache redis (WarpFactory.forMainnet true)) in
          let* wallet := Arweave.production_wallet warp in
          finish true warp redis wallet) w'.
Proof.
  intros P.
  destruct (initializeRedis_frame (Arweave.of_redis out) w)
    as (redis & w1 & R1 & E1 & F1).
  destruct (select_warp_production out redis w1) as (w2 & R2 & E2 & F2).
  exists redis, w2.
  split; [congruence|]. split; [congruence|].
  unfold Arweave.initializeArweave.
  unfold process_env at 1. unfold bind at 1. rewrite P.
  rewrite (bind_normal _ _ _ _ _ R1).
  rewrite (bind_normal _ _ _ _ _ R2).
  reflexivity.
Qed.

Lemma initializeArweave_development out w :
  probe_reports probe says ->
  Arweave.isProduction (env w !! "NODE_ENV") = false ->
  exists redis w',
    env w' = env w /\ fs w' = fs w
    /\ Arweave.initializeArweave probe out w
       = (let warp :=
            use DeployPlugin
              (Arweave.with_cache redis
                 (if says (Arweave.of_fetch out)
                  then WarpFactory.forLocal 8080
                  else WarpFactory.forTestnet true)) in
          let* wallet := Arweave.development_wallet out warp in
          finish false warp redis wallet) w'.
Proof.
  intros Hp P.
  destruct (initializeRedis_frame (Arweave.of_redis out) w)
    as (redis & w1 & R1 & E1 & F1).
  destruct (select_warp_development out redis w1 Hp)
    as (w2 & R2 & E2 & F2).
  exists redis, w2.
  split; [congruence|]. split; [congruence|].
  unfold Arweave.initializeArweave.
  unfold process_env at 1. unfold bind at 1. rewrite P.
  rewrite (bind_normal _ _ _ _ _ R1).
  rewrite (bind_normal _ _ _ _ _ R2).
  reflexivity.
Qed.

End BootstrapSteps.

(** ** [initializeArweave]: the wallet *)

Section Wallets.
Context `{Platform}.

Lemma production_wallet_unconfigured warp w :
  JS.truthy (env w !! "SERVICE_WALLET_ADDRESS") = false
  \/ JS.truthy (env w !! "ARWEAVE_WALLET_PATH") = false ->
  Arweave.production_wallet warp w = (Throw Arweave.config_error, w).
Proof.
  intros A. unfold Arweave.production_wallet. unfold_M.
  destruct A as [-> | ->]; [reflexivity|].
  now rewrite andb_false_r.
Qed.

Lemma production_wallet_mismatch warp w path expected content jwk loaded :
  env w !! "SERVICE_WALLET_ADDRESS" = Some expected -> expected <> "" ->
  env w !! "ARWEAVE_WALLET_PATH" = Some path -> path <> "" ->
  fs w !! path = Some content ->
  JSON_parse content = Some jwk ->
  jwkToAddress jwk = Some loaded ->
  loaded <> expected ->
  Arweave.production_wallet warp w
  = (Throw Arweave.load_error,
     set_console (console w ++ mismatch_report expected loaded path) w).
Proof.
  intros Ee Ne Ep Np Ef Ej Ea Nm.
  apply String.eqb_neq in Ne, Np, Nm.
  unfold Arweave.production_wallet, Helper.validateWalletAddress,
    Arweave.JSON_parse_or_throw, readFile.
  unfold_M. rewrite Ee, Ep. cbn [JS.truthy default from_option id andb negb].
  rewrite Ne, Np. cbn [negb andb set_console fs].
  rewrite Ef, Ej, Ea. cbn [negb]. rewrite Nm. cbn.
  unfold mismatch_report. rewrite <- !List.app_assoc. reflexivity.
Qed.

Lemma development_wallet_loads out warp w content jwk addr :
  fs w !! Arweave.devWalletPath = Some content ->
  JSON_parse content = Some jwk ->
  jwkToAddress jwk = Some addr ->
  exists w',
    Arweave.development_wallet out warp w = (Normal jwk, w')
    /\ env w' = env w /\ fs w' = fs w.
Proof.
  intros Ef Ej Ea.
  unfold Arweave.development_wallet, Arweave.wallets_jwkToAddress,
    Arweave.JSON_parse_or_throw, readFile.
  unfold_M. rewrite Ef, Ej, Ea.
  eexists. repeat split.
Qed.

Lemma development_wallet_creates out warp w jwk addr :
  fs w !! Arweave.devWalletPath = None ->
  Arweave.wallets_generate out = inl jwk ->
  jwkToAddress jwk = Some addr ->
  Arweave.writeFile_failure out = None ->
  exists w',
    Arweave.development_wallet out warp w = (Normal jwk, w')
    /\ env w' = env w
    /\ fs w' = <[Arweave.devWalletPath := JSON_stringify jwk]> (fs w).
Proof.
  intros Ef Eg Ea Ew.
  unfold Arweave.development_wallet, Arweave.wallets_jwkToAddress,
    Arweave.JSON_parse_or_throw, readFile, writeFile.
  unfold_M. rewrite Ef, Eg, Ea, Ew.
  eexists. repeat split.
Qed.


End Wallets.

(** ** [initializeArweave] in production *)

Section Production.
Context `{Platform}.
Variable probe : FetchOutside -> Z -> M bool.

Lemma initializeArweave_unconfigured out w :
  Arweave.isProduction (env w !! "NODE_ENV") = true ->
  JS.truthy (env w !! "SERVICE_WALLET_ADDRESS") = false
  \/ JS.truthy (env w !! "ARWEAVE_WALLET_PATH") = false ->
  exists w',
    Arweave.initializeArweave probe out w
    = (Throw Arweave.config_error, w').
Proof.
  intros P A.
  destruct (initializeArweave_production probe out w P)
    as (redis & w2 & E & F & R).
  rewrite R. cbv zeta. rewrite <- E in A.
  erewrite bind_throw; [|apply production_wallet_unconfigured; exact A].
  eauto.
Qed.

Lemma initializeArweave_mismatch out w path expected content jwk loaded :
  Arweave.isProduction (env w !! "NODE_ENV") = true ->
  env w !! "SERVICE_WALLET_ADDRESS" = Some expected -> expected <> "" ->
  env w !! "ARWEAVE_WALLET_PATH" = Some path -> path <> "" ->
  fs w !! path = Some content ->
  JSON_parse content = Some jwk ->
  jwkToAddress jwk = Some loaded ->
  loaded <> expected ->
  exists w' before,
    Arweave.initializeArweave probe out w = (Throw Arweave.load_error, w')
    /\ console w' = before ++ mismatch_report expected loaded path.
Proof.
  intros P Ee Ne Ep Np Ef Ej Ea Nm.
  destruct (initializeArweave_production probe out w P)
    as (redis & w2 & E & F & R).
  rewrite R. cbv zeta. rewrite <- E in Ee, Ep. rewrite <- F in Ef.
  erewrite bind_throw;
    [|exact (production_wallet_mismatch _ w2 path expected content jwk
               loaded Ee Ne Ep Np Ef Ej Ea Nm)].
  eexists _, (console w2). split; reflexivity.
Qed.

End Production.

(** C1, as stated, fails: the keypair on disk derives [addr:intruder], the
    expected address is [addr:service], and the message of the error that
    [initializeArweave] raises names neither address nor the path of the
    file. *)
Lemma mismatch_error_names_no_address :
  let run :=
    @Arweave.initializeArweave example_platform Helper.checkArLocalRunning
      (example_outside gateway_up)
      (fresh_world production_env production_files) in
  @jwkToAddress example_platform "intruder" = Some "addr:intruder"
  /\ exists e,
      fst run = Throw e
      /\ JS.includes (JS.message e) "addr:service" = false
      /\ JS.includes (JS.message e) "addr:intruder" = false
      /\ JS.includes (JS.message e) "/run/secrets/wallet.json" = false.
Proof.
  split; [reflexivity|].
  eexists. split; [vm_compute; reflexivity|].
  repeat split; vm_compute; reflexivity.
Qed.

(** C1, amended.  In production, when the keypair read from the configured
    path derives an address other than the expected one, [initializeArweave]
    ends with a thrown error, so no [ArweaveConfig] is returned, and the last
    lines written to the console, all at the error level, give the expected
    address, the derived address and the path of the file. *)
Theorem production_mismatch_is_fatal `{Platform}
    (probe : FetchOutside -> Z -> M bool) out w path expected content jwk
    loaded :
  Arweave.isProduction (env w !! "NODE_ENV") = true ->
  env w !! "SERVICE_WALLET_ADDRESS" = Some expected -> expected <> "" ->
  env w !! "ARWEAVE_WALLET_PATH" = Some path -> path <> "" ->
  fs w !! path = Some content ->
  JSON_parse content = Some jwk ->
  jwkToAddress jwk = Some loaded ->
  loaded <> expected ->
  exists e w' before,
    Arweave.initializeArweave probe out w = (Throw e, w')
    /\ console w' = before ++ mismatch_report expected loaded path
    /\ In (mkLine ERROR ("Expected: " +:+ expected)) (console w')
    /\ In (mkLine ERROR ("Loaded:   " +:+ loaded)) (console w')
    /\ In (mkLine ERROR ("Source:   " +:+ path)) (console w').
Proof.
  intros P Ee Ne Ep Np Ef Ej Ea Nm.
  destruct (initializeArweave_mismatch probe out w path expected content jwk
              loaded P Ee Ne Ep Np Ef Ej Ea Nm) as (w' & before & R & C).
  exists Arweave.load_error, w', before.
  split; [exact R|]. split; [exact C|].
  rewrite C. unfold mismatch_report.
  repeat split; apply in_or_app; right; cbn; tauto.
Qed.

Lemma production_mismatch_is_fatal_witness :
  exists e w' before,
    @Arweave.initializeArweave example_platform Helper.checkArLocalRunning
      (example_outside gateway_up)
      (fresh_world production_env production_files)
    = (Throw e, w')
    /\ console w'
       = before
         ++ mismatch_report "addr:service" "addr:intruder"
              "/run/secrets/wallet.json"
    /\ In (mkLine ERROR ("Expected: " +:+ "addr:service")) (console w')
    /\ In (mkLine ERROR ("Loaded:   " +:+ "addr:intruder")) (console w')
    /\ In (mkLine ERROR ("Source:   " +:+ "/run/secrets/wallet.json"))
         (console w').
Proof.
  apply (@production_mismatch_is_fatal example_platform
           Helper.checkArLocalRunning (example_outside gateway_up)
           (fresh_world production_env production_files)
           "/run/secrets/wallet.json" "addr:service" "jwk:intruder"
           "intruder" "addr:intruder").
  - vm_compute. reflexivity.
  - vm_compute. reflexivity.
  - discriminate.
  - vm_compute. reflexivity.
  - discriminate.
  - vm_compute. reflexivity.
  - reflexivity.
  - reflexivity.
  - discriminate.
Defined.

(** C2.  In production, when [SERVICE_WALLET_ADDRESS] or
    [ARWEAVE_WALLET_PATH] is absent (or empty), [initializeArweave] ends with
    the thrown configuration error, so no [ArweaveConfig] is returned.  The
    error thrown on an address mismatch is another one: the two have
    different messages. *)
Theorem production_requires_both_variables `{Platform}
    (probe : FetchOutside -> Z -> M bool) out w :
  Arweave.isProduction (env w !! "NODE_ENV") = true ->
  JS.truthy (env w !! "SERVICE_WALLET_ADDRESS") = false
  \/ JS.truthy (env w !! "ARWEAVE_WALLET_PATH") = false ->
  (exists w',
      Arweave.initializeArweave probe out w
      = (Throw Arweave.config_error, w'))
  /\ (forall out2 w2 path expected content jwk loaded,
      Arweave.isProduction (env w2 !! "NODE_ENV") = true ->
      env w2 !! "SERVICE_WALLET_ADDRESS" = Some expected -> expected <> "" ->
      env w2 !! "ARWEAVE_WALLET_PATH" = Some path -> path <> "" ->
      fs w2 !! path = Some content ->
      JSON_parse content = Some jwk ->
      jwkToAddress jwk = Some loaded ->
      loaded <> expected ->
      exists e w2',
        Arweave.initializeArweave probe out2 w2 = (Throw e, w2')
        /\ e <> Arweave.config_error
        /\ JS.message e <> JS.message Arweave.config_error).
Proof.
  intros P A. split.
  - exact (initializeArweave_unconfigured probe out w P A).
  - intros out2 w2 path expected content jwk loaded P2 Ee Ne Ep Np Ef Ej Ea Nm.
    destruct (initializeArweave_mismatch probe out2 w2 path expected content
                jwk loaded P2 Ee Ne Ep Np Ef Ej Ea Nm)
      as (w' & before & R & _).
    exists Arweave.load_error, w'. split; [exact R|].
    split; discriminate.
Qed.

Lemma production_requires_both_variables_witness :
  let w := fresh_world (<["NODE_ENV" := " production "]>
                          (<["ARWEAVE_WALLET_PATH" := "/run/w.json"]> ∅)) ∅ in
  exists w',
    @Arweave.initializeArweave example_platform Helper.checkArLocalRunning
      (example_outside gateway_up) w
    = (Throw Arweave.config_error, w').
Proof.
  intros w.
  apply (@production_requires_both_variables example_platform
           Helper.checkArLocalRunning (example_outside gateway_up) w).
  - vm_compute. reflexivity.
  - left. vm_compute. reflexivity.
Defined.

(** ** [initializeArweave] in development *)

Section Development.
Context `{Platform}.
Variable probe : FetchOutside -> Z -> M bool.
Variable says : FetchOutside -> bool.
Hypothesis probe_ok : probe_reports probe says.

Lemma initializeArweave_creates_wallet out w jwk addr :
  Arweave.isProduction (env w !! "NODE_ENV") = false ->
  fs w !! Arweave.devWalletPath = None ->
  Arweave.wallets_generate out = inl jwk ->
  jwkToAddress jwk = Some addr ->
  Arweave.writeFile_failure out = None ->
  exists cfg w',
    Arweave.initializeArweave probe out w = (Normal cfg, w')
    /\ Arweave.wallet cfg = jwk
    /\ fs w' = <[Arweave.devWalletPath := JSON_stringify jwk]> (fs w).
Proof.
  intros P Ef Eg Ea Ew.
  destruct (initializeArweave_development probe says out w probe_ok P)
    as (redis & w2 & E & F & R).
  rewrite R. cbv zeta. rewrite <- F in Ef.
  destruct (development_wallet_creates out
              (use DeployPlugin
                 (Arweave.with_cache redis
                    (if says (Arweave.of_fetch out)
                     then WarpFactory.forLocal 8080
                     else WarpFactory.forTestnet true)))
              w2 jwk addr Ef Eg Ea Ew) as (w3 & R3 & E3 & F3).
  rewrite (bind_normal _ _ _ _ _ R3).
  eexists _, _. split; [reflexivity|]. split; [reflexivity|].
  cbn. now rewrite F3, F.
Qed.

Lemma initializeArweave_loads_wallet out w content jwk addr :
  Arweave.isProduction (env w !! "NODE_ENV") = false ->
  fs w !! Arweave.devWalletPath = Some content ->
  JSON_parse content = Some jwk ->
  jwkToAddress jwk = Some addr ->
  exists cfg w',
    Arweave.initializeArweave probe out w = (Normal cfg, w')
    /\ Arweave.wallet cfg = jwk
    /\ fs w' = fs w.
Proof.
  intros P Ef Ej Ea.
  destruct (initializeArweave_development probe says out w probe_ok P)
    as (redis & w2 & E & F & R).
  rewrite R. cbv zeta. rewrite <- F in Ef.
  destruct (development_wallet_loads out
              (use DeployPlugin
                 (Arweave.with_cache redis
                    (if says (Arweave.of_fetch out)
                     then WarpFactory.forLocal 8080
                     else WarpFactory.forTestnet true)))
              w2 content jwk addr Ef Ej Ea) as (w3 & R3 & E3 & F3).
  rewrite (bind_normal _ _ _ _ _ R3).
  eexists _, _. split; [reflexivity|]. split; [reflexivity|].
  cbn. now rewrite F3, F.
Qed.


End Development.

(** C4.  Outside production, with no file at [./dev-wallet.json], a keypair
    generator that delivers, a keypair whose address can be derived and a
    disk that accepts the write: [initializeArweave] returns a configuration
    whose wallet is the generated keypair and has written the keypair to
    [./dev-wallet.json].  Provided [JSON.parse] reads back what
    [JSON.stringify] wrote, every later run outside production that finds
    the files as the first run left them, whatever else has changed and
    whatever the outside world answers, returns a configuration with that
    same keypair and leaves the files as they are (so the run after it finds
    them again). *)
Theorem development_wallet_round_trip `{Platform}
    (probe : FetchOutside -> Z -> M bool) says out w jwk addr :
  is_probe_of_helper probe says ->
  JSON_parse (JSON_stringify jwk) = Some jwk ->
  Arweave.isProduction (env w !! "NODE_ENV") = false ->
  fs w !! Arweave.devWalletPath = None ->
  Arweave.wallets_generate out = inl jwk ->
  jwkToAddress jwk = Some addr ->
  Arweave.writeFile_failure out = None ->
  exists cfg1 w1,
    Arweave.initializeArweave probe out w = (Normal cfg1, w1)
    /\ Arweave.wallet cfg1 = jwk
    /\ fs w1 = <[Arweave.devWalletPath := JSON_stringify jwk]> (fs w)
    /\ forall out2 w1',
         fs w1' = fs w1 ->
         Arweave.isProduction (env w1' !! "NODE_ENV") = false ->
         exists cfg2 w2,
           Arweave.initializeArweave probe out2 w1' = (Normal cfg2, w2)
           /\ Arweave.wallet cfg2 = Arweave.wallet cfg1
           /\ fs w2 = fs w1.
Proof.
  intros Hp Rt P Ef Eg Ea Ew.
  pose proof (probe_of_helper_reports probe says Hp) as Pr.
  destruct (initializeArweave_creates_wallet probe says Pr out w jwk addr
              P Ef Eg Ea Ew) as (cfg1 & w1 & R1 & W1 & F1).
  exists cfg1, w1. split; [exact R1|]. split; [exact W1|].
  split; [exact F1|].
  intros out2 w1' F P2.
  assert (L : fs w1' !! Arweave.devWalletPath = Some (JSON_stringify jwk)).
  { rewrite F, F1. apply lookup_insert_eq. }
  destruct (initializeArweave_loads_wallet probe says Pr out2 w1'
              (JSON_stringify jwk) jwk addr P2 L Rt Ea)
    as (cfg2 & w2 & R2 & W2 & F2).
  exists cfg2, w2. split; [exact R2|]. split; congruence.
Qed.

Lemma development_wallet_round_trip_witness :
  exists cfg1 w1,
    @Arweave.initializeArweave example_platform Helper.checkArLocalRunning
      (example_outside gateway_down) (fresh_world ∅ ∅)
    = (Normal cfg1, w1)
    /\ Arweave.wallet cfg1 = "generated"
    /\ fs w1 = <[Arweave.devWalletPath := "jwk:generated"]> ∅
    /\ forall out2 w1',
         fs w1' = fs w1 ->
         Arweave.isProduction (env w1' !! "NODE_ENV") = false ->
         exists cfg2 w2,
           @Arweave.initializeArweave example_platform
             Helper.checkArLocalRunning out2 w1'
           = (Normal cfg2, w2)
           /\ Arweave.wallet cfg2 = Arweave.wallet cfg1
           /\ fs w2 = fs w1.
Proof.
  apply (@development_wallet_round_trip example_platform
           Helper.checkArLocalRunning reachable
           (example_outside gateway_down) (fresh_world ∅ ∅)
           "generated" "addr:generated").
  - right. split; reflexivity.
  - reflexivity.
  - reflexivity.
  - reflexivity.
  - reflexivity.
  - reflexivity.
  - reflexivity.
Defined.

(** Two runs in a row on an empty disk: the second run, against a generator
    that would deliver another keypair, returns the keypair of the first. *)
Example second_run_reuses_wallet :
  let out1 := example_outside gateway_down in
  let out2 : @Arweave.Outside example_platform :=
    {| Arweave.of_redis := server_down; Arweave.of_fetch := gateway_up;
       Arweave.wallets_generate :=
         inl ("another" : @JWKInterface example_platform);
       Arweave.writeFile_failure := None |} in
  let run := @Arweave.initializeArweave example_platform
               Helper.checkArLocalRunning in
  let '(c1, w1) := run out1 (fresh_world ∅ ∅) in
  let '(c2, w2) := run out2 w1 in
  (exists cfg1 cfg2,
      c1 = Normal cfg1 /\ c2 = Normal cfg2
      /\ Arweave.wallet cfg1 = "generated"
      /\ Arweave.wallet cfg2 = "generated"
      /\ network (Arweave.warp cfg1) = Testnet true
      /\ network (Arweave.warp cfg2) = Local 8080)
  /\ fs w1 !! "./dev-wallet.json" = Some "jwk:generated"
  /\ fs w2 !! "./dev-wallet.json" = Some "jwk:generated".
Proof.
  vm_compute. split; [|split; reflexivity].
  eexists _, _. repeat split; reflexivity.
Qed.



(** A gateway that answers after a minute, one that refuses the connection
    and one that answers at once. *)
Example fallback_to_testnet :
  let run f :=
    fst (@Arweave.initializeArweave example_platform
           Helper.checkArLocalRunning (example_outside f)
           (fresh_world ∅ ∅)) in
  (exists cfg, run gateway_silent = Normal cfg
               /\ network (Arweave.warp cfg) = Testnet true)
  /\ (exists cfg, run gateway_down = Normal cfg
                  /\ network (Arweave.warp cfg) = Testnet true)
  /\ (exists cfg, run gateway_up = Normal cfg
                  /\ network (Arweave.warp cfg) = Local 8080).
Proof.
  vm_compute. repeat split; eexists; split; reflexivity.
Qed.

(** A process that polls a server which goes away between two calls. *)
Lemma snapshots_have_three_shapes_witness :
  let calls := [(0%Z, server_up); (40000%Z, server_down)] in
  Forall returns_well_shaped
    (fst (poll HelperOld.checkRedisConnectivity calls
            (fresh_world cache_env ∅)))
  /\ Forall returns_well_shaped
       (fst (poll Helper.checkRedisConnectivity calls
               (fresh_world cache_env ∅))).
Proof.
  intros calls.
  apply (proj1 (proj2 (proj2 snapshots_have_three_shapes))).
  reflexivity.
Defined.

(** ** The deployment mode *)

Example production_flag :
  Arweave.isProduction (Some "production") = true
  /\ Arweave.isProduction (Some (JS.bytes [32; 9] +:+ "production"
                                 +:+ JS.bytes [194; 160; 10])) = true
  /\ Arweave.isProduction (Some "Production") = false
  /\ Arweave.isProduction (Some "pro duction") = false
  /\ Arweave.isProduction (Some "") = false
  /\ Arweave.isProduction None = false.
Proof. vm_compute. repeat split; reflexivity. Qed.

(** * Further properties *)

(** ** Strings *)

Lemma prefix_append (p rest : string) : String.prefix p (p +:+ rest) = true.
Proof.
  induction p as [|c p IH]; [destruct rest; reflexivity|].
  change (String c p +:+ rest) with (String c (p +:+ rest)).
  change (String.prefix (String c p) (String c (p +:+ rest)))
    with (if ascii_dec c c then String.prefix p (p +:+ rest) else false).
  destruct (ascii_dec c c); [exact IH|congruence].
Qed.

Lemma includes_prefix (hay needle : string) :
  String.prefix needle hay = true -> JS.includes hay needle = true.
Proof. intros E. destruct hay; cbn [JS.includes]; now rewrite E. Qed.

Lemma includes_append (before needle after : string) :
  JS.includes (before +:+ needle +:+ after) needle = true.
Proof.
  induction before as [|c before IH].
  - change ("" +:+ needle +:+ after) with (needle +:+ after).
    apply includes_prefix. apply prefix_append.
  - change (String c before +:+ needle +:+ after)
      with (String c (before +:+ needle +:+ after)).
    cbn [JS.includes]. rewrite IH. apply orb_true_r.
Qed.

Lemma append_assoc (a b c : string) : (a +:+ b) +:+ c = a +:+ b +:+ c.
Proof.
  induction a as [|x a IH]; [reflexivity|].
  change (String x ((a +:+ b) +:+ c) = String x (a +:+ b +:+ c)).
  now rewrite IH.
Qed.

(** ** [validateWalletAddress] *)

Section ValidateWallet.
Context `{Platform}.

(** X1.  [validateWalletAddress] completes normally exactly when the address
    derived from the keypair is the expected one; it then returns that
    address and leaves the state of the process as it was (nothing is
    written to the console). *)
Theorem validateWalletAddress_accepts_only_expected
    wallet expected source warp w :
  (forall a w',
      Helper.validateWalletAddress wallet expected source warp w
      = (Normal a, w') ->
      jwkToAddress wallet = Some expected /\ a = expected /\ w' = w)
  /\ (jwkToAddress wallet = Some expected ->
      Helper.validateWalletAddress wallet expected source warp w
      = (Normal expected, w))
  /\ HelperOld.validateWalletAddress wallet expected source warp w
     = Helper.validateWalletAddress wallet expected source warp w.
Proof.
  split; [|split; [|reflexivity]].
  - intros a w'. unfold Helper.validateWalletAddress. unfold_M.
    destruct (jwkToAddress wallet) as [loaded|]; [|discriminate].
    destruct (String.eqb loaded expected) eqn:E; cbn; [|discriminate].
    apply String.eqb_eq in E. subst loaded.
    intros [= <- <-]. auto.
  - intros E. unfold Helper.validateWalletAddress. unfold_M.
    rewrite E, String.eqb_refl. reflexivity.
Qed.

(** X2.  On a mismatch [validateWalletAddress] throws an error whose message
    contains the expected address and the derived address, after writing
    four lines at the error level, the last three of which give the expected
    address, the derived address and the source; nothing else changes. *)
Theorem validateWalletAddress_reports_mismatch
    wallet expected loaded source warp w :
  jwkToAddress wallet = Some loaded ->
  loaded <> expected ->
  exists e,
    Helper.validateWalletAddress wallet expected source warp w
    = (Throw e,
       set_console (console w ++ mismatch_lines expected loaded source) w)
    /\ JS.includes (JS.message e) expected = true
    /\ JS.includes (JS.message e) loaded = true.
Proof.
  intros E N. apply String.eqb_neq in N.
  unfold Helper.validateWalletAddress. unfold_M.
  rewrite E, N. cbn.
  eexists. split.
  - unfold mismatch_lines. rewrite <- !List.app_assoc. reflexivity.
  - cbn [JS.message]. split.
    + apply includes_append.
    + rewrite <- (append_assoc expected), <- append_assoc.
      apply includes_append.
Qed.

End ValidateWallet.

Lemma validateWalletAddress_reports_mismatch_witness :
  exists e,
    @Helper.validateWalletAddress example_platform "intruder" "addr:service"
      "/run/secrets/wallet.json" (WarpFactory.forMainnet true)
      (fresh_world ∅ ∅)
    = (Throw e,
       set_console
         (console (fresh_world ∅ ∅)
          ++ mismatch_lines "addr:service" "addr:intruder"
               "/run/secrets/wallet.json")
         (fresh_world ∅ ∅))
    /\ JS.includes (JS.message e) "addr:service" = true
    /\ JS.includes (JS.message e) "addr:intruder" = true.
Proof.
  apply (@validateWalletAddress_reports_mismatch example_platform
           "intruder" "addr:service" "addr:intruder").
  - reflexivity.
  - discriminate.
Defined.

(** ** [initializeRedis], both texts *)

Lemma initializeRedis_spec out w :
  exists w',
    RedisConfig.initializeRedis out w = (Normal (expected_client w out), w')
    /\ env w' = env w /\ fs w' = fs w
    /\ healthCheckCache w' = healthCheckCache w
    /\ net w' = net w ++ connect_and_ping (expected_client w out).
Proof.
  unfold expected_client, connect_and_ping.
  unfold RedisConfig.initializeRedis, RedisConfig.on_failure, new_Redis, ping.
  unfold_M.
  destruct (JS.truthy (env w !! "REDIS_URL")); cbn.
  - destruct (redis_ctor out); cbn.
    + eexists. repeat split. cbn. now rewrite List.app_nil_r.
    + destruct (redis_ping out); cbn; eexists;
        (repeat split; try reflexivity); cbn;
        now rewrite <- List.app_assoc.
  - eexists. repeat split. cbn. now rewrite List.app_nil_r.
Qed.

(** X3.  [initializeRedis] of [config/redis.ts] always completes normally.
    It returns a client exactly when [REDIS_URL] is set and the constructor
    does not throw; the client is bound to that URL with a connect timeout
    of 10000 ms, a command timeout of 5000 ms, 2 retries per request and
    auto-pipelining; one connection has been opened and pinged once and is
    not closed.  Otherwise it returns [undefined] and there was no network
    activity.  The environment, the files and the health-check cache are as
    before. *)
Theorem initializeRedis_connects_once out w :
  exists w',
    RedisConfig.initializeRedis out w = (Normal (expected_client w out), w')
    /\ env w' = env w /\ fs w' = fs w
    /\ healthCheckCache w' = healthCheckCache w
    /\ net w' = net w ++ connect_and_ping (expected_client w out)
    /\ leaked (connect_and_ping (expected_client w out))
       = match expected_client w out with
         | Some r => [conn_id r]
         | None => []
         end
    /\ forall r,
         expected_client w out = Some r ->
         env w !! "REDIS_URL" = Some (conn_url r)
         /\ conn_url r <> ""
         /\ conn_options r
            = Some {| connectTimeout := 10000; commandTimeout := 5000;
                      lazyConnect := false; maxRetriesPerRequest := 2;
                      enableAutoPipelining := true |}.
Proof.
  destruct (initializeRedis_spec out w) as (w' & R & E & F & C & N).
  exists w'. repeat (split; [assumption|]). split.
  - destruct (expected_client w out); reflexivity.
  - unfold expected_client. intros r.
    destruct (JS.truthy (env w !! "REDIS_URL")) eqn:T; [|discriminate].
    destruct (redis_ctor out); [discriminate|].
    intros [= <-]. cbn.
    destruct (truthy_Some _ T) as (u & -> & Nu). auto.
Qed.

(** X4.  [initializeRedis] of the earlier [helper.ts] always completes
    normally and returns a client exactly when [REDIS_URL] is set, the
    constructor does not throw and the first ping is answered.  When the
    ping is refused it returns [undefined], yet the connection that the
    constructor opened has been pinged and is not closed. *)
Theorem old_initializeRedis_drops_client out w :
  exists w',
    HelperOld.initializeRedis out w
    = (Normal (match redis_ping out with
               | Pong => expected_client w out
               | PingRejected _ => None
               end), w')
    /\ net w' = net w ++ connect_and_ping (expected_client w out)
    /\ leaked (connect_and_ping (expected_client w out))
       = match expected_client w out with
         | Some r => [conn_id r]
         | None => []
         end.
Proof.
  unfold expected_client, connect_and_ping.
  unfold HelperOld.initializeRedis, new_Redis, ping.
  unfold_M.
  destruct (JS.truthy (env w !! "REDIS_URL")); cbn.
  - destruct (redis_ctor out); cbn.
    + destruct (redis_ping out); eexists; repeat split;
        cbn; now rewrite List.app_nil_r.
    + destruct (redis_ping out); cbn; eexists;
        (repeat split; try reflexivity); cbn;
        now rewrite <- List.app_assoc.
  - destruct (redis_ping out); eexists; repeat split;
      cbn; now rewrite List.app_nil_r.
Qed.

(** ** [checkArLocalRunning], both texts *)

Lemma old_checkArLocalRunning_requests :
  probe_requests HelperOld.checkArLocalRunning reachable_old.
Proof.
  intros out port w.
  unfold HelperOld.checkArLocalRunning, fetch, reachable_old. unfold_M.
  destruct (fetch_info out); cbn; eexists; repeat split.
Qed.

Lemma checkArLocalRunning_requests :
  probe_requests Helper.checkArLocalRunning reachable.
Proof.
  intros out port w.
  unfold Helper.checkArLocalRunning, fetch, reachable, reachable_old.
  unfold_M.
  destruct (1000 <=? fetch_elapsed out)%Z; cbn; [eexists; repeat split|].
  destruct (fetch_info out); cbn; eexists; repeat split.
Qed.

Lemma probe_of_helper_requests probe says :
  is_probe_of_helper probe says -> probe_requests probe says.
Proof.
  intros [[-> ->] | [-> ->]].
  - apply old_checkArLocalRunning_requests.
  - apply checkArLocalRunning_requests.
Qed.

(** X5.  The later [checkArLocalRunning] at port 8080, the default of its
    parameter and the port that [initializeArweave] passes, never takes
    longer than its 1000 ms timer: whatever the gateway does, it completes
    normally, has sent one GET request to [http://localhost:8080/info], and
    the clock has advanced by the time the request took when that is below
    1000 ms and by 1000 ms otherwise.  It reports reachable only for an ok
    response that arrived before the timer fired. *)
Theorem checkArLocalRunning_bounded out w :
  exists w',
    Helper.checkArLocalRunning out 8080 w = (Normal (reachable out), w')
    /\ net w' = net w ++ [HttpGet "http://localhost:8080/info"]
    /\ clock w'
       = (clock w + (if (1000 <=? fetch_elapsed out)%Z then 1000
                     else fetch_elapsed out))%Z
    /\ (clock w' <= clock w + 1000)%Z
    /\ (reachable out = true ->
        fetch_info out = Response true /\ (fetch_elapsed out < 1000)%Z).
Proof.
  unfold Helper.checkArLocalRunning, fetch, reachable, reachable_old.
  unfold_M.
  destruct (1000 <=? fetch_elapsed out)%Z eqn:T; cbn.
  - eexists. repeat split; try reflexivity; cbn; try lia; try discriminate.
  - apply Z.leb_gt in T.
    destruct (fetch_info out) as [[|]|]; cbn; eexists;
      repeat split; try reflexivity; cbn; try lia; try discriminate.
Qed.

(** ** [initializeArweave], step by step *)

Section Runs.
Context `{Platform}.
Variable probe : FetchOutside -> Z -> M bool.
Variable says : FetchOutside -> bool.

Lemma http_gets_app (a b : list NetEvent) :
  http_gets (a ++ b) = http_gets a ++ http_gets b.
Proof. apply List.filter_app. Qed.

Lemma http_gets_connect_and_ping client :
  http_gets (connect_and_ping client) = [].
Proof. destruct client; reflexivity. Qed.

Lemma finish_runs isProduction warp redis (m : M JWKInterface) w :
  (let* wallet := m in finish isProduction warp redis wallet) w
  = match m w with
    | (Normal wallet, w1) =>
        (Normal {| Arweave.warp := warp; Arweave.wallet := wallet;
                   Arweave.redis := redis |},
         set_console (console w1 ++ [configured_line isProduction]) w1)
    | (Throw e, w1) => (Throw e, w1)
    end.
Proof. unfold bind. destruct (m w) as [[wallet|e] w1]; reflexivity. Qed.

Lemma production_run out w :
  Arweave.isProduction (env w !! "NODE_ENV") = true ->
  exists w2,
    env w2 = env w /\ fs w2 = fs w
    /\ http_gets (net w2) = http_gets (net w)
    /\ Arweave.initializeArweave probe out w
       = (let warp :=
            use DeployPlugin
              (Arweave.with_cache
                 (expected_client w (Arweave.of_redis out))
                 (WarpFactory.forMainnet true)) in
          let* wallet := Arweave.production_wallet warp in
          finish true warp (expected_client w (Arweave.of_redis out))
            wallet) w2.
Proof.
  intros P.
  destruct (initializeRedis_spec (Arweave.of_redis out) w)
    as (w1 & R1 & E1 & F1 & _ & N1).
  eexists (set_console _ w1).
  split; [exact E1|]. split; [exact F1|]. split.
  - cbn. rewrite N1, http_gets_app, http_gets_connect_and_ping.
    apply List.app_nil_r.
  - unfold Arweave.initializeArweave.
    unfold process_env at 1. unfold bind at 1. rewrite P.
    rewrite (bind_normal _ _ _ _ _ R1).
    reflexivity.
Qed.

Lemma select_warp_requests out redis w :
  probe_requests probe says ->
  exists w',
    Arweave.select_warp probe out false redis w
    = (Normal
         (Arweave.with_cache redis
            (if says (Arweave.of_fetch out)
             then WarpFactory.forLocal 8080
             else WarpFactory.forTestnet true)), w')
    /\ env w' = env w /\ fs w' = fs w
    /\ net w' = net w ++ [HttpGet "http://localhost:8080/info"].
Proof.
  intros Hp.
  destruct (Hp (Arweave.of_fetch out) Arweave.ARLOCAL_PORT w)
    as (w1 & R & E & F & _ & _ & N).
  unfold Arweave.select_warp.
  rewrite (bind_normal _ _ _ _ _ R).
  destruct (says (Arweave.of_fetch out));
    eexists; (split; [reflexivity|]);
    (split; [exact E|]); (split; [exact F|]); exact N.
Qed.

Lemma development_run out w :
  probe_requests probe says ->
  Arweave.isProduction (env w !! "NODE_ENV") = false ->
  exists w2,
    env w2 = env w /\ fs w2 = fs w
    /\ http_gets (net w2)
       = http_gets (net w) ++ [HttpGet "http://localhost:8080/info"]
    /\ Arweave.initializeArweave probe out w
       = (let warp :=
            use DeployPlugin
              (Arweave.with_cache
                 (expected_client w (Arweave.of_redis out))
                 (if says (Arweave.of_fetch out)
                  then WarpFactory.forLocal 8080
                  else WarpFactory.forTestnet true)) in
          let* wallet := Arweave.development_wallet out warp in
          finish false warp (expected_client w (Arweave.of_redis out))
            wallet) w2.
Proof.
  intros Hp P.
  destruct (initializeRedis_spec (Arweave.of_redis out) w)
    as (w1 & R1 & E1 & F1 & _ & N1).
  destruct (select_warp_requests out
              (expected_client w (Arweave.of_redis out)) w1 Hp)
    as (w2 & R2 & E2 & F2 & N2).
  exists w2.
  split; [congruence|]. split; [congruence|]. split.
  - rewrite N2, N1, !http_gets_app, http_gets_connect_and_ping.
    rewrite List.app_nil_r. reflexivity.
  - unfold Arweave.initializeArweave.
    unfold process_env at 1. unfold bind at 1. rewrite P.
    rewrite (bind_normal _ _ _ _ _ R1).
    rewrite (bind_normal _ _ _ _ _ R2).
    reflexivity.
Qed.

End Runs.

(** ** [initializeArweave]: every way out of the wallet step *)

Section WalletCases.
Context `{Platform}.

Lemma production_wallet_cases warp w c w' :
  Arweave.production_wallet warp w = (c, w') ->
  env w' = env w /\ fs w' = fs w /\ net w' = net w
  /\ match c with
     | Normal jwk =>
         exists path expected content,
           env w !! "ARWEAVE_WALLET_PATH" = Some path
           /\ env w !! "SERVICE_WALLET_ADDRESS" = Some expected
           /\ fs w !! path = Some content
           /\ JSON_parse content = Some jwk
           /\ jwkToAddress jwk = Some expected
     | Throw e =>
         if (JS.truthy (env w !! "SERVICE_WALLET_ADDRESS")
             && JS.truthy (env w !! "ARWEAVE_WALLET_PATH"))%bool
         then e = Arweave.load_error
         else e = Arweave.config_error
     end.
Proof.
  unfold Arweave.production_wallet, Helper.validateWalletAddress,
    Arweave.JSON_parse_or_throw, readFile.
  unfold_M.
  destruct (JS.truthy (env w !! "SERVICE_WALLET_ADDRESS")
            && JS.truthy (env w !! "ARWEAVE_WALLET_PATH"))%bool eqn:T;
    [|intros [= <- <-]; auto].
  apply andb_true_iff in T. destruct T as [Te Tp].
  destruct (truthy_Some _ Te) as (expected & Ee & _).
  destruct (truthy_Some _ Tp) as (path & Ep & _).
  rewrite Ee, Ep. cbn [default from_option id].
  destruct (fs w !! path) as [content|] eqn:Ef; cbn;
    [|intros [= <- <-]; auto].
  destruct (JSON_parse content) as [jwk|] eqn:Ej; cbn;
    [|intros [= <- <-]; auto].
  destruct (jwkToAddress jwk) as [loaded|] eqn:Ea; cbn;
    [|intros [= <- <-]; auto].
  destruct (String.eqb loaded expected) eqn:Em; cbn;
    [|intros [= <- <-]; auto].
  apply String.eqb_eq in Em. subst loaded.
  intros [= <- <-]. cbn. repeat split. eauto 10.
Qed.

Lemma development_wallet_cases out warp w c w' :
  Arweave.development_wallet out warp w = (c, w') ->
  env w' = env w /\ net w' = net w
  /\ match c with
     | Normal jwk =>
         (fs w' = fs w
          /\ exists content,
               fs w !! Arweave.devWalletPath = Some content
               /\ JSON_parse content = Some jwk
               /\ is_Some (jwkToAddress jwk))
         \/ (fs w' = <[Arweave.devWalletPath := JSON_stringify jwk]> (fs w)
             /\ Arweave.wallets_generate out = inl jwk
             /\ is_Some (jwkToAddress jwk)
             /\ Arweave.writeFile_failure out = None)
     | Throw e => fs w' = fs w
     end.
Proof.
  unfold Arweave.development_wallet, Arweave.wallets_jwkToAddress,
    Arweave.JSON_parse_or_throw, readFile, writeFile.
  unfold_M.
  destruct (fs w !! Arweave.devWalletPath) as [content|] eqn:Ef; cbn.
  - destruct (JSON_parse content) as [jwk|] eqn:Ej; cbn.
    + destruct (jwkToAddress jwk) as [addr|] eqn:Ea; cbn.
      * intros [= <- <-]. cbn. repeat split. left. split; [reflexivity|].
        exists content. rewrite Ea. eauto.
      * destruct (Arweave.wallets_generate out) as [jwk'|e'] eqn:Eg; cbn;
          [|intros [= <- <-]; auto].
        destruct (jwkToAddress jwk') as [addr|] eqn:Ea'; cbn;
          [|intros [= <- <-]; auto].
        destruct (Arweave.writeFile_failure out) eqn:Ew; cbn;
          intros [= <- <-]; cbn; auto.
        repeat split. right. rewrite Ea'. eauto.
    + destruct (Arweave.wallets_generate out) as [jwk'|e'] eqn:Eg; cbn;
        [|intros [= <- <-]; auto].
      destruct (jwkToAddress jwk') as [addr|] eqn:Ea'; cbn;
        [|intros [= <- <-]; auto].
      destruct (Arweave.writeFile_failure out) eqn:Ew; cbn;
        intros [= <- <-]; cbn; auto.
      repeat split. right. rewrite Ea'. eauto.
  - destruct (Arweave.wallets_generate out) as [jwk'|e'] eqn:Eg; cbn;
      [|intros [= <- <-]; auto].
    destruct (jwkToAddress jwk') as [addr|] eqn:Ea'; cbn;
      [|intros [= <- <-]; auto].
    destruct (Arweave.writeFile_failure out) eqn:Ew; cbn;
      intros [= <- <-]; cbn; auto.
    repeat split. right. rewrite Ea'. eauto.
Qed.

End WalletCases.

(** ** [initializeArweave]: what a run guarantees *)

(** X6.  In production, a configuration is returned only for a validated
    identity: when [initializeArweave] completes normally, both variables
    are set, the file at [ARWEAVE_WALLET_PATH] exists and parses to the
    returned wallet, the address derived from that wallet is
    [SERVICE_WALLET_ADDRESS], and the network is the main network. *)
Theorem production_returns_validated_wallet `{Platform}
    (probe : FetchOutside -> Z -> M bool) out w cfg w' :
  Arweave.isProduction (env w !! "NODE_ENV") = true ->
  Arweave.initializeArweave probe out w = (Normal cfg, w') ->
  (exists path expected content,
      env w !! "ARWEAVE_WALLET_PATH" = Some path
      /\ env w !! "SERVICE_WALLET_ADDRESS" = Some expected
      /\ fs w !! path = Some content
      /\ JSON_parse content = Some (Arweave.wallet cfg)
      /\ jwkToAddress (Arweave.wallet cfg) = Some expected)
  /\ network (Arweave.warp cfg) = Mainnet true.
Proof.
  intros P R.
  destruct (production_run probe out w P) as (w2 & E & F & _ & Run).
  rewrite Run in R. cbv zeta in R. rewrite finish_runs in R.
  destruct (Arweave.production_wallet _ w2) as [[jwk|e] w3] eqn:Rw;
    [|discriminate].
  injection R as <- <-.
  destruct (production_wallet_cases _ _ _ _ Rw) as (_ & _ & _ & C).
  rewrite E, F in C. split; [exact C|].
  cbn. destruct (expected_client w (Arweave.of_redis out)); reflexivity.
Qed.

Lemma production_returns_validated_wallet_witness :
  let w := fresh_world production_env trusted_files in
  let run := @Arweave.initializeArweave example_platform
               Helper.checkArLocalRunning (example_outside gateway_up) w in
  exists cfg,
    fst run = Normal cfg
    /\ (exists path expected content,
          env w !! "ARWEAVE_WALLET_PATH" = Some path
          /\ env w !! "SERVICE_WALLET_ADDRESS" = Some expected
          /\ fs w !! path = Some content
          /\ @JSON_parse example_platform content = Some (Arweave.wallet cfg)
          /\ @jwkToAddress example_platform (Arweave.wallet cfg)
             = Some expected)
    /\ network (Arweave.warp cfg) = Mainnet true.
Proof.
  intros w run.
  destruct run as [c w'] eqn:R.
  destruct c as [cfg|e]; [|vm_compute in R; discriminate R].
  exists cfg. split; [reflexivity|].
  apply (@production_returns_validated_wallet example_platform
           Helper.checkArLocalRunning (example_outside gateway_up) w cfg w').
  - vm_compute. reflexivity.
  - exact R.
Defined.

(** X7.  In production, with both variables set, a file at the configured
    path that parses to a keypair and a keypair that derives the expected
    address, [initializeArweave] completes normally: the wallet is that
    keypair, the network is the main network, the deploy plugin is the only
    plugin, the client attached to the key-value storage of [warp] is the
    client returned as [redis], and no file has changed. *)
Theorem production_accepts_matching_wallet `{Platform}
    (probe : FetchOutside -> Z -> M bool) out w path expected content jwk :
  Arweave.isProduction (env w !! "NODE_ENV") = true ->
  env w !! "SERVICE_WALLET_ADDRESS" = Some expected -> expected <> "" ->
  env w !! "ARWEAVE_WALLET_PATH" = Some path -> path <> "" ->
  fs w !! path = Some content ->
  JSON_parse content = Some jwk ->
  jwkToAddress jwk = Some expected ->
  exists cfg w',
    Arweave.initializeArweave probe out w = (Normal cfg, w')
    /\ Arweave.wallet cfg = jwk
    /\ network (Arweave.warp cfg) = Mainnet true
    /\ plugins (Arweave.warp cfg) = [DeployPlugin]
    /\ kvStorageClient (Arweave.warp cfg) = Arweave.redis cfg
    /\ Arweave.redis cfg = expected_client w (Arweave.of_redis out)
    /\ fs w' = fs w.
Proof.
  intros P Ee Ne Ep Np Ef Ej Ea.
  destruct (production_run probe out w P) as (w2 & E & F & _ & Run).
  rewrite Run. cbv zeta. rewrite finish_runs.
  assert (Rw : forall warp,
             Arweave.production_wallet warp w2
             = (Normal jwk,
                set_console
                  (console w2
                   ++ [mkLine LOG "Production wallet loaded successfully";
                       mkLine LOG ("Wallet Source: " +:+ path);
                       mkLine LOG ("Wallet Address: " +:+ expected);
                       mkLine LOG "Wallet validation passed."]) w2)).
  { intros warp. apply String.eqb_neq in Ne, Np.
    unfold Arweave.production_wallet, Helper.validateWalletAddress,
      Arweave.JSON_parse_or_throw, readFile.
    unfold_M. rewrite E, Ee, Ep.
    cbn [JS.truthy default from_option id andb negb].
    rewrite Ne, Np. cbn [negb andb set_console fs].
    rewrite F, Ef, Ej, Ea, String.eqb_refl. cbn.
    rewrite <- !List.app_assoc. reflexivity. }
  rewrite Rw. eexists _, _. split; [reflexivity|]. cbn.
  repeat split; try (rewrite F; reflexivity);
    destruct (expected_client w (Arweave.of_redis out)); reflexivity.
Qed.

Lemma production_accepts_matching_wallet_witness :
  let w := fresh_world production_env trusted_files in
  exists cfg w',
    @Arweave.initializeArweave example_platform Helper.checkArLocalRunning
      (example_outside gateway_down) w
    = (Normal cfg, w')
    /\ Arweave.wallet cfg = "service"
    /\ network (Arweave.warp cfg) = Mainnet true
    /\ plugins (Arweave.warp cfg) = [DeployPlugin]
    /\ kvStorageClient (Arweave.warp cfg) = Arweave.redis cfg
    /\ Arweave.redis cfg = expected_client w server_up
    /\ fs w' = fs w.
Proof.
  intros w.
  apply (@production_accepts_matching_wallet example_platform
           Helper.checkArLocalRunning (example_outside gateway_down) w
           "/run/secrets/wallet.json" "addr:service" "jwk:service"
           "service").
  - vm_compute. reflexivity.
  - vm_compute. reflexivity.
  - discriminate.
  - vm_compute. reflexivity.
  - discriminate.
  - vm_compute. reflexivity.
  - reflexivity.
  - reflexivity.
Defined.

(** X8.  In production every failure of [initializeArweave] is one of two
    errors, and the variables alone decide which: the configuration error
    when [SERVICE_WALLET_ADDRESS] or [ARWEAVE_WALLET_PATH] is absent or
    empty, the wallet-load error otherwise, whether the file is missing, is
    not JSON, has no derivable address or derives another address. *)
Theorem production_fails_with_one_of_two_errors `{Platform}
    (probe : FetchOutside -> Z -> M bool) out w e w' :
  Arweave.isProduction (env w !! "NODE_ENV") = true ->
  Arweave.initializeArweave probe out w = (Throw e, w') ->
  e = if (JS.truthy (env w !! "SERVICE_WALLET_ADDRESS")
          && JS.truthy (env w !! "ARWEAVE_WALLET_PATH"))%bool
      then Arweave.load_error
      else Arweave.config_error.
Proof.
  intros P R.
  destruct (production_run probe out w P) as (w2 & E & F & _ & Run).
  rewrite Run in R. cbv zeta in R. rewrite finish_runs in R.
  destruct (Arweave.production_wallet _ w2) as [[jwk|e0] w3] eqn:Rw;
    [discriminate|].
  injection R as <- <-.
  destruct (production_wallet_cases _ _ _ _ Rw) as (_ & _ & _ & C).
  rewrite E in C.
  destruct (JS.truthy (env w !! "SERVICE_WALLET_ADDRESS")
            && JS.truthy (env w !! "ARWEAVE_WALLET_PATH"))%bool; exact C.
Qed.

Lemma production_fails_with_one_of_two_errors_witness :
  let w := fresh_world production_env ∅ in
  let run := @Arweave.initializeArweave example_platform
               Helper.checkArLocalRunning (example_outside gateway_up) w in
  exists e,
    fst run = Throw e
    /\ e = if (JS.truthy (env w !! "SERVICE_WALLET_ADDRESS")
               && JS.truthy (env w !! "ARWEAVE_WALLET_PATH"))%bool
           then Arweave.load_error
           else Arweave.config_error.
Proof.
  intros w run.
  destruct run as [c w'] eqn:R.
  destruct c as [cfg|e]; [vm_compute in R; discriminate R|].
  exists e. split; [reflexivity|].
  apply (@production_fails_with_one_of_two_errors example_platform
           Helper.checkArLocalRunning (example_outside gateway_up) w e w').
  - vm_compute. reflexivity.
  - exact R.
Defined.

(** X9.  In production, whatever the outcome, [initializeArweave] leaves the
    environment and the files as they were and sends no HTTP request: the
    local gateway is not probed and no wallet is ever written. *)
Theorem production_writes_nothing `{Platform}
    (probe : FetchOutside -> Z -> M bool) out w c w' :
  Arweave.isProduction (env w !! "NODE_ENV") = true ->
  Arweave.initializeArweave probe out w = (c, w') ->
  env w' = env w /\ fs w' = fs w /\ http_gets (net w') = http_gets (net w).
Proof.
  intros P R.
  destruct (production_run probe out w P) as (w2 & E & F & G & Run).
  rewrite Run in R. cbv zeta in R. rewrite finish_runs in R.
  destruct (Arweave.production_wallet _ w2) as [[jwk|e] w3] eqn:Rw;
    destruct (production_wallet_cases _ _ _ _ Rw) as (E3 & F3 & N3 & _);
    injection R as <- <-; cbn; rewrite ?E3, ?F3, ?N3; auto.
Qed.

Lemma production_writes_nothing_witness :
  let w := fresh_world production_env production_files in
  let run := @Arweave.initializeArweave example_platform
               Helper.checkArLocalRunning (example_outside gateway_up) w in
  env (snd run) = env w /\ fs (snd run) = fs w
  /\ http_gets (net (snd run)) = http_gets (net w).
Proof.
  intros w run.
  apply (@production_writes_nothing example_platform
           Helper.checkArLocalRunning (example_outside gateway_up) w
           (fst run) (snd run)).
  - vm_compute. reflexivity.
  - apply surjective_pairing.
Defined.

(** X10.  Outside production, with either text of [checkArLocalRunning]
    and whatever the outcome, [initializeArweave] sends exactly one HTTP
    request, a GET of [http://localhost:8080/info], and leaves the
    environment as it was.  When it throws no file has changed.  When it
    returns a configuration, either no file has changed and the wallet is
    what [./dev-wallet.json] parses to, or the wallet is the generated
    keypair and the only change to the files is that [./dev-wallet.json] now
    holds its serialisation. *)
Theorem development_wallet_provenance `{Platform}
    (probe : FetchOutside -> Z -> M bool) says out w c w' :
  is_probe_of_helper probe says ->
  Arweave.isProduction (env w !! "NODE_ENV") = false ->
  Arweave.initializeArweave probe out w = (c, w') ->
  env w' = env w
  /\ http_gets (net w')
     = http_gets (net w) ++ [HttpGet "http://localhost:8080/info"]
  /\ match c with
     | Normal cfg =>
         (fs w' = fs w
          /\ exists content,
               fs w !! "./dev-wallet.json" = Some content
               /\ JSON_parse content = Some (Arweave.wallet cfg))
         \/ (fs w'
             = <["./dev-wallet.json" := JSON_stringify (Arweave.wallet cfg)]>
                 (fs w)
             /\ Arweave.wallets_generate out = inl (Arweave.wallet cfg))
     | Throw _ => fs w' = fs w
     end.
Proof.
  intros Hp P R.
  destruct (development_run probe says out w
              (probe_of_helper_requests probe says Hp) P)
    as (w2 & E & F & G & Run).
  rewrite Run in R. cbv zeta in R. rewrite finish_runs in R.
  destruct (Arweave.development_wallet out _ w2) as [[jwk|e] w3] eqn:Rw;
    destruct (development_wallet_cases _ _ _ _ _ Rw) as (E3 & N3 & C);
    injection R as <- <-; cbn; rewrite ?E3, ?N3;
    (split; [exact E|]); (split; [exact G|]).
  - rewrite F in C.
    destruct C as [(F3 & content & L & Pj & _) | (F3 & Eg & _ & _)].
    + left. split; [exact F3|]. exists content. auto.
    + right. auto.
  - now rewrite C.
Qed.

Lemma development_wallet_provenance_witness :
  let w := fresh_world ∅ ∅ in
  let out := example_outside gateway_down in
  let run := @Arweave.initializeArweave example_platform
               HelperOld.checkArLocalRunning out w in
  env (snd run) = env w
  /\ http_gets (net (snd run))
     = http_gets (net w) ++ [HttpGet "http://localhost:8080/info"]
  /\ match fst run with
     | Normal cfg =>
         (fs (snd run) = fs w
          /\ exists content,
               fs w !! "./dev-wallet.json" = Some content
               /\ @JSON_parse example_platform content
                  = Some (Arweave.wallet cfg))
         \/ (fs (snd run)
             = <["./dev-wallet.json" :=
                   @JSON_stringify example_platform (Arweave.wallet cfg)]>
                 (fs w)
             /\ Arweave.wallets_generate out = inl (Arweave.wallet cfg))
     | Throw _ => fs (snd run) = fs w
     end.
Proof.
  intros w out run.
  apply (@development_wallet_provenance example_platform
           HelperOld.checkArLocalRunning reachable_old out w
           (fst run) (snd run)).
  - left. split; reflexivity.
  - reflexivity.
  - apply surjective_pairing.
Defined.

(** X11.  In every mode, with either text of [checkArLocalRunning], a
    configuration that [initializeArweave] returns has the deploy plugin as
    its only plugin, its [redis] is what [initializeRedis] returned (a
    client when [REDIS_URL] is set and the constructor did not throw,
    [undefined] otherwise), and the key-value storage of its [warp] is
    attached to that same client or to none. *)
Theorem configuration_is_wired `{Platform}
    (probe : FetchOutside -> Z -> M bool) says out w cfg w' :
  is_probe_of_helper probe says ->
  Arweave.initializeArweave probe out w = (Normal cfg, w') ->
  plugins (Arweave.warp cfg) = [DeployPlugin]
  /\ Arweave.redis cfg = expected_client w (Arweave.of_redis out)
  /\ kvStorageClient (Arweave.warp cfg) = Arweave.redis cfg
  /\ (JS.truthy (env w !! "REDIS_URL") = false -> Arweave.redis cfg = None).
Proof.
  intros Hp R.
  assert (Goal :
    plugins (Arweave.warp cfg) = [DeployPlugin]
    /\ Arweave.redis cfg = expected_client w (Arweave.of_redis out)
    /\ kvStorageClient (Arweave.warp cfg) = Arweave.redis cfg).
  { destruct (Arweave.isProduction (env w !! "NODE_ENV")) eqn:P.
    - destruct (production_run probe out w P) as (w2 & _ & _ & _ & Run).
      rewrite Run in R. cbv zeta in R. rewrite finish_runs in R.
      destruct (Arweave.production_wallet _ w2) as [[jwk|e] w3];
        [|discriminate].
      injection R as <- <-. cbn.
      destruct (expected_client w (Arweave.of_redis out)); auto.
    - destruct (development_run probe says out w
                  (probe_of_helper_requests probe says Hp) P)
        as (w2 & _ & _ & _ & Run).
      rewrite Run in R. cbv zeta in R. rewrite finish_runs in R.
      destruct (Arweave.development_wallet out _ w2) as [[jwk|e] w3];
        [|discriminate].
      injection R as <- <-. cbn.
      destruct (expected_client w (Arweave.of_redis out)),
        (says (Arweave.of_fetch out)); auto. }
  destruct Goal as (A & B & C). repeat (split; [assumption|]).
  intros T. rewrite B. unfold expected_client. now rewrite T.
Qed.

Lemma configuration_is_wired_witness :
  let w := fresh_world cache_env ∅ in
  let out := example_outside gateway_up in
  exists cfg,
    fst (@Arweave.initializeArweave example_platform
           Helper.checkArLocalRunning out w) = Normal cfg
    /\ plugins (Arweave.warp cfg) = [DeployPlugin]
    /\ Arweave.redis cfg = expected_client w (Arweave.of_redis out)
    /\ kvStorageClient (Arweave.warp cfg) = Arweave.redis cfg
    /\ (JS.truthy (env w !! "REDIS_URL") = false -> Arweave.redis cfg = None).
Proof.
  intros w out.
  destruct (@Arweave.initializeArweave example_platform
              Helper.checkArLocalRunning out w) as [c w'] eqn:R.
  destruct c as [cfg|e]; [|vm_compute in R; discriminate R].
  exists cfg. split; [reflexivity|].
  apply (@configuration_is_wired example_platform
           Helper.checkArLocalRunning reachable out w cfg w').
  - right. split; reflexivity.
  - exact R.
Defined.

(** X12.  Outside production a development wallet that cannot be used is
    replaced: when [./dev-wallet.json] exists but is not JSON, or parses to
    a keypair whose address cannot be derived, and a keypair can be
    generated, derived and written, [initializeArweave] returns the
    generated keypair and the file now holds its serialisation, the old
    content being lost. *)
Theorem development_replaces_unusable_wallet `{Platform}
    (probe : FetchOutside -> Z -> M bool) says out w content jwk addr :
  is_probe_of_helper probe says ->
  Arweave.isProduction (env w !! "NODE_ENV") = false ->
  fs w !! "./dev-wallet.json" = Some content ->
  JSON_parse content = None
  \/ (exists old, JSON_parse content = Some old /\ jwkToAddress old = None) ->
  Arweave.wallets_generate out = inl jwk ->
  jwkToAddress jwk = Some addr ->
  Arweave.writeFile_failure out = None ->
  exists cfg w',
    Arweave.initializeArweave probe out w = (Normal cfg, w')
    /\ Arweave.wallet cfg = jwk
    /\ fs w' = <["./dev-wallet.json" := JSON_stringify jwk]> (fs w).
Proof.
  intros Hp P Ef Bad Eg Ea Ew.
  destruct (development_run probe says out w
              (probe_of_helper_requests probe says Hp) P)
    as (w2 & E & F & _ & Run).
  rewrite Run. cbv zeta. rewrite finish_runs.
  assert (Rw : forall warp,
             exists w3,
               Arweave.development_wallet out warp w2 = (Normal jwk, w3)
               /\ fs w3 = <["./dev-wallet.json" := JSON_stringify jwk]> (fs w)).
  { intros warp.
    unfold Arweave.development_wallet, Arweave.wallets_jwkToAddress,
      Arweave.JSON_parse_or_throw, readFile, writeFile.
    unfold_M. unfold Arweave.devWalletPath. rewrite F, Ef.
    destruct Bad as [Pj | (old & Pj & Pa)]; rewrite Pj; cbn;
      rewrite ?Pa, Eg, Ea, Ew; cbn; eexists;
      (split; [reflexivity|]); cbn; now rewrite F. }
  destruct (Rw (use DeployPlugin
                  (Arweave.with_cache
                     (expected_client w (Arweave.of_redis out))
                     (if says (Arweave.of_fetch out)
                      then WarpFactory.forLocal 8080
                      else WarpFactory.forTestnet true))))
    as (w3 & R3 & F3).
  rewrite R3. eexists _, _. split; [reflexivity|].
  split; [reflexivity|exact F3].
Qed.

Lemma development_replaces_unusable_wallet_witness :
  let w := fresh_world ∅ corrupted_files in
  exists cfg w',
    @Arweave.initializeArweave example_platform Helper.checkArLocalRunning
      (example_outside gateway_up) w
    = (Normal cfg, w')
    /\ Arweave.wallet cfg = "generated"
    /\ fs w' = <["./dev-wallet.json" := "jwk:generated"]> (fs w).
Proof.
  intros w.
  apply (@development_replaces_unusable_wallet example_platform
           Helper.checkArLocalRunning reachable
           (example_outside gateway_up) w "{ truncated" "generated"
           "addr:generated").
  - right. split; reflexivity.
  - reflexivity.
  - reflexivity.
  - left. reflexivity.
  - reflexivity.
  - reflexivity.
  - reflexivity.
Defined.

(** ** The listeners, on arbitrary event streams *)

Lemma emit_other ev flag :
  is_ready_or_error ev = false ->
  emit_to long_lived_listeners ev flag = (flag, []).
Proof.
  unfold is_ready_or_error. intros E.
  apply orb_false_iff in E. destruct E as [Er Ee].
  unfold long_lived_listeners. cbn [emit_to].
  rewrite (String.eqb_sym "ready"), Er.
  rewrite (String.eqb_sym "error"), Ee. reflexivity.
Qed.

Lemma ready_or_error_cases ev :
  ev = "ready" \/ ev = "error" \/ is_ready_or_error ev = false.
Proof.
  unfold is_ready_or_error.
  destruct (String.eqb ev "ready") eqn:Er;
    [left; now apply String.eqb_eq|].
  destruct (String.eqb ev "error") eqn:Ee;
    [right; left; now apply String.eqb_eq|].
  right. right. reflexivity.
Qed.

Lemma emit_all_filter events :
  forall flag,
    emit_all long_lived_listeners events flag
    = emit_all long_lived_listeners
        (List.filter is_ready_or_error events) flag.
Proof.
  induction events as [|ev rest IH]; intros flag; [reflexivity|].
  destruct (ready_or_error_cases ev) as [-> | [-> | E]].
  - cbn [List.filter emit_all]. change (is_ready_or_error "ready") with true.
    cbn [emit_all]. rewrite emit_ready. now rewrite IH.
  - cbn [List.filter emit_all]. change (is_ready_or_error "error") with true.
    cbn [emit_all]. destruct flag.
    + rewrite emit_error_warned. now rewrite IH.
    + rewrite emit_error_quiet. now rewrite IH.
  - cbn [List.filter emit_all]. rewrite E, (emit_other ev flag E).
    rewrite IH. destruct (emit_all _ _ flag). reflexivity.
Qed.

Lemma filter_ready_or_error_Forall events :
  Forall (fun ev => ev = "ready" \/ ev = "error")
    (List.filter is_ready_or_error events).
Proof.
  induction events as [|ev rest IH]; [constructor|].
  cbn [List.filter].
  destruct (ready_or_error_cases ev) as [-> | [-> | E]].
  - constructor; auto.
  - constructor; auto.
  - now rewrite E.
Qed.

Lemma emit_all_flag events :
  forall flag,
    fst (emit_all long_lived_listeners events flag)
    = ends_in_error events flag.
Proof.
  induction events as [|ev rest IH]; intros flag; [reflexivity|].
  cbn [emit_all ends_in_error].
  destruct (ready_or_error_cases ev) as [-> | [-> | E]].
  - rewrite emit_ready. specialize (IH false).
    destruct (emit_all long_lived_listeners rest false). exact IH.
  - change (String.eqb "error" "ready") with false.
    change (String.eqb "error" "error") with true. cbn iota.
    specialize (IH true). destruct flag.
    + rewrite emit_error_warned.
      destruct (emit_all long_lived_listeners rest true). exact IH.
    + rewrite emit_error_quiet.
      destruct (emit_all long_lived_listeners rest true). exact IH.
  - rewrite (emit_other ev flag E).
    unfold is_ready_or_error in E. apply orb_false_iff in E.
    destruct E as [-> ->]. specialize (IH flag).
    destruct (emit_all long_lived_listeners rest flag). exact IH.
Qed.

Lemma emit_all_log_lines events :
  forall flag,
    length (List.filter is_log
              (snd (emit_all long_lived_listeners events flag)))
    = count_event "ready" events.
Proof.
  unfold count_event.
  induction events as [|ev rest IH]; intros flag; [reflexivity|].
  cbn [emit_all List.filter].
  destruct (ready_or_error_cases ev) as [-> | [-> | E]].
  - rewrite emit_ready. specialize (IH false).
    destruct (emit_all long_lived_listeners rest false) as [f o].
    cbn [snd] in *. rewrite List.filter_app, List.length_app, IH.
    reflexivity.
  - change (String.eqb "ready" "error") with false. cbn iota.
    specialize (IH true). destruct flag.
    + rewrite emit_error_warned.
      destruct (emit_all long_lived_listeners rest true) as [f o].
      cbn [snd app] in *. exact IH.
    + rewrite emit_error_quiet.
      destruct (emit_all long_lived_listeners rest true) as [f o].
      cbn [snd] in *. rewrite List.filter_app, List.length_app, IH.
      reflexivity.
  - rewrite (emit_other ev flag E).
    unfold is_ready_or_error in E. apply orb_false_iff in E.
    destruct E as [Er _]. rewrite (String.eqb_sym "ready"), Er.
    specialize (IH flag).
    destruct (emit_all long_lived_listeners rest flag) as [f o].
    cbn [snd app] in *. exact IH.
Qed.

Lemma old_initializeRedis_listeners out w r w' :
  HelperOld.initializeRedis out w = (Normal (Some r), w') ->
  listeners r = long_lived_listeners.
Proof.
  unfold HelperOld.initializeRedis, new_Redis, ping. unfold_M.
  destruct (JS.truthy (env w !! "REDIS_URL")); cbn; [|discriminate].
  destruct (redis_ctor out); cbn; [discriminate|].
  destruct (redis_ping out); cbn; [|discriminate].
  intros [= <- _]. reflexivity.
Qed.

(** X13.  On the client returned by either [initializeRedis], and for every
    stream of events of any names delivered from the initial state of the
    flag: events other than [ready] and [error] write nothing and change
    nothing, so the lines written are those of the stream restricted to
    [ready] and [error]; the number of warnings is the number of maximal
    runs of [error] events in that restricted stream; one line is logged
    per [ready] event; and the flag ends up raised exactly when the last
    [ready] or [error] event was an [error]. *)
Theorem listeners_ignore_other_events out w r w' (events : list string) :
  RedisConfig.initializeRedis out w = (Normal (Some r), w')
  \/ HelperOld.initializeRedis out w = (Normal (Some r), w') ->
  emit_all (listeners r) events false
  = emit_all (listeners r) (List.filter is_ready_or_error events) false
  /\ warnings (snd (emit_all (listeners r) events false))
     = error_runs (List.filter is_ready_or_error events)
  /\ length (List.filter is_log (snd (emit_all (listeners r) events false)))
     = count_event "ready" events
  /\ fst (emit_all (listeners r) events false) = ends_in_error events false.
Proof.
  intros R.
  assert (L : listeners r = long_lived_listeners).
  { destruct R as [R|R].
    - exact (initializeRedis_listeners _ _ _ _ R).
    - exact (old_initializeRedis_listeners _ _ _ _ R). }
  rewrite L. split; [apply emit_all_filter|]. split.
  - rewrite emit_all_filter.
    pose proof (warnings_count _ (filter_ready_or_error_Forall events) false)
      as W.
    cbn [andb] in W. lia.
  - split; [apply emit_all_log_lines|apply emit_all_flag].
Qed.

Lemma listeners_ignore_other_events_witness :
  let w := fresh_world cache_env ∅ in
  let r := long_lived_client w in
  let events := ["connect"; "ready"; "error"; "close"; "reconnecting";
                 "error"; "connect"; "ready"; "end"] in
  emit_all (listeners r) events false
  = emit_all (listeners r) (List.filter is_ready_or_error events) false
  /\ warnings (snd (emit_all (listeners r) events false))
     = error_runs (List.filter is_ready_or_error events)
  /\ length (List.filter is_log (snd (emit_all (listeners r) events false)))
     = count_event "ready" events
  /\ fst (emit_all (listeners r) events false) = ends_in_error events false.
Proof.
  intros w r events.
  apply (listeners_ignore_other_events server_up w r
           (snd (HelperOld.initializeRedis server_up w))).
  right. vm_compute. reflexivity.
Defined.

(** ** [checkRedisConnectivity]: further properties *)

Lemma poll_within_window (check : RedisOutside -> M HealthResult) r t :
  (forall out w,
      healthCheckCache w = Some (r, t) -> (clock w - t < 30000)%Z ->
      check out w = (Normal r, w)) ->
  forall calls w,
    healthCheckCache w = Some (r, t) ->
    Forall (fun call => (0 <= fst call)%Z) calls ->
    (clock w + total_idle calls - t < 30000)%Z ->
    fst (poll check calls w) = repeat (Normal r) (length calls)
    /\ net (snd (poll check calls w)) = net w
    /\ console (snd (poll check calls w)) = console w
    /\ healthCheckCache (snd (poll check calls w)) = Some (r, t)
    /\ clock (snd (poll check calls w)) = (clock w + total_idle calls)%Z.
Proof.
  intros Hit calls.
  induction calls as [|[idle out] rest IH]; intros w C Pos Win.
  - cbn. repeat split; try assumption; try reflexivity; lia.
  - inversion Pos as [|? ? Pi Pr]; subst. cbn [fst] in Pi.
    cbn [total_idle fold_right fst] in Win.
    fold (total_idle rest) in Win.
    assert (Nonneg : (0 <= total_idle rest)%Z).
    { clear - Pr. induction Pr as [|[i o] l Hi Hl IHl]; cbn; [lia|].
      cbn in Hi. fold (total_idle l). lia. }
    cbn [poll].
    rewrite (Hit out (set_clock (clock w + idle)%Z w) C);
      [|cbn; lia].
    specialize (IH (set_clock (clock w + idle)%Z w) C Pr).
    cbn [clock set_clock] in IH.
    destruct IH as (A & B & D & E & G); [lia|].
    destruct (poll check rest (set_clock (clock w + idle)%Z w))
      as [cs w2].
    cbn [fst snd length repeat total_idle fold_right] in *.
    fold (total_idle rest).
    rewrite A. repeat split; try assumption. lia.
Qed.

(** X14.  While a snapshot is younger than 30 seconds, any number of calls
    of [checkRedisConnectivity] (either text) costs nothing: for a cached
    snapshot stamped [t] and calls separated by idle times that keep the
    clock below [t + 30000], every call returns that snapshot, and at the
    end the network trace, the console and the cache slot are as they
    were. *)
Theorem polling_within_window_is_free calls w r t :
  healthCheckCache w = Some (r, t) ->
  Forall (fun call => (0 <= fst call)%Z) calls ->
  (clock w + total_idle calls - t < 30000)%Z ->
  (fst (poll HelperOld.checkRedisConnectivity calls w)
   = repeat (Normal r) (length calls)
   /\ net (snd (poll HelperOld.checkRedisConnectivity calls w)) = net w
   /\ console (snd (poll HelperOld.checkRedisConnectivity calls w))
      = console w
   /\ healthCheckCache (snd (poll HelperOld.checkRedisConnectivity calls w))
      = Some (r, t))
  /\ (fst (poll Helper.checkRedisConnectivity calls w)
      = repeat (Normal r) (length calls)
      /\ net (snd (poll Helper.checkRedisConnectivity calls w)) = net w
      /\ console (snd (poll Helper.checkRedisConnectivity calls w))
         = console w
      /\ healthCheckCache (snd (poll Helper.checkRedisConnectivity calls w))
         = Some (r, t)).
Proof.
  intros C Pos Win. split.
  - destruct (poll_within_window HelperOld.checkRedisConnectivity r t
                (fun out w0 => old_check_fresh out w0 r t) calls w C Pos Win)
      as (A & B & D & E & _).
    auto.
  - destruct (poll_within_window Helper.checkRedisConnectivity r t
                (fun out w0 => check_fresh out w0 r t) calls w C Pos Win)
      as (A & B & D & E & _).
    auto.
Qed.

Lemma polling_within_window_is_free_witness :
  let w := set_healthCheckCache (Some (HelperOld.ready, 0%Z))
             (fresh_world cache_env ∅) in
  let calls := [(5000%Z, server_down); (10000%Z, server_silent);
                (14999%Z, server_down)] in
  (fst (poll HelperOld.checkRedisConnectivity calls w)
   = repeat (Normal HelperOld.ready) (length calls)
   /\ net (snd (poll HelperOld.checkRedisConnectivity calls w)) = net w
   /\ console (snd (poll HelperOld.checkRedisConnectivity calls w))
      = console w
   /\ healthCheckCache (snd (poll HelperOld.checkRedisConnectivity calls w))
      = Some (HelperOld.ready, 0%Z))
  /\ (fst (poll Helper.checkRedisConnectivity calls w)
      = repeat (Normal HelperOld.ready) (length calls)
      /\ net (snd (poll Helper.checkRedisConnectivity calls w)) = net w
      /\ console (snd (poll Helper.checkRedisConnectivity calls w))
         = console w
      /\ healthCheckCache (snd (poll Helper.checkRedisConnectivity calls w))
         = Some (HelperOld.ready, 0%Z)).
Proof.
  intros w calls.
  apply (polling_within_window_is_free calls w HelperOld.ready 0%Z).
  - reflexivity.
  - unfold calls. repeat (constructor; [cbn; lia|]). constructor.
  - vm_compute. reflexivity.
Defined.

Lemma race_duration_bound out : (race_duration out <= 2000)%Z.
Proof.
  unfold race_duration.
  destruct (2000 <=? ping_elapsed out)%Z eqn:T; [lia|].
  apply Z.leb_gt in T. lia.
Qed.

(** X15.  A call of [checkRedisConnectivity] (either text), whatever its
    outcome, leaves the environment, the files and the console as they were
    (it logs nothing), and the clock has advanced by 2000 ms at most: the
    ping is never waited for beyond the timer. *)
Theorem health_check_is_quiet_and_bounded out w :
  (forall c w',
      HelperOld.checkRedisConnectivity out w = (c, w') ->
      env w' = env w /\ fs w' = fs w /\ console w' = console w
      /\ (clock w' <= clock w + 2000)%Z)
  /\ (forall c w',
      Helper.checkRedisConnectivity out w = (c, w') ->
      env w' = env w /\ fs w' = fs w /\ console w' = console w
      /\ (clock w' <= clock w + 2000)%Z).
Proof.
  pose proof (race_duration_bound out) as B.
  split; intros c w' R.
  - destruct (fresh_or_stale w) as [S | (r & t & C & A)].
    + rewrite (old_check_stale out w S) in R.
      destruct (JS.truthy (env w !! "REDIS_URL")) eqn:E.
      * revert R.
        unfold HelperOld.probe, HelperOld.cache_and_return, new_Redis,
          race_ping_timeout, disconnect.
        unfold_M. rewrite E. cbn. unfold race_duration in B.
        destruct (redis_ctor out); cbn;
          [intros [= <- <-]; cbn; repeat split; lia|].
        destruct (2000 <=? ping_elapsed out)%Z; cbn;
          [intros [= <- <-]; cbn; repeat split; lia|].
        destruct (redis_ping out); cbn;
          intros [= <- <-]; cbn; repeat split; lia.
      * rewrite (old_probe_not_configured out w E) in R.
        injection R as <- <-. cbn. repeat split. lia.
    + rewrite (old_check_fresh out w r t C A) in R.
      injection R as <- <-. repeat split. lia.
  - destruct (fresh_or_stale w) as [S | (r & t & C & A)].
    + rewrite (check_stale out w S) in R.
      destruct (JS.truthy (env w !! "REDIS_URL")) eqn:E.
      * revert R.
        unfold Helper.probe, Helper.cache_and_return, new_Redis,
          race_ping_timeout, disconnect.
        unfold_M. rewrite E. cbn. unfold race_duration in B.
        destruct (redis_ctor out); cbn;
          [intros [= <- <-]; cbn; repeat split; lia|].
        destruct (2000 <=? ping_elapsed out)%Z; cbn;
          [intros [= <- <-]; cbn; repeat split; lia|].
        destruct (redis_ping out); cbn;
          intros [= <- <-]; cbn; repeat split; lia.
      * rewrite (probe_not_configured out w E) in R.
        injection R as <- <-. cbn. repeat split. lia.
    + rewrite (check_fresh out w r t C A) in R.
      injection R as <- <-. repeat split. lia.
Qed.

(** X16.  The earlier [checkRedisConnectivity] never throws.  The later one
    throws in one case only: no snapshot younger than 30 seconds, an address
    configured and a constructor of the client that throws; it then throws
    the error of the constructor and leaves the state, the cached snapshot
    included, as it was. *)
Theorem health_check_throws_only_from_constructor out w :
  (exists r w', HelperOld.checkRedisConnectivity out w = (Normal r, w'))
  /\ (forall e w',
      Helper.checkRedisConnectivity out w = (Throw e, w') <->
      cache_stale w /\ JS.truthy (env w !! "REDIS_URL") = true
      /\ redis_ctor out = Some e /\ w' = w).
Proof.
  split.
  - destruct (old_check_total out w) as (r & t & w' & R & _). eauto.
  - intros e w'. split.
    + intros R.
      destruct (fresh_or_stale w) as [S | (r & t & C & A)].
      * rewrite (check_stale out w S) in R.
        destruct (JS.truthy (env w !! "REDIS_URL")) eqn:E.
        -- destruct (redis_ctor out) as [e0|] eqn:Ctor.
           ++ rewrite (probe_ctor_throws out w e0 E Ctor) in R.
              injection R as <- <-. auto.
           ++ destruct (probe_configured out w E Ctor) as (w1 & R1 & _).
              rewrite R1 in R. discriminate.
        -- rewrite (probe_not_configured out w E) in R. discriminate.
      * rewrite (check_fresh out w r t C A) in R. discriminate.
    + intros (S & E & Ctor & ->).
      rewrite (check_stale out w S).
      exact (probe_ctor_throws out w e E Ctor).
Qed.

(** ** [server.ts]: the allowed origins *)

Lemma split_no_separator sep o :
  StringOps.has_char sep o = false -> StringOps.split sep o = [o].
Proof.
  induction o as [|c o IH]; [reflexivity|].
  cbn [StringOps.has_char StringOps.split]. intros E.
  apply orb_false_iff in E. destruct E as [Ec Eo].
  rewrite Ec, (IH Eo). reflexivity.
Qed.

Lemma split_before_separator sep o rest :
  StringOps.has_char sep o = false ->
  StringOps.split sep (o +:+ String sep rest)
  = o :: StringOps.split sep rest.
Proof.
  induction o as [|c o IH].
  - intros _. change ("" +:+ String sep rest) with (String sep rest).
    cbn [StringOps.split]. now rewrite Ascii.eqb_refl.
  - cbn [StringOps.has_char]. intros E.
    apply orb_false_iff in E. destruct E as [Ec Eo].
    change (String c o +:+ String sep rest)
      with (String c (o +:+ String sep rest)).
    cbn [StringOps.split]. rewrite Ec, (IH Eo). reflexivity.
Qed.

Lemma split_concat_comma l :
  l <> [] ->
  Forall (fun o => StringOps.has_char "," o = false) l ->
  StringOps.split "," (String.concat "," l) = l.
Proof.
  induction l as [|o l IH]; [congruence|].
  intros _ F. inversion F as [|? ? Ho Hl]; subst.
  destruct l as [|o' l'].
  - cbn [String.concat]. now apply split_no_separator.
  - change (String.concat "," (o :: o' :: l'))
      with (o +:+ String "," (String.concat "," (o' :: l'))).
    rewrite (split_before_separator _ _ _ Ho), IH; [reflexivity| |exact Hl].
    discriminate.
Qed.

Lemma split_concat_comma_space l :
  l <> [] ->
  Forall (fun o => StringOps.has_char "," o = false) l ->
  map JS.trim (StringOps.split "," (String.concat ", " l)) = map JS.trim l.
Proof.
  induction l as [|o l IH]; [congruence|].
  intros _ F. inversion F as [|? ? Ho Hl]; subst.
  destruct l as [|o' l'].
  - cbn [String.concat]. now rewrite split_no_separator.
  - change (String.concat ", " (o :: o' :: l'))
      with (o +:+ String "," (String " " (String.concat ", " (o' :: l')))).
    rewrite (split_before_separator _ _ _ Ho).
    cbn [map]. f_equal.
    assert (Next : forall s,
               map JS.trim (StringOps.split "," (String " " s))
               = map JS.trim (StringOps.split "," s)).
    { intros s. cbn [StringOps.split].
      change (Ascii.eqb " " ",") with false. cbn iota.
      destruct (StringOps.split "," s) as [|piece pieces] eqn:E.
      - destruct s; cbn in E; [discriminate|].
        destruct (Ascii.eqb a ","); [discriminate|].
        destruct (StringOps.split "," s); discriminate.
      - cbn [map]. f_equal. }
    rewrite Next. apply IH; [discriminate|exact Hl].
Qed.

(** X17.  The origin check of [server.ts].  A request without an [Origin]
    header (or with an empty one) is always allowed.  Another origin is
    allowed exactly when it is one of the comma-separated pieces of [ORIGIN]
    after trimming, or, when [ORIGIN] is undefined, when it is
    [http://localhost:3000]; every other origin is refused with the error
    [Not allowed by CORS].  In particular an [ORIGIN] that is set but empty
    allows no origin at all: the default is not used then. *)
Theorem cors_allows_listed_origins (ORIGIN origin : option string) :
  (Server.origin (Server.allowedOrigins ORIGIN) origin = Server.Allowed
   \/ Server.origin (Server.allowedOrigins ORIGIN) origin
      = Server.Refused (JS.mkError "Not allowed by CORS"))
  /\ (Server.origin (Server.allowedOrigins ORIGIN) origin = Server.Allowed
      <-> JS.truthy origin = false
          \/ exists o,
               origin = Some o
               /\ match ORIGIN with
                  | Some s =>
                      exists piece,
                        In piece (StringOps.split "," s) /\ JS.trim piece = o
                  | None => o = "http://localhost:3000"
                  end)
  /\ (ORIGIN = Some "" ->
      JS.truthy origin = true ->
      Server.origin (Server.allowedOrigins ORIGIN) origin
      = Server.Refused (JS.mkError "Not allowed by CORS")).
Proof.
  unfold Server.origin, StringOps.includes.
  split; [|split].
  - destruct (negb (JS.truthy origin) || _)%bool; auto.
  - destruct (JS.truthy origin) eqn:T; cbn [negb orb].
    + destruct (truthy_Some _ T) as (o & -> & _). cbn [default from_option id].
      destruct (existsb (String.eqb o) (Server.allowedOrigins ORIGIN))
        eqn:E.
      * split; [intros _|reflexivity]. right. exists o. split; [reflexivity|].
        apply existsb_exists in E. destruct E as (x & Hin & Hx).
        apply String.eqb_eq in Hx. subst x.
        destruct ORIGIN as [s|]; cbn in Hin.
        -- apply in_map_iff in Hin. destruct Hin as (piece & Ht & Hp).
           eauto.
        -- destruct Hin as [<-|[]]. reflexivity.
      * split; [discriminate|].
        intros [F | (o' & [= <-] & Hm)]; [discriminate|].
        assert (Hin : In o (Server.allowedOrigins ORIGIN)).
        { destruct ORIGIN as [s|]; cbn.
          - destruct Hm as (piece & Hp & Ht). apply in_map_iff. eauto.
          - left. now rewrite Hm. }
        assert (existsb (String.eqb o) (Server.allowedOrigins ORIGIN) = true)
          as E'.
        { apply existsb_exists. exists o. split; [exact Hin|].
          apply String.eqb_refl. }
        congruence.
    + split; auto.
  - intros -> T. rewrite T. cbn [negb orb].
    destruct (truthy_Some _ T) as (o & -> & No).
    cbn. apply String.eqb_neq in No. now rewrite No.
Qed.

(** X18.  Writing a list of origins into [ORIGIN] and reading it back: for a
    non-empty list of origins without commas and without white space at
    their ends, joined by [","] or by [", "], the allowed origins are that
    list, so an origin is allowed exactly when it is absent, empty or in the
    list. *)
Theorem cors_origins_round_trip (l : list string) (origin : option string) :
  l <> [] ->
  Forall clean_origin l ->
  Server.allowedOrigins (Some (String.concat "," l)) = l
  /\ Server.allowedOrigins (Some (String.concat ", " l)) = l
  /\ (Server.origin (Server.allowedOrigins (Some (String.concat ", " l)))
        origin = Server.Allowed
      <-> JS.truthy origin = false \/ exists o, origin = Some o /\ In o l).
Proof.
  intros Ne F.
  assert (Fc : Forall (fun o => StringOps.has_char "," o = false) l).
  { eapply List.Forall_impl; [|exact F]. intros o [A _]. exact A. }
  assert (Ft : map JS.trim l = l).
  { clear - F. induction F as [|o l [_ Ho] Hl IH]; [reflexivity|].
    cbn [map]. now rewrite Ho, IH. }
  assert (A2 : Server.allowedOrigins (Some (String.concat ", " l)) = l).
  { unfold Server.allowedOrigins.
    now rewrite (split_concat_comma_space l Ne Fc). }
  split; [|split; [exact A2|]].
  - unfold Server.allowedOrigins. now rewrite (split_concat_comma l Ne Fc).
  - rewrite A2. unfold Server.origin, StringOps.includes.
    destruct (JS.truthy origin) eqn:T; cbn [negb orb].
    + destruct (truthy_Some _ T) as (o & -> & _). cbn [default from_option id].
      destruct (existsb (String.eqb o) l) eqn:E.
      * split; [intros _|reflexivity]. right. exists o. split; [reflexivity|].
        apply existsb_exists in E. destruct E as (x & Hin & Hx).
        apply String.eqb_eq in Hx. now subst x.
      * split; [discriminate|].
        intros [D | (o' & [= <-] & Hin)]; [discriminate|].
        assert (existsb (String.eqb o) l = true) as E'.
        { apply existsb_exists. exists o. split; [exact Hin|].
          apply String.eqb_refl. }
        congruence.
    + split; auto.
Qed.

Lemma cors_origins_round_trip_witness :
  let l := ["https://archivenet.io"; "https://app.archivenet.io"] in
  Server.allowedOrigins (Some (String.concat "," l)) = l
  /\ Server.allowedOrigins (Some (String.concat ", " l)) = l
  /\ (Server.origin (Server.allowedOrigins (Some (String.concat ", " l)))
        (Some "https://evil.example") = Server.Allowed
      <-> JS.truthy (Some "https://evil.example") = false
          \/ exists o, Some "https://evil.example" = Some o /\ In o l).
Proof.
  intros l.
  apply (cors_origins_round_trip l (Some "https://evil.example")).
  - discriminate.
  - unfold l. repeat (constructor; [split; vm_compute; reflexivity|]).
    constructor.
Defined.

(** ** [middlewares/contract.ts] *)

Section MiddlewareProperties.
Variable verify : string -> option ContractMiddleware.Contract.
Variable digest : string -> string.

Lemma token_of_bearer t :
  StringOps.has_char " " t = false ->
  ContractMiddleware.token_of ("Bearer " +:+ t) = t
  /\ forall rest,
       ContractMiddleware.token_of ("Bearer " +:+ t +:+ " " +:+ rest) = t.
Proof.
  intros Ht. unfold ContractMiddleware.token_of. split.
  - change ("Bearer " +:+ t) with ("Bearer" +:+ String " " t).
    rewrite split_before_separator by reflexivity.
    now rewrite (split_no_separator _ _ Ht).
  - intros rest.
    change ("Bearer " +:+ t +:+ " " +:+ rest)
      with ("Bearer" +:+ String " " (t +:+ String " " rest)).
    rewrite split_before_separator by reflexivity.
    now rewrite (split_before_separator _ _ _ Ht).
Qed.

Lemma findHashedKeyInDb_found out keyHash table row :
  Instances.findHashedKeyInDb out keyHash table = Normal (Some row) ->
  Instances.db_error out = None /\ In row table
  /\ Instances.instanceKeyHash row = keyHash.
Proof.
  unfold Instances.findHashedKeyInDb, Instances.findFirst.
  destruct (Instances.db_error out); [discriminate|].
  intros [= E]. apply List.find_some in E. destruct E as [Hin Hk].
  apply String.eqb_eq in Hk. auto.
Qed.

Lemma findHashedKeyInDb_finds out keyHash table row :
  Instances.db_error out = None -> In row table ->
  Instances.instanceKeyHash row = keyHash ->
  exists row',
    Instances.findHashedKeyInDb out keyHash table = Normal (Some row').
Proof.
  intros E Hin Hk.
  unfold Instances.findHashedKeyInDb, Instances.findFirst. rewrite E.
  destruct (List.find _ table) as [row'|] eqn:F; [eauto|].
  pose proof (List.find_none _ _ F row Hin) as N. cbn in N.
  rewrite Hk, String.eqb_refl in N. discriminate.
Qed.

(** X19.  The contract middleware calls [next()] exactly when the
    [Authorization] header starts with [Bearer ], the token (its second
    space-separated field) is accepted by [verifyContractHash], the database
    answers and holds an instance whose key hash is the SHA-256 digest of
    the token, and the [x-contract-id] header is absent, empty or equal to
    the contract id of the payload; [req.contract] is then the payload that
    [verifyContractHash] returned. *)
Theorem middleware_calls_next_iff out table authorization x_contract_id p :
  ContractMiddleware.verifyContractHashMiddleware verify digest out table
    authorization x_contract_id
  = Normal (ContractMiddleware.Next p)
  <-> exists h,
        authorization = Some h
        /\ String.prefix "Bearer " h = true
        /\ verify (ContractMiddleware.token_of h) = Some p
        /\ Instances.db_error out = None
        /\ (exists row,
              In row table
              /\ Instances.instanceKeyHash row
                 = digest (ContractMiddleware.token_of h))
        /\ (JS.truthy x_contract_id = false
            \/ x_contract_id = Some (ContractMiddleware.contractId p)).
Proof.
  unfold ContractMiddleware.verifyContractHashMiddleware. split.
  - destruct (JS.truthy authorization) eqn:T; cbn [negb orb];
      [|discriminate].
    destruct (truthy_Some _ T) as (h & -> & _). cbn [default from_option id].
    destruct (String.prefix "Bearer " h) eqn:B; cbn [negb]; [|discriminate].
    destruct (verify (ContractMiddleware.token_of h)) as [payload|] eqn:V;
      [|discriminate].
    destruct (Instances.findHashedKeyInDb out _ table) as [[row|]|e] eqn:F;
      try discriminate.
    destruct (findHashedKeyInDb_found _ _ _ _ F) as (Db & Hin & Hk).
    destruct (JS.truthy x_contract_id) eqn:X; cbn [andb].
    + destruct (truthy_Some _ X) as (x & -> & _).
      cbn [default from_option id].
      destruct (String.eqb (ContractMiddleware.contractId payload) x) eqn:Eq;
        cbn [negb]; [|discriminate].
      apply String.eqb_eq in Eq. intros [= <-].
      exists h. split; [reflexivity|]. split; [exact B|].
      split; [exact V|]. split; [exact Db|].
      split; [exists row; auto|].
      right. now rewrite Eq.
    + intros [= <-].
      exists h. split; [reflexivity|]. split; [exact B|].
      split; [exact V|]. split; [exact Db|].
      split; [exists row; auto|].
      now left.
  - intros (h & -> & B & V & Db & (row & Hin & Hk) & X).
    cbn [JS.truthy default from_option id].
    assert (T : JS.truthy (Some h) = true).
    { destruct h; [discriminate B|reflexivity]. }
    cbn [JS.truthy] in T. rewrite T, B. cbn [negb orb]. rewrite V.
    destruct (findHashedKeyInDb_finds out _ table row Db Hin Hk)
      as (row' & ->).
    destruct X as [X | ->].
    + rewrite X. reflexivity.
    + cbn [default from_option id]. rewrite String.eqb_refl.
      now rewrite andb_false_r.
Qed.

(** X20.  Only the second space-separated field of the [Authorization]
    header is the token: for a token without spaces, whatever follows it
    after a space is ignored, and the middleware ends on [Bearer <token>
    <anything>] as it does on [Bearer <token>]. *)
Theorem middleware_ignores_trailing_fields out table x_contract_id t rest :
  StringOps.has_char " " t = false ->
  ContractMiddleware.token_of ("Bearer " +:+ t) = t
  /\ ContractMiddleware.token_of ("Bearer " +:+ t +:+ " " +:+ rest) = t
  /\ ContractMiddleware.verifyContractHashMiddleware verify digest out table
       (Some ("Bearer " +:+ t +:+ " " +:+ rest)) x_contract_id
     = ContractMiddleware.verifyContractHashMiddleware verify digest out
         table (Some ("Bearer " +:+ t)) x_contract_id.
Proof.
  intros Ht. destruct (token_of_bearer t Ht) as [A B].
  split; [exact A|]. split; [exact (B rest)|].
  unfold ContractMiddleware.verifyContractHashMiddleware.
  cbn [default from_option id]. rewrite A, (B rest).
  change (JS.truthy (Some ("Bearer " +:+ t +:+ " " +:+ rest))) with true.
  change (JS.truthy (Some ("Bearer " +:+ t))) with true.
  rewrite !prefix_append. reflexivity.
Qed.

(** X21.  The middleware answers before it consults the database when
    authentication fails: with no [Authorization] header, a header that does
    not start with [Bearer ], or a token that [verifyContractHash] rejects,
    it responds 401 whatever the database holds and even when the database
    cannot be reached.  The only exception it lets through is the error of
    the database, and only for a verified token. *)
Theorem middleware_rejects_before_database out table authorization
    x_contract_id :
  (JS.truthy authorization = false
   \/ String.prefix "Bearer " (default "" authorization) = false ->
   ContractMiddleware.verifyContractHashMiddleware verify digest out table
     authorization x_contract_id
   = Normal (ContractMiddleware.Responded 401
               "Missing or invalid Authorization header"))
  /\ (JS.truthy authorization = true ->
      String.prefix "Bearer " (default "" authorization) = true ->
      verify (ContractMiddleware.token_of (default "" authorization)) = None ->
      ContractMiddleware.verifyContractHashMiddleware verify digest out table
        authorization x_contract_id
      = Normal (ContractMiddleware.Responded 401
                  "Invalid or expired contract token"))
  /\ (forall e,
      ContractMiddleware.verifyContractHashMiddleware verify digest out table
        authorization x_contract_id = Throw e ->
      Instances.db_error out = Some e
      /\ exists p,
           verify (ContractMiddleware.token_of (default "" authorization))
           = Some p).
Proof.
  unfold ContractMiddleware.verifyContractHashMiddleware.
  split; [|split].
  - intros [T | B]; [now rewrite T|].
    rewrite B. cbn [negb]. now rewrite orb_true_r.
  - intros T B V. now rewrite T, B, V.
  - intros e.
    destruct (negb (JS.truthy authorization) || _)%bool; [discriminate|].
    destruct (verify _) as [p|]; [|discriminate].
    unfold Instances.findHashedKeyInDb, Instances.findFirst.
    destruct (Instances.db_error out) as [e'|].
    + intros [= <-]. eauto.
    + destruct (List.find _ table); [|discriminate].
      destruct (JS.truthy x_contract_id && _)%bool; discriminate.
Qed.

End MiddlewareProperties.

Lemma middleware_ignores_trailing_fields_witness :
  ContractMiddleware.token_of ("Bearer " +:+ "ok-c1") = "ok-c1"
  /\ ContractMiddleware.token_of ("Bearer " +:+ "ok-c1" +:+ " " +:+ "x y")
     = "ok-c1"
  /\ ContractMiddleware.verifyContractHashMiddleware example_verify
       example_digest db_up [example_instance]
       (Some ("Bearer " +:+ "ok-c1" +:+ " " +:+ "x y")) (Some "c1")
     = ContractMiddleware.verifyContractHashMiddleware example_verify
         example_digest db_up [example_instance]
         (Some ("Bearer " +:+ "ok-c1")) (Some "c1").
Proof.
  apply (middleware_ignores_trailing_fields example_verify example_digest
           db_up [example_instance] (Some "c1") "ok-c1" "x y").
  reflexivity.
Defined.

Example middleware_outcomes :
  let run := ContractMiddleware.verifyContractHashMiddleware example_verify
               example_digest db_up [example_instance] in
  run (Some "Bearer ok-c1") None
  = Normal (ContractMiddleware.Next
              {| ContractMiddleware.contractId := "c1";
                 ContractMiddleware.userId := "user_1";
                 ContractMiddleware.createdAt := 0 |})
  /\ run (Some "Bearer ok-c1") (Some "c2")
     = Normal (ContractMiddleware.Responded 403 "Contract ID mismatch")
  /\ run (Some "Bearer ok-c9") None
     = Normal (ContractMiddleware.Responded 403
                 "Unknown or expired contract token")
  /\ run (Some "Bearer  ok-c1") None
     = Normal (ContractMiddleware.Responded 401
                 "Invalid or expired contract token")
  /\ run (Some "bearer ok-c1") None
     = Normal (ContractMiddleware.Responded 401
                 "Missing or invalid Authorization header").
Proof. vm_compute. repeat split; reflexivity. Qed.

(** ** [database/models/instances.ts] *)

Section InstanceTable.
Variable out : Instances.DbOutside.
Hypothesis db_answers : Instances.db_error out = None.
Variable uuid_in : string -> option string.

Lemma head_map_filter {A B} (f : A -> B) (m : A -> bool) (l : list A) :
  head (map f (List.filter m l)) = option_map f (List.find m l).
Proof.
  induction l as [|a l IH]; [reflexivity|].
  cbn [List.filter List.find]. destruct (m a); [reflexivity|exact IH].
Qed.

Lemma find_map_update (f : Instances.Instance -> Instances.Instance)
    (m m' : Instances.Instance -> bool) (l : list Instances.Instance) :
  (forall r, m' (f r) = m' r) ->
  (forall r, m r = true -> m' r = true -> False) ->
  List.find m' (map (fun r => if m r then f r else r) l) = List.find m' l.
Proof.
  intros Pres Disj. induction l as [|a l IH]; [reflexivity|].
  cbn [map List.find]. destruct (m a) eqn:Ma.
  - rewrite Pres. destruct (m' a) eqn:Ma'; [|exact IH].
    destruct (Disj a Ma Ma').
  - destruct (m' a); [reflexivity|exact IH].
Qed.

Lemma filter_map_update (f : Instances.Instance -> Instances.Instance)
    (m m' : Instances.Instance -> bool) (l : list Instances.Instance) :
  (forall r, m' (f r) = m' r) ->
  (forall r, m r = true -> m' r = true -> False) ->
  List.filter m' (map (fun r => if m r then f r else r) l)
  = List.filter m' l.
Proof.
  intros Pres Disj. induction l as [|a l IH]; [reflexivity|].
  cbn [map List.filter]. destruct (m a) eqn:Ma.
  - rewrite Pres. destruct (m' a) eqn:Ma'; [|exact IH].
    destruct (Disj a Ma Ma').
  - destruct (m' a); [now rewrite IH|exact IH].
Qed.

Lemma find_map_same (f : Instances.Instance -> Instances.Instance)
    (m : Instances.Instance -> bool) (l : list Instances.Instance) :
  (forall r, m (f r) = m r) ->
  List.find m (map (fun r => if m r then f r else r) l)
  = option_map f (List.find m l).
Proof.
  intros Pres. induction l as [|a l IH]; [reflexivity|].
  cbn [map List.find]. destruct (m a) eqn:Ma.
  - now rewrite Pres, Ma.
  - now rewrite Ma.
Qed.

Lemma map_update_none (f : Instances.Instance -> Instances.Instance)
    (m : Instances.Instance -> bool) (l : list Instances.Instance) :
  List.find m l = None -> map (fun r => if m r then f r else r) l = l.
Proof.
  induction l as [|a l IH]; [reflexivity|].
  cbn [map List.find]. destruct (m a); [discriminate|].
  intros E. now rewrite (IH E).
Qed.

Lemma other_user (user other : string) (r : Instances.Instance) :
  other <> user ->
  String.eqb (Instances.userId r) user = true ->
  String.eqb (Instances.userId r) other = true -> False.
Proof.
  intros N A B. apply String.eqb_eq in A, B. congruence.
Qed.

(** X22.  [updateInstanceKeyHash], on a database that answers.  It returns
    the instance of the user with the new key hash and the new update time,
    every other column as it was, or [undefined] when the user has no
    instance, in which case the table is unchanged.  Afterwards
    [getInstanceByUserId] returns that updated row and [findHashedKeyInDb]
    finds a row for the new hash; the number of rows is the same, and what
    [getInstanceByUserId] and [listInstances] return for any other user is
    what they returned before. *)
Theorem updated_key_hash_is_found user keyHash table :
  let f := Instances.set_instanceKeyHash keyHash (Instances.now out) in
  exists o table',
    Instances.getInstanceByUserId out user table = Normal o
    /\ Instances.updateInstanceKeyHash out user keyHash table
       = (Normal (option_map f o), table')
    /\ Instances.getInstanceByUserId out user table'
       = Normal (option_map f o)
    /\ (o = None -> table' = table)
    /\ (o <> None ->
        exists row,
          Instances.findHashedKeyInDb out keyHash table' = Normal (Some row)
          /\ Instances.instanceKeyHash row = keyHash)
    /\ length table' = length table
    /\ forall other,
         other <> user ->
         Instances.getInstanceByUserId out other table'
         = Instances.getInstanceByUserId out other table
         /\ Instances.listInstances out other table'
            = Instances.listInstances out other table.
Proof.
  intros f.
  unfold Instances.getInstanceByUserId, Instances.findHashedKeyInDb,
    Instances.findFirst, Instances.updateInstanceKeyHash,
    Instances.listInstances.
  rewrite db_answers.
  set (m := fun r => String.eqb (Instances.userId r) user).
  exists (List.find m table), (map (fun r => if m r then f r else r) table).
  split; [reflexivity|]. split; [now rewrite head_map_filter|].
  split; [now rewrite (find_map_same f m table (fun r => eq_refl))|].
  split; [apply map_update_none|].
  split; [|split; [apply length_map|]].
  - intros Some_o.
    destruct (List.find m table) as [r|] eqn:Fm; [|congruence].
    destruct (List.find_some _ _ Fm) as [Hin Hm].
    assert (Hin' : In (f r) (map (fun r => if m r then f r else r) table)).
    { apply in_map_iff. exists r. now rewrite Hm. }
    destruct (List.find
                (fun row => String.eqb (Instances.instanceKeyHash row) keyHash)
                (map (fun r => if m r then f r else r) table))
      as [row|] eqn:Fh.
    + exists row. split; [reflexivity|].
      destruct (List.find_some _ _ Fh) as [_ Hk].
      now apply String.eqb_eq in Hk.
    + pose proof (List.find_none _ _ Fh (f r) Hin') as N.
      cbn in N. rewrite String.eqb_refl in N. discriminate.
  - intros other Ne. split.
    + f_equal. apply find_map_update; [reflexivity|].
      intros r. apply (other_user user other r Ne).
    + f_equal. apply filter_map_update; [reflexivity|].
      intros r. apply (other_user user other r Ne).
Qed.

(** X23.  [deleteInstance], on a database that answers, for any reading
    [uuid_in] of uuids.  When the given id is no uuid the query is rejected
    and the table is unchanged.  When it denotes a uuid, the rows removed
    are those that have both the given user and that uuid and no other: a
    row is in the table afterwards exactly when it was there and differs in
    user or in uuid.  In both cases the instances of any other user are
    untouched, whatever id is given. *)
Theorem delete_needs_user_and_id user id_ table :
  exists c table',
    Instances.deleteInstance uuid_in out user id_ table = (c, table')
    /\ match uuid_in id_ with
       | Some u =>
           c = Normal tt
           /\ forall row,
                In row table'
                <-> In row table
                    /\ ~ (Instances.userId row = user /\ Instances.id row = u)
       | None => c = Throw Instances.invalid_uuid /\ table' = table
       end
    /\ forall other,
         other <> user ->
         Instances.listInstances out other table'
         = Instances.listInstances out other table
         /\ Instances.getInstanceByUserId out other table'
            = Instances.getInstanceByUserId out other table.
Proof.
  unfold Instances.deleteInstance, Instances.listInstances,
    Instances.getInstanceByUserId, Instances.findFirst.
  rewrite db_answers.
  destruct (uuid_in id_) as [u|];
    [|eexists _, _; split; [reflexivity|]; split; [split; reflexivity|];
      intros other _; split; reflexivity].
  eexists _, _. split; [reflexivity|]. split; [split; [reflexivity|]|].
  - intros row. rewrite List.filter_In. split.
    + intros [Hin Hk]. split; [exact Hin|]. intros [Hu Hi].
      rewrite Hu, Hi, !String.eqb_refl in Hk. discriminate.
    + intros [Hin Hn]. split; [exact Hin|].
      destruct (String.eqb (Instances.userId row) user) eqn:Eu;
        [|reflexivity].
      destruct (String.eqb (Instances.id row) u) eqn:Ei; [|reflexivity].
      apply String.eqb_eq in Eu, Ei. destruct Hn. auto.
  - intros other Ne. split; f_equal.
    + induction table as [|a l IH]; [reflexivity|].
      cbn [List.filter].
      destruct (String.eqb (Instances.userId a) user) eqn:Eu; cbn [andb negb].
      * destruct (String.eqb (Instances.userId a) other) eqn:Eo;
          [destruct (other_user user other a Ne Eu Eo)|].
        destruct (String.eqb (Instances.id a) u); cbn [negb List.filter];
          rewrite ?Eo; exact IH.
      * cbn [List.filter].
        destruct (String.eqb (Instances.userId a) other); now rewrite IH.
    + induction table as [|a l IH]; [reflexivity|].
      cbn [List.filter List.find].
      destruct (String.eqb (Instances.userId a) user) eqn:Eu; cbn [andb negb].
      * destruct (String.eqb (Instances.userId a) other) eqn:Eo;
          [destruct (other_user user other a Ne Eu Eo)|].
        destruct (String.eqb (Instances.id a) u); cbn [negb List.find];
          rewrite ?Eo; exact IH.
      * cbn [List.find].
        destruct (String.eqb (Instances.userId a) other);
          [reflexivity|exact IH].
Qed.

(** X24.  [createInstance], on a database that answers.  For a user who has
    an instance already it throws and leaves the table as it is (the column
    [user_id] is unique).  For a user without an instance and an identifier
    not yet taken it adds one row and returns it: the row has the given key
    hash, name and description, an empty wallet address, is inactive and has
    never been used; [getInstanceByUserId] then returns that row, and the
    rows that were there are still there, in the same order. *)
Theorem created_instance_is_found user keyHash name description table :
  (forall r,
      Instances.getInstanceByUserId out user table = Normal (Some r) ->
      Instances.createInstance out user keyHash name description table
      = (Throw Instances.unique_violation, table))
  /\ (Instances.getInstanceByUserId out user table = Normal None ->
      (forall r, In r table ->
                 Instances.id r <> Instances.random_uuid out) ->
      exists row,
        Instances.createInstance out user keyHash name description table
        = (Normal [row], table ++ [row])
        /\ Instances.getInstanceByUserId out user (table ++ [row])
           = Normal (Some row)
        /\ Instances.userId row = user
        /\ Instances.instanceKeyHash row = keyHash
        /\ Instances.name row = name
        /\ Instances.description row = Some description
        /\ Instances.arweave_wallet_address row = ""
        /\ Instances.isActive row = false
        /\ Instances.lastUsedAt row = None
        /\ Instances.createdAt row = Instances.now out
        /\ Instances.updatedAt row = Instances.now out).
Proof.
  unfold Instances.getInstanceByUserId, Instances.findFirst,
    Instances.createInstance.
  rewrite db_answers. split.
  - intros r [= Fr]. destruct (List.find_some _ _ Fr) as [Hin Hu].
    assert (E : existsb
                  (fun r0 =>
                     (String.eqb (Instances.userId r0) user
                      || String.eqb (Instances.id r0)
                           (Instances.random_uuid out))%bool) table = true).
    { apply existsb_exists. exists r. split; [exact Hin|]. now rewrite Hu. }
    now rewrite E.
  - intros [= Fn] Fresh.
    assert (E : existsb
                  (fun r0 =>
                     (String.eqb (Instances.userId r0) user
                      || String.eqb (Instances.id r0)
                           (Instances.random_uuid out))%bool) table = false).
    { destruct (existsb _ table) eqn:E; [|reflexivity].
      apply existsb_exists in E. destruct E as (r & Hin & Hr).
      apply orb_true_iff in Hr. destruct Hr as [Hu | Hi].
      - pose proof (List.find_none _ _ Fn r Hin) as N. cbn in N. congruence.
      - apply String.eqb_eq in Hi. destruct (Fresh r Hin Hi). }
    rewrite E. eexists. split; [reflexivity|]. split.
    + f_equal. clear E Fresh.
      induction table as [|a l IH].
      * cbn. now rewrite String.eqb_refl.
      * cbn [app List.find] in *.
        destruct (String.eqb (Instances.userId a) user); [discriminate|].
        exact (IH Fn).
    + cbn. repeat split.
Qed.

End InstanceTable.

Lemma created_instance_is_found_witness :
  exists row,
    Instances.createInstance db_up "user_2" "" "Default Instance"
      "Your ArchiveNET instance" [example_instance]
    = (Normal [row], [example_instance] ++ [row])
    /\ Instances.getInstanceByUserId db_up "user_2" ([example_instance] ++ [row])
       = Normal (Some row)
    /\ Instances.userId row = "user_2"
    /\ Instances.instanceKeyHash row = ""
    /\ Instances.name row = "Default Instance"
    /\ Instances.description row = Some "Your ArchiveNET instance"
    /\ Instances.arweave_wallet_address row = ""
    /\ Instances.isActive row = false
    /\ Instances.lastUsedAt row = None
    /\ Instances.createdAt row = Instances.now db_up
    /\ Instances.updatedAt row = Instances.now db_up.
Proof.
  apply (proj2 (created_instance_is_found db_up eq_refl "user_2" ""
                  "Default Instance" "Your ArchiveNET instance"
                  [example_instance])).
  - reflexivity.
  - intros r [<-|[]]. discriminate.
Defined.

Lemma updated_key_hash_is_found_witness :
  let f := Instances.set_instanceKeyHash "h(ok-c2)" (Instances.now db_up) in
  exists o table',
    Instances.getInstanceByUserId db_up "user_1" [example_instance] = Normal o
    /\ Instances.updateInstanceKeyHash db_up "user_1" "h(ok-c2)"
         [example_instance]
       = (Normal (option_map f o), table')
    /\ Instances.getInstanceByUserId db_up "user_1" table'
       = Normal (option_map f o)
    /\ (o = None -> table' = [example_instance])
    /\ (o <> None ->
        exists row,
          Instances.findHashedKeyInDb db_up "h(ok-c2)" table'
          = Normal (Some row)
          /\ Instances.instanceKeyHash row = "h(ok-c2)")
    /\ length table' = length [example_instance]
    /\ forall other,
         other <> "user_1" ->
         Instances.getInstanceByUserId db_up other table'
         = Instances.getInstanceByUserId db_up other [example_instance]
         /\ Instances.listInstances db_up other table'
            = Instances.listInstances db_up other [example_instance].
Proof.
  exact (updated_key_hash_is_found db_up eq_refl "user_1" "h(ok-c2)"
           [example_instance]).
Defined.

Lemma delete_needs_user_and_id_witness :
  let given := "3F2504E0-4F89-41D3-9A0C-0305E82C3301" in
  exists c table',
    Instances.deleteInstance standard_uuid_in db_up "user_2" given
      [uuid_instance]
    = (c, table')
    /\ match standard_uuid_in given with
       | Some u =>
           c = Normal tt
           /\ forall row,
                In row table'
                <-> In row [uuid_instance]
                    /\ ~ (Instances.userId row = "user_2"
                          /\ Instances.id row = u)
       | None => c = Throw Instances.invalid_uuid /\ table' = [uuid_instance]
       end
    /\ forall other,
         other <> "user_2" ->
         Instances.listInstances db_up other table'
         = Instances.listInstances db_up other [uuid_instance]
         /\ Instances.getInstanceByUserId db_up other table'
            = Instances.getInstanceByUserId db_up other [uuid_instance].
Proof.
  exact (delete_needs_user_and_id db_up eq_refl standard_uuid_in "user_2"
           "3F2504E0-4F89-41D3-9A0C-0305E82C3301" [uuid_instance]).
Defined.

(** The owner deletes by another spelling of the uuid; another user does
    not, whatever the spelling; a text that is no uuid is refused. *)
Example delete_by_uuid :
  Instances.deleteInstance standard_uuid_in db_up "user_1"
    "3F2504E0-4F89-41D3-9A0C-0305E82C3301" [uuid_instance]
  = (Normal tt, [])
  /\ Instances.deleteInstance standard_uuid_in db_up "user_2"
       "3f2504e0-4f89-41d3-9a0c-0305e82c3301" [uuid_instance]
     = (Normal tt, [uuid_instance])
  /\ Instances.deleteInstance standard_uuid_in db_up "user_1" "i-1"
       [uuid_instance]
     = (Throw Instances.invalid_uuid, [uuid_instance]).
Proof. vm_compute. repeat split; reflexivity. Qed.
